(** * GGRC core: schema migration, CSV column ordering and assessment hooks

    A shallow embedding of three files of the GGRC code base:

    - [ggrc/migrations/versions/20191009_9a38b1d92f3e_extend_tables_for_scope_objects.py]
      (module [Migration]),
    - [ggrc/converters/import_helper.py] (module [ImportHelper]),
    - [ggrc/models/hooks/assessment.py] (module [AssessmentHooks]).

    Python code that mutates objects, the per-request [flask.g] object or the
    database session is written in a state-and-exception monad: a computation
    takes the state, and gives back either a value or the exception that was
    raised, together with the state as it was left (a raise does not undo the
    mutations made before it). *)

From Stdlib Require Import ZArith Ascii String List Sorted Permutation Bool Lia.
From stdpp Require Import base decidable option list strings gmap fin_maps sets.

Local Open Scope string_scope.
Local Open Scope Z_scope.
Local Open Scope list_scope.

(** ** Exceptions and the effect monad *)

Inductive exn : Type :=
| NotImplementedError (msg : string)
| OperationalError (msg : string)
| StatusValidationError (msg : string)
| KeyError (key : string)
| TypeError (msg : string)
| AttributeError (msg : string)
| StopIteration.

Inductive result (A : Type) : Type :=
| Ok (a : A)
| Raise (e : exn).
Arguments Ok {A} a.
Arguments Raise {A} e.

Definition Eff (S A : Type) : Type := S -> result A * S.

Definition ret {S A} (a : A) : Eff S A := fun s => (Ok a, s).

Definition bind {S A B} (c : Eff S A) (k : A -> Eff S B) : Eff S B :=
  fun s =>
    match c s with
    | (Ok a, s') => k a s'
    | (Raise e, s') => (Raise e, s')
    end.

Definition raise {S A} (e : exn) : Eff S A := fun s => (Raise e, s).

Definition gets {S A} (f : S -> A) : Eff S A := fun s => (Ok (f s), s).

Definition modify {S} (f : S -> S) : Eff S unit := fun s => (Ok tt, f s).

(** [try: c except handles => handler]: the handler runs, on the state the
    body left, for the exceptions [handles] accepts; others pass through. *)
Definition try_except {S A} (c : Eff S A) (handles : exn -> bool)
    (handler : exn -> Eff S A) : Eff S A :=
  fun s =>
    match c s with
    | (Ok a, s') => (Ok a, s')
    | (Raise e, s') => if handles e then handler e s' else (Raise e, s')
    end.

Declare Scope eff_scope.
Delimit Scope eff_scope with eff.
Notation "'let*' x ':=' c 'in' k" := (bind c (fun x => k))
  (at level 10, x name, c at level 100, k at level 200) : eff_scope.
Notation "c '>>' k" := (bind c (fun _ => k))
  (at level 100, k at level 200, right associativity) : eff_scope.

(** A Python [for x in xs: body]. *)
Fixpoint for_each {S A} (xs : list A) (body : A -> Eff S unit) : Eff S unit :=
  match xs with
  | [] => ret tt
  | x :: xs' => bind (body x) (fun _ => for_each xs' body)
  end.

Definition is_StatusValidationError (e : exn) : bool :=
  match e with StatusValidationError _ => true | _ => false end.


(** [c] takes every state to a state related to it by [R], whether it
    returns or raises. *)
Definition keeps {S A} (R : S -> S -> Prop) (c : Eff S A) : Prop :=
  forall s, R s (snd (c s)).

(** ** The migration [9a38b1d92f3e]: extend tables for scope objects *)

Module Migration.

(** What the script hands to Alembic's [op]: column descriptions and DDL
    requests.  [col_autoincrement] is [None] where the keyword is not
    given. *)
Inductive sa_type : Type :=
| SaInteger
| SaString (length : nat).

Record Column : Type := mkColumn {
  col_name : string;
  col_type : sa_type;
  col_autoincrement : option bool;
  col_nullable : bool
}.

Record UniqueConstraint : Type := mkUnique {
  uq_name : string;
  uq_columns : list string
}.

Record Table : Type := mkTable {
  columns : list Column;
  uniques : list UniqueConstraint
}.

(** The database schema the migration runs against: tables by name. *)
Abbreviation Schema := (gmap string Table).

Definition has_column (t : Table) (n : string) : bool :=
  bool_decide (n ∈ col_name <$> columns t).

Definition has_unique (t : Table) (n : string) : bool :=
  bool_decide (n ∈ uq_name <$> uniques t).

(** [op.add_column(table, column)]: ALTER TABLE ... ADD COLUMN.  The
    database refuses it for an unknown table or a column name already
    taken. *)
Definition add_column (table : string) (c : Column) : Eff Schema unit :=
  fun db =>
    match db !! table with
    | None => (Raise (OperationalError "no such table"), db)
    | Some t =>
        if has_column t (col_name c)
        then (Raise (OperationalError "duplicate column name"), db)
        else (Ok tt,
              <[table := mkTable (columns t ++ [c]) (uniques t)]> db)
    end.

(** [op.create_unique_constraint(name, table, columns)].  Constraint names
    are per table; the columns must exist. *)
Definition create_unique_constraint (name table : string)
    (cols : list string) : Eff Schema unit :=
  fun db =>
    match db !! table with
    | None => (Raise (OperationalError "no such table"), db)
    | Some t =>
        if has_unique t name
        then (Raise (OperationalError "duplicate key name"), db)
        else if forallb (has_column t) cols
        then (Ok tt,
              <[table := mkTable (columns t)
                           (uniques t ++ [mkUnique name cols])]> db)
        else (Raise (OperationalError "key column does not exist"), db)
    end.

Definition revision : string := "9a38b1d92f3e".
Definition down_revision : string := "ddc897e22d54".

Definition scope_tables_names : gset string :=
  {[ "access_groups"; "account_balances"; "data_assets"; "facilities";
     "markets"; "org_groups"; "vendors"; "products"; "projects";
     "systems"; "key_reports"; "product_groups"; "metrics";
     "technology_environments" ]}.

Definition external_id_column : Column :=
  mkColumn "external_id" SaInteger (Some false) true.
Definition external_slug_column : Column :=
  mkColumn "external_slug" (SaString 255) (Some false) true.
Definition created_by_id_column : Column :=
  mkColumn "created_by_id" SaInteger None true.

Definition upgrade_table (name : string) : Eff Schema unit :=
  (add_column name external_id_column >>
   add_column name external_slug_column >>
   add_column name created_by_id_column >>
   create_unique_constraint "uq_external_id" name ["external_id"] >>
   create_unique_constraint "uq_external_slug" name ["external_slug"])%eff.

(** [upgrade()] iterates over a Python set, whose order is not fixed by
    the language: [order] is the order in which the iteration yields the
    names, any enumeration of the set without repetition. *)
Definition upgrade_in (order : list string) : Eff Schema unit :=
  for_each order upgrade_table.

Definition upgrade : Eff Schema unit :=
  upgrade_in (elements scope_tables_names).

Definition downgrade : Eff Schema unit :=
  raise (NotImplementedError "Downgrade is not supported").

(** The columns and constraints a scope table has after the upgrade. *)
Definition extended (t : Table) : Table :=
  mkTable
    (columns t ++
       [external_id_column; external_slug_column; created_by_id_column])
    (uniques t ++
       [mkUnique "uq_external_id" ["external_id"];
        mkUnique "uq_external_slug" ["external_slug"]]).

(** A table the upgrade has not been applied to. *)
Definition table_ready (t : Table) : bool :=
  negb (has_column t "external_id") &&
  negb (has_column t "external_slug") &&
  negb (has_column t "created_by_id") &&
  negb (has_unique t "uq_external_id") &&
  negb (has_unique t "uq_external_slug").

Definition schema_ready (db : Schema) : bool :=
  forallb
    (fun name =>
       match db !! name with
       | Some t => table_ready t
       | None => false
       end)
    (elements scope_tables_names).

(** A schema before the migration, with a table outside the scope set. *)
Definition plain_table : Table :=
  mkTable [mkColumn "id" SaInteger (Some true) false;
           mkColumn "title" (SaString 250) None false] [].

Definition sample_schema : Schema :=
  <["audits" := plain_table]>
    (list_to_map ((fun n => (n, plain_table)) <$> elements scope_tables_names)).

End Migration.

(** ** CSV import helpers: the order of columns *)

Module ImportHelper.

(** Attribute names are strings of bytes: a [str] as it is, a [unicode]
    name in UTF-8, whose order byte by byte is the order of the code
    points, by which Python compares two [unicode] strings.

    [v.lower()] is a method of Python's strings and depends on the kind of
    string: [str.lower] changes the letters [A]..[Z] only, [unicode.lower]
    every cased letter.  [get_column_order] is given it as [lower]; two
    instances follow. *)
Definition lower_ascii (c : ascii) : ascii :=
  let n := nat_of_ascii c in
  if (Nat.leb 65 n && Nat.leb n 90)%bool then ascii_of_nat (n + 32) else c.

(** [str.lower]: the letters [A]..[Z] only. *)
Fixpoint str_lower (s : string) : string :=
  match s with
  | EmptyString => EmptyString
  | String c s' => String (lower_ascii c) (str_lower s')
  end.

(** [unicode.lower] on names of ASCII and Latin-1 letters: in UTF-8 a
    capital of U+00C0..U+00DE, but for the sign U+00D7, is the byte 195
    and a byte of 128..158, and its small letter is 32 further. *)
Fixpoint unicode_lower_latin1 (s : string) : string :=
  match s with
  | EmptyString => EmptyString
  | String c s' =>
      match s' with
      | String d s'' =>
          let n := nat_of_ascii d in
          if (Nat.eqb (nat_of_ascii c) 195 && Nat.leb 128 n && Nat.leb n 158
              && negb (Nat.eqb n 151))%bool
          then String c (String (ascii_of_nat (n + 32))
                           (unicode_lower_latin1 s''))
          else String (lower_ascii c) (unicode_lower_latin1 s')
      | EmptyString => String (lower_ascii c) EmptyString
      end
  end.

Definition startswith (s p : string) : bool := String.prefix p s.

(** [list.sort(key=...)]: a stable sort, comparing the keys as byte
    strings.  An element is put in front of the first one whose key is
    not smaller, so elements with equal keys keep their order. *)
Section Sort.
Context {A : Type} (key : A -> string).

Fixpoint insert_by_key (x : A) (l : list A) : list A :=
  match l with
  | [] => [x]
  | y :: l' =>
      if String.leb (key x) (key y) then x :: y :: l'
      else y :: insert_by_key x l'
  end.

Definition sort_by_key (l : list A) : list A :=
  foldr insert_by_key [] l.
End Sort.

Section ColumnOrder.
(** [v.lower()], the method of the strings the list holds. *)
Variable lower : string -> string.
(** [ggrc.converters.COLUMN_ORDER], a tuple of attribute names declared
    outside the file. *)
Variable COLUMN_ORDER : list string.

Definition is_mapping (v : string) : bool := startswith (lower v) "map:".

Definition get_column_order (attr_list : list string) : list string :=
  let attr_set : gset string := list_to_set attr_list in
  let default_attrs := filter (fun v => v ∈ attr_set) COLUMN_ORDER in
  let default_set : gset string := list_to_set default_attrs in
  let other_attrs := filter (fun v => v ∉ default_set) attr_list in
  let custom_attrs :=
    filter (fun v => is_mapping v = false) other_attrs in
  let mapping_attrs :=
    filter (fun v => is_mapping v = true) other_attrs in
  let custom_attrs := sort_by_key lower custom_attrs in
  let mapping_attrs := sort_by_key lower mapping_attrs in
  default_attrs ++ custom_attrs ++ mapping_attrs.
End ColumnOrder.

(** The order of the keys, and with it the case-insensitive alphabetical
    order of attribute names: the order of their lowercase forms. *)
Definition key_le {A} (key : A -> string) (x y : A) : Prop :=
  String.leb (key x) (key y) = true.

Definition ci_le (lower : string -> string) : string -> string -> Prop :=
  key_le lower.

Definition sample_column_order : list string :=
  ["slug"; "title"; "description"; "notes"; "owners"].

Definition sample_attr_list : list string :=
  ["map:Control"; "zeta"; "title"; "Alpha"; "Map:audit"; "slug"; "beta";
   "title"; "beta"; "Beta"].

(** Names with letters beyond ASCII, the titles of custom attributes. *)
Definition sample_unicode_attr_list : list string :=
  ["Éb"; "map:zone"; "éa"; "title"; "Zulu"].

(** *** Tables of cells *)

(** The first cell of every row and the rows without it; [None] when a row
    is empty. *)
Fixpoint heads_tails {A} (rows : list (list A))
    : option (list A * list (list A)) :=
  match rows with
  | [] => Some ([], [])
  | [] :: _ => None
  | (x :: row) :: rows' =>
      match heads_tails rows' with
      | Some (hs, ts) => Some (x :: hs, row :: ts)
      | None => None
      end
  end.

(** At most [n] columns of [rows], up to the end of the shortest row. *)
Fixpoint zip_upto {A} (n : nat) (rows : list (list A)) : list (list A) :=
  match n with
  | O => []
  | S n' =>
      match heads_tails rows with
      | Some (hs, ts) => hs :: zip_upto n' ts
      | None => []
      end
  end.

(** Python 2's [zip] applied to the rows as its arguments: the list of the
    columns of [rows], as long as the shortest row; [zip()] is the empty
    list. *)
Definition zip_star {A} (rows : list (list A)) : list (list A) :=
  match rows with
  | [] => []
  | row :: _ => zip_upto (length row) rows
  end.

(** [extract_relevant_data]; [None] is the [IndexError] of [data.pop(0)] on
    an empty list. *)
Definition extract_relevant_data {A} (csv_data : list (list A))
    : option (list A * list (list A)) :=
  let transpose_data := zip_star (drop 1 csv_data) in
  let data := zip_star (drop 1 transpose_data) in
  match data with
  | [] => None
  | column_definitions :: data => Some (column_definitions, data)
  end.

(** The rows of the table whose columns are [cols], each of length [h]. *)
Definition rows_of_columns {A} (h : nat) (cols : list (list A))
    : list (list A) :=
  foldr (zip_with cons) (replicate h []) cols.

(** [equalize_array]: the rows are extended with empty strings to the
    length of the longest. *)
Definition equalize_array (array : list (list string)) : list (list string) :=
  if Nat.eqb (length array) 0 then array
  else
    let max_length := max_list (length <$> array) in
    (fun row =>
       let diff := (max_length - length row)%nat in
       row ++ replicate diff "") <$> array.

(** [generate_2d_array]; [range(n)] is empty for [n <= 0]. *)
Definition generate_2d_array {A} (width height : Z) (value : A)
    : list (list A) :=
  replicate (Z.to_nat height) (replicate (Z.to_nat width) value).

(** [update_definition]: the keys of [definition] that [values_dict] has
    take its values; [definition] gets no new key. *)
Definition update_definition {V} (definition values_dict : gmap string V)
    : gmap string V :=
  foldl (fun definition '(key, value) =>
           if bool_decide (is_Some (definition !! key))
           then <[key := value]> definition
           else definition)
    definition (map_to_list values_dict).

(** *** Column definitions of a class *)

Section ColumnDefinitions.
(** Handler classes, and what [getattr(object_class, name, None)] finds. *)
Variables Handler ClassAttr : Type.

(** The Python values a column definition or an alias holds. *)
#[warnings="-register-all"]
Inductive value : Type :=
| VNone
| VBool (b : bool)
| VStr (s : string)
| VHandler (h : Handler)
| VAttr (a : ClassAttr)
| VDict (items : gmap string value).

(** A custom attribute, as [get_custom_attribute_definitions()] lists it. *)
Record custom_attribute : Type := mkCustomAttribute {
  title : string;
  display_name : string;
  mandatory : bool
}.

(** What the helpers read of a model class: the aliases
    [AttributeInfo.gather_aliases] gives for it, whether each column of its
    table is nullable, its attributes, and its custom attributes. *)
Record object_class : Type := mkObjectClass {
  gather_aliases : gmap string value;
  table_columns : gmap string bool;
  class_attr : string -> option ClassAttr;
  get_custom_attribute_definitions : list custom_attribute
}.

(** [ggrc.converters.COLUMN_HANDLERS] and [handlers.ColumnHandler]. *)
Variable COLUMN_HANDLERS : gmap string Handler.
Variable ColumnHandler : Handler.

Definition value_truthy (v : value) : bool :=
  match v with
  | VNone => false
  | VBool b => b
  | VStr s => match s with EmptyString => false | _ => true end
  | VHandler _ | VAttr _ => true
  | VDict items => negb (Nat.eqb (size items) 0)
  end.

Definition custom_attribute_definition (attr : custom_attribute)
    : gmap string value :=
  let handler := default ColumnHandler (COLUMN_HANDLERS !! title attr) in
  <["display_name" := VStr (display_name attr)]>
    (<["mandatory" := VBool (mandatory attr)]>
       (<["handler" := VHandler handler]>
          (<["validator" := VNone]>
             (<["default" := VNone]>
                (<["description" := VStr ""]> ∅))))).

Definition get_custom_attributes_definitions (cls : object_class)
    : gmap string (gmap string value) :=
  let custom_attributes := get_custom_attribute_definitions cls in
  foldl (fun definitions attr =>
           <[title attr := custom_attribute_definition attr]> definitions)
    ∅ custom_attributes.

(** [getattr(object_class, name, None)] *)
Definition getattr_or_None (cls : object_class) (name : string) : value :=
  match class_attr cls name with
  | Some a => VAttr a
  | None => VNone
  end.

(** The body of the loop of [get_object_column_definitions], for one
    alias. *)
Definition column_definition (cls : object_class) (key : string)
    (alias : value) : gmap string value :=
  let column := table_columns cls !! key in
  let definition : gmap string value :=
    <["display_name" := alias]>
      (<["mandatory" :=
           VBool (match column with
                  | None => false
                  | Some nullable => negb nullable
                  end)]>
         (<["default" := getattr_or_None cls ("default_" +:+ key)]>
            (<["validator" := getattr_or_None cls ("validate_" +:+ key)]>
               (<["handler" :=
                    VHandler (default ColumnHandler (COLUMN_HANDLERS !! key))]>
                  (<["description" := VStr ""]> ∅))))) in
  match alias with
  | VDict items => update_definition definition items
  | _ => definition
  end.

Definition get_object_column_definitions (cls : object_class)
    : gmap string (gmap string value) :=
  let aliases := gather_aliases cls in
  let custom_attributes := default VNone (aliases !! "custom_attributes") in
  let aliases := delete "custom_attributes" aliases in
  let custom_attr_def :=
    if value_truthy custom_attributes
    then get_custom_attributes_definitions cls
    else ∅ in
  let definitions :=
    map_imap (fun key alias =>
                match alias with
                | VNone => None
                | _ => Some (column_definition cls key alias)
                end)
      aliases in
  custom_attr_def ∪ definitions.

(** The keys of a column definition. *)
Definition definition_keys : gset string :=
  {[ "display_name"; "mandatory"; "default"; "validator"; "handler";
     "description" ]}.
End ColumnDefinitions.

Arguments VNone {Handler ClassAttr}.
Arguments VBool {Handler ClassAttr} b.
Arguments VStr {Handler ClassAttr} s.
Arguments VHandler {Handler ClassAttr} h.
Arguments VAttr {Handler ClassAttr} a.
Arguments VDict {Handler ClassAttr} items.
Arguments mkObjectClass {Handler ClassAttr}.
Arguments gather_aliases {Handler ClassAttr}.
Arguments table_columns {Handler ClassAttr}.
Arguments class_attr {Handler ClassAttr}.
Arguments get_custom_attribute_definitions {Handler ClassAttr}.
Arguments value_truthy {Handler ClassAttr}.
Arguments custom_attribute_definition {Handler ClassAttr}.
Arguments get_custom_attributes_definitions {Handler ClassAttr}.
Arguments column_definition {Handler ClassAttr}.
Arguments get_object_column_definitions {Handler ClassAttr}.

(** A class with a title, a nullable description, a hidden alias, an alias
    given as a dict, and two custom attributes of the same title. *)
Definition sample_class : object_class string string :=
  mkObjectClass
    (<["title" := VStr "Title"]>
       (<["description" := VStr "Description"]>
          (<["secret" := VNone]>
             (<["owners" :=
                  VDict (<["display_name" := VStr "Admin"]>
                           (<["mandatory" := VBool true]>
                              (<["filter_by" := VStr "_filter_by_owners"]>
                                 ∅)))]>
                (<["custom_attributes" := VStr "custom"]> ∅)))))
    (<["title" := false]> (<["description" := true]> ∅))
    (fun name => if String.eqb name "validate_title"
                 then Some "validate_title" else None)
    [mkCustomAttribute "Severity" "Severity" false;
     mkCustomAttribute "Severity" "Severity" true].

Definition sample_handlers : gmap string string :=
  <["owners" := "OwnerColumnHandler"]> ∅.

(** *** Class names *)

Definition is_upper (c : ascii) : bool :=
  let n := nat_of_ascii c in (Nat.leb 65 n && Nat.leb n 90)%bool.

(** The longest prefix without a capital: what [[^A-Z]*] matches. *)
Fixpoint span_not_upper (s : string) : string :=
  match s with
  | EmptyString => EmptyString
  | String c s' => if is_upper c then EmptyString
                   else String c (span_not_upper s')
  end.

(** [re.findall('[A-Z][^A-Z]*', s)]: every capital starts a match, which
    runs up to the next capital. *)
Fixpoint findall_capitalized (s : string) : list string :=
  match s with
  | EmptyString => []
  | String c s' =>
      if is_upper c then String c (span_not_upper s') :: findall_capitalized s'
      else findall_capitalized s'
  end.

(** [sep.join(parts)] *)
Fixpoint join (sep : string) (parts : list string) : string :=
  match parts with
  | [] => EmptyString
  | [part] => part
  | part :: parts' => part +:+ sep +:+ join sep parts'
  end.

(** [pretty_class_name], on the name of the class. *)
Definition pretty_class_name (name : string) : string :=
  join " " (findall_capitalized name).

(** The string from its first capital on. *)
Fixpoint from_first_upper (s : string) : string :=
  match s with
  | EmptyString => EmptyString
  | String c s' => if is_upper c then s else from_first_upper s'
  end.

Fixpoint remove_spaces (s : string) : string :=
  match s with
  | EmptyString => EmptyString
  | String c s' =>
      if Ascii.eqb c " " then remove_spaces s' else String c (remove_spaces s')
  end.

Fixpoint has_space (s : string) : bool :=
  match s with
  | EmptyString => false
  | String c s' => Ascii.eqb c " " || has_space s'
  end.

End ImportHelper.

(** ** Assessment hooks *)

Module AssessmentHooks.

(** *** The objects the hooks work on

    The models of [ggrc.models.all_models], with the attributes the hooks
    read or write.  An attribute read through [getattr(obj, name, default)]
    or guarded by [hasattr] is an [option]: [None] when the object has no
    such attribute. *)

(** Values of the columns of a row stub (a Python dict by column name). *)
Inductive pyval : Type :=
| PyNone
| PyInt (z : Z)
| PyStr (s : string)
| PyBool (b : bool)
| PyDateTime (t : Z).

#[global] Instance pyval_eq_dec : EqDecision pyval.
Proof. solve_decision. Defined.

Abbreviation dict := (gmap string pyval).

Module Person.
Record t : Type := mk { id : Z; email : string }.
End Person.

(** An access control list of an object: its own id and the id of its
    access control role. *)
Module AccessControlList.
Record t : Type := mk { id : Z; ac_role_id : Z }.
End AccessControlList.

Module CustomAttributeDefinition.
(** A definition is known here through the dict [to_dict()] gives. *)
Record t : Type := mk { to_dict : dict }.
End CustomAttributeDefinition.

Module Audit.
Record t : Type := mk {
  id : Z;
  title : string;
  (** pairs [(person, acl)], as the property yields them *)
  access_control_list : list (Person.t * AccessControlList.t)
}.
End Audit.

Module Snapshot.
Record t : Type := mk { id : Z; child_type : string }.
End Snapshot.

(** The content of a snapshot's revision, a dict: the keys the hooks read.
    [None] is a missing key. *)
Module RevisionContent.
Record acl_entry : Type := mk_acl { ac_role_id : Z; person_id : Z }.
Record t : Type := mk {
  title : option string;
  test_plan : option string;
  access_control_list : option (list acl_entry)
}.
End RevisionContent.

(** A value of [template.default_people]: a role name, or a list of people
    ids. *)
Inductive people_setting : Type :=
| RoleName (name : string)
| PeopleIds (ids : list Z).

Module AssessmentTemplate.
Record t : Type := mk {
  id : Z;
  test_plan_procedure : bool;
  procedure_description : string;
  template_object_type : string;
  sox_302_enabled : bool;
  default_people : gmap string people_setting;
  custom_attribute_definitions : list CustomAttributeDefinition.t
}.
End AssessmentTemplate.

Module Assessment.
Record t : Type := mk {
  id : Z;
  status : string;
  verified : bool;
  sox_302_enabled : option bool;
  verifiers : option (list Person.t);
  preconditions_failed : option bool;
  title : string;
  test_plan : string;
  test_plan_procedure : bool;
  assessment_type : string
}.

Definition set_status (v : string) (a : t) : t :=
  mk (id a) v (verified a) (sox_302_enabled a) (verifiers a)
    (preconditions_failed a) (title a) (test_plan a)
    (test_plan_procedure a) (assessment_type a).
Definition set_sox_302_enabled (v : option bool) (a : t) : t :=
  mk (id a) (status a) (verified a) v (verifiers a)
    (preconditions_failed a) (title a) (test_plan a)
    (test_plan_procedure a) (assessment_type a).
Definition set_title (v : string) (a : t) : t :=
  mk (id a) (status a) (verified a) (sox_302_enabled a) (verifiers a)
    (preconditions_failed a) v (test_plan a)
    (test_plan_procedure a) (assessment_type a).
Definition set_test_plan (v : string) (a : t) : t :=
  mk (id a) (status a) (verified a) (sox_302_enabled a) (verifiers a)
    (preconditions_failed a) (title a) v
    (test_plan_procedure a) (assessment_type a).
Definition set_test_plan_procedure (v : bool) (a : t) : t :=
  mk (id a) (status a) (verified a) (sox_302_enabled a) (verifiers a)
    (preconditions_failed a) (title a) (test_plan a)
    v (assessment_type a).
Definition set_assessment_type (v : string) (a : t) : t :=
  mk (id a) (status a) (verified a) (sox_302_enabled a) (verifiers a)
    (preconditions_failed a) (title a) (test_plan a)
    (test_plan_procedure a) v.
End Assessment.

(** *** The state the hooks run in *)

(** The tables the hooks read or write, as lists of rows. *)
Record Tables : Type := mkTables {
  people : list Person.t;
  custom_attribute_definitions : list dict;
  access_control_list : list dict;
  access_control_people : list dict;
  assessments : list Assessment.t
}.

(** [db.session]: the committed tables, and the tables as the enclosing
    transaction sees them.  The handled assessment is attached to the
    session: what is set on it is pending until it is flushed, and its row
    is the one of its id in the table of assessments. *)
Record Session : Type := mkSession {
  committed : Tables;
  transaction : Tables
}.

(** An object the session has loaded from a table is known by the table
    and the place of its row: two rows with the same columns are two
    objects. *)
Inductive table_name : Type :=
| CustomAttributeDefinitionTable
| AccessControlPersonTable.

#[global] Instance table_name_eq_dec : EqDecision table_name.
Proof. solve_decision. Defined.

#[global] Instance table_name_countable : Countable table_name.
Proof.
  refine (inj_countable'
            (fun t => match t with
                      | CustomAttributeDefinitionTable => false
                      | AccessControlPersonTable => true
                      end)
            (fun b => if b then AccessControlPersonTable
                      else CustomAttributeDefinitionTable) _).
  now intros [].
Defined.

Abbreviation row_ref := (table_name * nat)%type.

(** [query.filter(...)] on a table: the places of the rows that pass. *)
Definition query (t : table_name) (passes : dict -> bool) (rows : list dict)
    : list row_ref :=
  (fun '(i, _) => (t, i)) <$>
    List.filter (fun '(_, row) => passes row)
      (imap (fun i row => (i, row)) rows).

(** [flask.g], the per-request object: each of the two buckets is [None]
    while the attribute does not exist. *)
Record FlaskG : Type := mkFlaskG {
  cads_to_batch_insert : option (list dict);
  acps_to_batch_insert : option (list dict)
}.

Record State : Type := mkState {
  obj : Assessment.t;          (* the assessment being handled *)
  g : FlaskG;
  session : Session;
  cache_new : option (gset row_ref); (* the keys of [cache.new]; [None]
                                        while the request has no cache *)
  utcnow_calls : nat;          (* readings of the clock so far *)
  log : list (Z * Z)           (* [logger.info] records *)
}.

Definition with_obj (f : Assessment.t -> Assessment.t) (s : State) : State :=
  mkState (f (obj s)) (g s) (session s) (cache_new s) (utcnow_calls s) (log s).
Definition with_g (f : FlaskG -> FlaskG) (s : State) : State :=
  mkState (obj s) (f (g s)) (session s) (cache_new s) (utcnow_calls s) (log s).
Definition with_session (f : Session -> Session) (s : State) : State :=
  mkState (obj s) (g s) (f (session s)) (cache_new s) (utcnow_calls s) (log s).
Definition with_cache_new
    (f : option (gset row_ref) -> option (gset row_ref)) (s : State)
    : State :=
  mkState (obj s) (g s) (session s) (f (cache_new s)) (utcnow_calls s) (log s).
Definition with_log (f : list (Z * Z) -> list (Z * Z)) (s : State) : State :=
  mkState (obj s) (g s) (session s) (cache_new s) (utcnow_calls s) (f (log s)).

Definition set_cads_to_batch_insert (v : option (list dict)) (fg : FlaskG)
    : FlaskG :=
  mkFlaskG v (acps_to_batch_insert fg).
Definition set_acps_to_batch_insert (v : option (list dict)) (fg : FlaskG)
    : FlaskG :=
  mkFlaskG (cads_to_batch_insert fg) v.

Definition with_transaction (f : Tables -> Tables) (ss : Session) : Session :=
  mkSession (committed ss) (f (transaction ss)).

(** The row of the assessment [a] in a table of assessments. *)
Definition row_of (a : Assessment.t) (rows : list Assessment.t)
    : option Assessment.t :=
  List.find (fun row => Z.eqb (Assessment.id row) (Assessment.id a)) rows.

(** [db.session.rollback()]: what the transaction did is dropped, and the
    objects attached to the session are expired, their attributes read
    again from the database at their next use: the handled assessment is
    from then on as its committed row has it, and what was pending on it
    is lost.  An assessment that has no committed row is taken out of the
    session and keeps its attributes. *)
Definition rollback (s : State) : State :=
  let database := committed (session s) in
  mkState (default (obj s) (row_of (obj s) (assessments database)))
    (g s) (mkSession database database) (cache_new s) (utcnow_calls s)
    (log s).

(** Python truthiness of a string and of a list. *)
Definition str_truthy (s : string) : bool :=
  match s with EmptyString => false | _ => true end.
Definition list_truthy {A} (l : list A) : bool :=
  match l with [] => false | _ => true end.

Definition is_None {A} (o : option A) : bool :=
  match o with None => true | Some _ => false end.

(** What [assessment.map_to] is given: the snapshot (possibly [None]) or
    the audit. *)
Inductive related : Type :=
| RelatedSnapshot (snapshot : option Snapshot.t)
| RelatedAudit (audit : Audit.t).

(** [dict.get] on a dict kept as the list of its items, in the order
    [iteritems] yields them. *)
Fixpoint items_get {V} (items : list (Z * V)) (k : Z) : option V :=
  match items with
  | [] => None
  | (k', v) :: rest => if Z.eqb k' k then Some v else items_get rest k
  end.

(** [m[k].extend(l)] on a [collections.defaultdict(list)]: the key is
    created when it is missing. *)
Definition extend (m : gmap string (list Z)) (k : string) (l : list Z)
    : gmap string (list Z) :=
  <[k := (default [] (m !! k) ++ l)%list]> m.

Definition precondition_message : string :=
  "CA-introduced completion preconditions are not satisfied. " +:+
  "Check preconditions_failed of items of self.custom_attribute_values".

Local Open Scope eff_scope.

Section Hooks.
(** Declared outside the file: the status constants of the assessment
    class, the role tables, and the request's clock and user. *)
Variables NOT_DONE_STATES DONE_STATES : gset string.
Variables FINAL_STATE DONE_STATE : string.
(** [access_control.role.get_custom_roles_for(type)], a dict from role
    id to role name, as its items. *)
Variable get_custom_roles_for : string -> list (Z * string).
Variable get_acl_with_role_name :
  Assessment.t -> string -> option AccessControlList.t.
(** [target._inflector.table_singular] *)
Variable table_singular : string.
(** [datetime.utcnow()] at its n-th reading *)
Variable utcnow : nat -> Z.
(** [login.get_current_user_id()] *)
Variable get_current_user_id : Z.
(** the order in which a Python set of ids is iterated *)
Variable iter_set : gset Z -> list Z.
(** [ggrc_cache.Cache.get_cache(create=True)], on the cache the request
    has: the cache it gives, the request's from then on, or [None] *)
Variable get_cache : option (gset row_ref) -> option (gset row_ref).
(** the truth value of a cache object, as its class defines it *)
Variable cache_truthy : gset row_ref -> bool.
(** [assessment.map_to(other)], an effect on the session *)
Variable map_to : Assessment.t -> related -> Session -> Session.

Definition datetime_utcnow : Eff State Z :=
  fun s =>
    (Ok (utcnow (utcnow_calls s)),
     mkState (obj s) (g s) (session s) (cache_new s)
       (S (utcnow_calls s)) (log s)).

Definition _validate_assessment_done_state (old_value : string)
    : Eff State unit :=
  let* o := gets obj in
  let new_value := Assessment.status o in
  (if bool_decide (old_value ∈ NOT_DONE_STATES) &&
      bool_decide (new_value ∈ DONE_STATES)
   then
     if default false (Assessment.preconditions_failed o)
     then raise (StatusValidationError precondition_message)
     else ret tt
   else ret tt) >>
  let* o := gets obj in
  if String.eqb (Assessment.status o) FINAL_STATE &&
     negb (Assessment.verified o) &&
     negb (default false (Assessment.sox_302_enabled o)) &&
     list_truthy (default [] (Assessment.verifiers o))
  then modify (with_obj (Assessment.set_status DONE_STATE))
  else ret tt.

(** The first check of the validation raises. *)
Definition preconditions_block (old_value : string) (st : State) : Prop :=
  old_value ∈ NOT_DONE_STATES /\
  Assessment.status (obj st) ∈ DONE_STATES /\
  Assessment.preconditions_failed (obj st) = Some true.

(** The second check of the validation applies. *)
Definition awaits_verification (st : State) : Prop :=
  Assessment.status (obj st) = FINAL_STATE /\
  Assessment.verified (obj st) = false /\
  default false (Assessment.sox_302_enabled (obj st)) = false /\
  default [] (Assessment.verifiers (obj st)) <> [].

(** The [model_put_before_commit] handler; [initial_status] is
    [kwargs['initial_state'].status], and [kwargs['obj']] is [obj]. *)
Definition handle_assessment_done_state (initial_status : string)
    : Eff State unit :=
  let old_value := initial_status in
  try_except (_validate_assessment_done_state old_value)
    is_StatusValidationError
    (fun error => modify rollback >> raise error).

Definition set_title (audit : Audit.t)
    (snapshot_rev_content : option RevisionContent.t) : Eff State unit :=
  match snapshot_rev_content with
  | None => raise (TypeError "'NoneType' object has no attribute '__getitem__'")
  | Some content =>
      match RevisionContent.title content with
      | None => raise (KeyError "title")
      | Some rev_title =>
          modify (with_obj (Assessment.set_title
            (rev_title +:+ " assessment for " +:+ Audit.title audit)))
      end
  end.

Definition set_test_plan (template : option AssessmentTemplate.t)
    (snapshot_rev_content : option RevisionContent.t) : Eff State unit :=
  match template with
  | Some t =>
      modify (with_obj (Assessment.set_test_plan_procedure
                          (AssessmentTemplate.test_plan_procedure t))) >>
      modify (with_obj (Assessment.set_test_plan
                          (AssessmentTemplate.procedure_description t)))
  | None => ret tt
  end >>
  if match template with
     | None => true
     | Some t => AssessmentTemplate.test_plan_procedure t
     end
  then
    match snapshot_rev_content with
    | None => raise (AttributeError "'NoneType' object has no attribute 'get'")
    | Some content =>
        let snapshot_plan := default "" (RevisionContent.test_plan content) in
        let* a := gets obj in
        if str_truthy (Assessment.test_plan a) && str_truthy snapshot_plan
        then
          modify (with_obj (fun a =>
            Assessment.set_test_plan (Assessment.test_plan a +:+ "<br>") a)) >>
          modify (with_obj (fun a =>
            Assessment.set_test_plan (Assessment.test_plan a +:+ snapshot_plan) a))
        else if str_truthy snapshot_plan
        then modify (with_obj (Assessment.set_test_plan snapshot_plan))
        else ret tt
    end
  else ret tt.

Definition set_assessment_type (template : option AssessmentTemplate.t)
    : Eff State unit :=
  match template with
  | Some t =>
      if str_truthy (AssessmentTemplate.template_object_type t)
      then modify (with_obj (Assessment.set_assessment_type
                               (AssessmentTemplate.template_object_type t)))
      else ret tt
  | None => ret tt
  end.

Definition set_sox_302_enabled (template : option AssessmentTemplate.t)
    : Eff State unit :=
  match template with
  | Some t =>
      modify (with_obj (Assessment.set_sox_302_enabled
                          (Some (AssessmentTemplate.sox_302_enabled t))))
  | None => ret tt
  end.

(** *** Batch insert of custom attribute definitions *)

(** [clone_cad_stub]: a copy of the stub, assigned to the handled
    assessment. *)
Definition clone_cad_stub (cad_stub : dict) : Eff State dict :=
  let* target := gets obj in
  let* now := datetime_utcnow in
  let current_user_id := get_current_user_id in
  let clone_stub := cad_stub in
  let clone_stub := <["definition_type" := PyStr table_singular]> clone_stub in
  let clone_stub := <["definition_id" := PyInt (Assessment.id target)]> clone_stub in
  let clone_stub := <["created_at" := PyDateTime now]> clone_stub in
  let clone_stub := <["updated_at" := PyDateTime now]> clone_stub in
  let clone_stub := <["modified_by_id" := PyInt current_user_id]> clone_stub in
  let clone_stub := <["id" := PyNone]> clone_stub in
  ret clone_stub.

(** [flask.g.cads_to_batch_insert.append(stub)] *)
Definition append_cad (stub : dict) : Eff State unit :=
  let* fg := gets g in
  match cads_to_batch_insert fg with
  | None => raise (AttributeError "cads_to_batch_insert")
  | Some bucket =>
      modify (with_g (set_cads_to_batch_insert (Some (bucket ++ [stub]))))
  end.

(** The attributable is the handled assessment, [obj]. *)
Definition _mark_cads_to_batch_insert
    (ca_definitions : list CustomAttributeDefinition.t) : Eff State unit :=
  (let* fg := gets g in
   if is_None (cads_to_batch_insert fg)
   then modify (with_g (set_cads_to_batch_insert (Some [])))
   else ret tt) >>
  for_each ca_definitions (fun ca_definition =>
    let stub := CustomAttributeDefinition.to_dict ca_definition in
    let* new_ca_stub := clone_cad_stub stub in
    append_cad new_ca_stub).

(** [cache.new] is a dict from the object to its [log_json()]: an object
    is a key once, and the keys are what is kept of it here. *)
Definition _add_objects_to_cache (objs_q : list row_ref) : Eff State unit :=
  modify (with_cache_new get_cache) >>
  let* cache := gets cache_new in
  match cache with
  | Some new =>
      if cache_truthy new
      then modify (with_cache_new (fun _ => Some (new ∪ list_to_set objs_q)))
      else ret tt
  | None => ret tt
  end.

Definition is_new_cad_of (ids : list Z) (row : dict) : bool :=
  bool_decide (row !! "definition_type" = Some (PyStr "assessment")) &&
  match row !! "definition_id" with
  | Some (PyInt i) => bool_decide (i ∈ ids)
  | _ => false
  end.

(** [db.session.execute(table.insert().values(stubs))] *)
Definition insert_custom_attribute_definitions (stubs : list dict)
    (t : Tables) : Tables :=
  mkTables (people t) (custom_attribute_definitions t ++ stubs)
    (access_control_list t) (access_control_people t) (assessments t).

Definition insert_access_control_people (stubs : list dict)
    (t : Tables) : Tables :=
  mkTables (people t) (custom_attribute_definitions t)
    (access_control_list t) (access_control_people t ++ stubs)
    (assessments t).

Definition _batch_insert_cads (attributables : list Assessment.t)
    : Eff State unit :=
  let* fg := gets g in
  let cads := default [] (cads_to_batch_insert fg) in
  if negb (list_truthy cads) then ret tt
  else
    modify (with_g (set_cads_to_batch_insert (Some []))) >>
    modify (with_session
              (with_transaction (insert_custom_attribute_definitions cads))) >>
    let* new_cads_q :=
      gets (fun s =>
              query CustomAttributeDefinitionTable
                (is_new_cad_of (Assessment.id <$> attributables))
                (custom_attribute_definitions (transaction (session s)))) in
    _add_objects_to_cache new_cads_q.

(** *** Batch insert of access control people *)

Definition add_person_to_acl (person : Person.t)
    (ac_list : AccessControlList.t) : Eff State dict :=
  let* now := datetime_utcnow in
  let current_user_id := get_current_user_id in
  ret (<["id" := PyNone]>
       (<["person_id" := PyInt (Person.id person)]>
       (<["ac_list_id" := PyInt (AccessControlList.id ac_list)]>
       (<["created_at" := PyDateTime now]>
       (<["updated_at" := PyDateTime now]>
       (<["modified_by_id" := PyInt current_user_id]> (∅ : dict))))))).

Definition append_acp (stub : dict) : Eff State unit :=
  let* fg := gets g in
  match acps_to_batch_insert fg with
  | None => raise (AttributeError "acps_to_batch_insert")
  | Some bucket =>
      modify (with_g (set_acps_to_batch_insert (Some (bucket ++ [stub]))))
  end.

Definition _mark_acps_to_batch_insert (assignee : Person.t)
    (role_name : string) : Eff State unit :=
  (let* fg := gets g in
   if is_None (acps_to_batch_insert fg)
   then modify (with_g (set_acps_to_batch_insert (Some [])))
   else ret tt) >>
  let* assessment := gets obj in
  match get_acl_with_role_name assessment role_name with
  | None => ret tt
  | Some acl =>
      let* acp_stub := add_person_to_acl assignee acl in
      append_acp acp_stub
  end.

Definition is_acl_of (ids : list Z) (row : dict) : bool :=
  bool_decide (row !! "object_type" = Some (PyStr "Assessment")) &&
  match row !! "object_id" with
  | Some (PyInt i) => bool_decide (i ∈ ids)
  | _ => false
  end.

Definition is_acp_of (acl_ids : list pyval) (row : dict) : bool :=
  match row !! "ac_list_id" with
  | Some v => bool_decide (v ∈ acl_ids)
  | None => false
  end.

Definition _batch_insert_acps (assessments : list Assessment.t)
    : Eff State unit :=
  let* fg := gets g in
  let acps := default [] (acps_to_batch_insert fg) in
  if negb (list_truthy acps) then ret tt
  else
    modify (with_g (set_acps_to_batch_insert (Some []))) >>
    modify (with_session
              (with_transaction (insert_access_control_people acps))) >>
    let* tables := gets (fun s => transaction (session s)) in
    let new_acls_q :=
      omap (fun row => row !! "id")
        (List.filter (is_acl_of (Assessment.id <$> assessments))
           (access_control_list tables)) in
    let new_acps_q :=
      query AccessControlPersonTable (is_acp_of new_acls_q)
        (access_control_people tables) in
    _add_objects_to_cache new_acps_q.

(** *** Assignees *)

Definition _generate_assignee_relations
    (assignee_ids verifier_ids creator_ids : list Z) : Eff State unit :=
  let people_ids : gset Z :=
    list_to_set (assignee_ids ++ verifier_ids ++ creator_ids) in
  let* rows :=
    gets (fun s =>
            filter (fun i => Person.id i ∈ people_ids)
              (people (transaction (session s)))) in
  let person_dict : gmap Z Person.t :=
    foldl (fun d i => <[Person.id i := i]> d) ∅ rows in
  for_each (iter_set people_ids) (fun person_id =>
    match person_dict !! person_id with
    | None => ret tt
    | Some person =>
        (if bool_decide (Person.id person ∈ assignee_ids)
         then _mark_acps_to_batch_insert person "Assignees"
         else ret tt) >>
        (if bool_decide (person_id ∈ verifier_ids)
         then _mark_acps_to_batch_insert person "Verifiers"
         else ret tt) >>
        (if bool_decide (person_id ∈ creator_ids)
         then _mark_acps_to_batch_insert person "Creators"
         else ret tt)
    end).

Definition _get_people_ids_by_role (role_name defaul_role_name : string)
    (template_settings : gmap string people_setting)
    (role_name_people_id_map : gmap string (list Z)) : list Z :=
  match template_settings !! role_name with
  | None | Some (RoleName "") | Some (PeopleIds []) => []
  | Some (PeopleIds template_role) => template_role
  | Some (RoleName template_role) =>
      let default_people := role_name_people_id_map !! defaul_role_name in
      default []
        (match role_name_people_id_map !! template_role with
         | Some ids => Some ids
         | None => default_people
         end)
  end.

(** [next(id_ for id_, role_name in roles.iteritems() if role_name == name)] *)
Fixpoint next_role_id (roles : list (Z * string)) (name : string)
    : Eff State Z :=
  match roles with
  | [] => raise StopIteration
  | (id_, role_name) :: rest =>
      if String.eqb role_name name then ret id_
      else next_role_id rest name
  end.

(** The loop over the access control list of the snapshot's revision. *)
Fixpoint snapshot_role_people (acr_dict : list (Z * string))
    (snapshot : Snapshot.t) (acls : list RevisionContent.acl_entry)
    (role_name_person_id_map : gmap string (list Z))
    : Eff State (gmap string (list Z)) :=
  match acls with
  | [] => ret role_name_person_id_map
  | acl :: rest =>
      match items_get acr_dict (RevisionContent.ac_role_id acl) with
      | Some (String c r as acr) =>
          snapshot_role_people acr_dict snapshot rest
            (extend role_name_person_id_map acr
               [RevisionContent.person_id acl])
      | _ =>
          modify (with_log (fun l =>
            l ++ [(Snapshot.id snapshot, RevisionContent.ac_role_id acl)])) >>
          snapshot_role_people acr_dict snapshot rest
            role_name_person_id_map
      end
  end.

Definition audit_people (audit : Audit.t) (role_id : Z) : list Z :=
  (fun '(person, acl) => Person.id person) <$>
    List.filter (fun '(person, acl) =>
                   Z.eqb (AccessControlList.ac_role_id acl) role_id)
      (Audit.access_control_list audit).

Definition _generate_role_people_map (audit : Audit.t)
    (snapshot : option Snapshot.t)
    (snapshot_rev_content : option RevisionContent.t)
    : Eff State (gmap string (list Z)) :=
  let* snapshot :=
    match snapshot with
    | Some s => ret s
    | None =>
        raise (AttributeError "'NoneType' object has no attribute 'child_type'")
    end in
  let acr_dict := get_custom_roles_for (Snapshot.child_type snapshot) in
  let audit_acr := get_custom_roles_for "Audit" in
  let* auditor_role_id := next_role_id audit_acr "Auditors" in
  let* captain_role_id := next_role_id audit_acr "Audit Captains" in
  let* acls :=
    match snapshot_rev_content with
    | None =>
        raise (TypeError "'NoneType' object has no attribute '__getitem__'")
    | Some content =>
        match RevisionContent.access_control_list content with
        | None => raise (KeyError "access_control_list")
        | Some acls => ret acls
        end
    end in
  let* role_name_person_id_map :=
    snapshot_role_people acr_dict snapshot acls ∅ in
  let role_name_person_id_map :=
    extend role_name_person_id_map "Audit Lead"
      (audit_people audit captain_role_id) in
  let role_name_person_id_map :=
    extend role_name_person_id_map "Auditors"
      (audit_people audit auditor_role_id) in
  let role_name_person_id_map :=
    if negb (list_truthy
               (default [] (role_name_person_id_map !! "Auditors")))
    then extend role_name_person_id_map "Auditors"
           (default [] (role_name_person_id_map !! "Audit Lead"))
    else role_name_person_id_map in
  ret role_name_person_id_map.

Definition _relate_assignees (snapshot : option Snapshot.t)
    (snapshot_rev_content : option RevisionContent.t)
    (template : option AssessmentTemplate.t) (audit : Audit.t)
    : Eff State unit :=
  let template_settings :=
    match template with
    | Some t => AssessmentTemplate.default_people t
    | None =>
        <["assignees" := RoleName "Principal Assignees"]>
          (<["verifiers" := RoleName "Auditors"]> ∅)
    end in
  let* role_people_map :=
    _generate_role_people_map audit snapshot snapshot_rev_content in
  let assignee_ids :=
    _get_people_ids_by_role "assignees" "Audit Lead"
      template_settings role_people_map in
  let verifier_ids :=
    _get_people_ids_by_role "verifiers" "Auditors"
      template_settings role_people_map in
  _generate_assignee_relations assignee_ids verifier_ids
    [get_current_user_id].

(** *** The creation hook for one assessment *)

Definition _handle_assessment (audit : Audit.t)
    (tmpl : option AssessmentTemplate.t)
    (snapshot : option Snapshot.t)
    (snapshot_rev_content : option RevisionContent.t)
    (is_autogenerated : bool) : Eff State unit :=
  let* a := gets obj in
  modify (with_session (map_to a (RelatedSnapshot snapshot))) >>
  let* a := gets obj in
  modify (with_session (map_to a (RelatedAudit audit))) >>
  match tmpl with
  | Some t =>
      set_sox_302_enabled tmpl >>
      _mark_cads_to_batch_insert
        (AssessmentTemplate.custom_attribute_definitions t)
  | None => ret tt
  end >>
  if negb (is_autogenerated || negb (is_None snapshot)) then ret tt
  else
    _relate_assignees snapshot snapshot_rev_content tmpl audit >>
    set_title audit snapshot_rev_content >>
    set_test_plan tmpl snapshot_rev_content >>
    set_assessment_type tmpl.

End Hooks.

(** The columns [clone_cad_stub] sets. *)
Definition cad_stub_columns : list string :=
  ["definition_type"; "definition_id"; "created_at"; "updated_at";
   "modified_by_id"; "id"].

(** [stub] is a stub of the definition [d] made for [target]: a copy of
    the definition's dict, without an id, assigned to [target]. *)
Definition is_cad_stub_of (table_singular : string) (target : Assessment.t)
    (d : CustomAttributeDefinition.t) (stub : dict) : Prop :=
  stub !! "definition_type" = Some (PyStr table_singular) /\
  stub !! "definition_id" = Some (PyInt (Assessment.id target)) /\
  stub !! "id" = Some PyNone /\
  forall k, k ∉ cad_stub_columns ->
            stub !! k = CustomAttributeDefinition.to_dict d !! k.

(** [stub] is a stub of access control people: [person_id] in the list
    [acl]. *)
Definition is_acp_stub_of (person_id : Z) (acl : AccessControlList.t)
    (stub : dict) : Prop :=
  stub !! "person_id" = Some (PyInt person_id) /\
  stub !! "ac_list_id" = Some (PyInt (AccessControlList.id acl)) /\
  stub !! "id" = Some PyNone.

(** The parts of the state that marking for batch insert leaves alone. *)
Definition same_but_bucket_and_clock (s s' : State) : Prop :=
  obj s' = obj s /\ session s' = session s /\
  cache_new s' = cache_new s /\ log s' = log s.

(** The id of the first role called [name] among the items of a role
    dict. *)
Definition role_id_of (roles : list (Z * string)) (name : string)
    : option Z :=
  fst <$> List.find (fun '(_, role_name) => String.eqb role_name name) roles.

(** The people the revision's access control list gives the role called
    [role], in the order of the list. *)
Definition snapshot_people (acr_dict : list (Z * string))
    (acls : list RevisionContent.acl_entry) (role : string) : list Z :=
  RevisionContent.person_id <$>
    filter (fun acl =>
              items_get acr_dict (RevisionContent.ac_role_id acl) = Some role)
      acls.

(** The roles [_generate_assignee_relations] gives, each with the ids it
    is given for it. *)
Definition assignee_roles (assignee_ids verifier_ids creator_ids : list Z)
    : list (string * list Z) :=
  [("Assignees", assignee_ids); ("Verifiers", verifier_ids);
   ("Creators", creator_ids)].

(** The people a role name stands for on an assessment generated for
    [audit] from a snapshot whose revision has the access control list
    [acls]: for "Audit Lead", the people the list gives that role and the
    captains of the audit; for "Auditors", the people the list gives that
    role and the auditors of the audit, and the people of "Audit Lead"
    when there is none; for another role, the people the list gives it.
    [None]: there is nobody to take from the role. *)
Definition people_of_role (acr_dict : list (Z * string))
    (acls : list RevisionContent.acl_entry) (audit : Audit.t)
    (auditor_role_id captain_role_id : Z) (role : string)
    : option (list Z) :=
  let leads :=
    snapshot_people acr_dict acls "Audit Lead"
    ++ audit_people audit captain_role_id in
  let auditors :=
    snapshot_people acr_dict acls "Auditors"
    ++ audit_people audit auditor_role_id in
  if String.eqb role "Audit Lead" then Some leads
  else if String.eqb role "Auditors"
  then Some (match auditors with [] => leads | _ => auditors end)
  else if String.eqb role "" then None
  else match snapshot_people acr_dict acls role with
       | [] => None
       | people => Some people
       end.

(** The people a setting of the template names: the ids it lists; or
    the people of the role it names, and those of [default_role] when
    there is nobody to take from that role; nobody without a setting. *)
Definition people_of_setting (people_of : string -> option (list Z))
    (default_role : string) (setting : option people_setting) : list Z :=
  match setting with
  | Some (PeopleIds ids) => ids
  | Some (RoleName "") | None => []
  | Some (RoleName role) =>
      default (default [] (people_of default_role)) (people_of role)
  end.

(** The stubs of access control people the assessment [a] is due: for
    every id of [order] that is the id of a person of [people], and for
    every role of [roles], in their order, that is given this id and
    that [a] has a list for, the id with that list. *)
Definition due_of_role
    (get_acl_with_role_name :
       Assessment.t -> string -> option AccessControlList.t)
    (a : Assessment.t) (person_id : Z) (role : string * list Z)
    : list (Z * AccessControlList.t) :=
  if bool_decide (person_id ∈ role.2)
  then match get_acl_with_role_name a role.1 with
       | Some acl => [(person_id, acl)]
       | None => []
       end
  else [].

Definition due_acps
    (get_acl_with_role_name :
       Assessment.t -> string -> option AccessControlList.t)
    (a : Assessment.t) (people : list Person.t)
    (roles : list (string * list Z)) (order : list Z)
    : list (Z * AccessControlList.t) :=
  flat_map
    (fun person_id =>
       if bool_decide (person_id ∈ Person.id <$> people)
       then flat_map (due_of_role get_acl_with_role_name a person_id) roles
       else [])
    order.

Definition is_due_stub (due : Z * AccessControlList.t) (stub : dict)
    : Prop :=
  is_acp_stub_of due.1 due.2 stub.

(** From [s] to [s'] the bucket of access control people has grown by
    [new], and nothing else but the clock has changed. *)
Definition acps_extended (s s' : State) (new : list dict) : Prop :=
  default [] (acps_to_batch_insert (g s'))
  = default [] (acps_to_batch_insert (g s)) ++ new /\
  cads_to_batch_insert (g s') = cads_to_batch_insert (g s) /\
  same_but_bucket_and_clock s s'.

(** The test plan [set_test_plan] leaves on an assessment made from the
    template [t] and the revision content [c]. *)
Definition template_test_plan (t : AssessmentTemplate.t)
    (c : RevisionContent.t) : string :=
  let snapshot_plan := default "" (RevisionContent.test_plan c) in
  let description := AssessmentTemplate.procedure_description t in
  if AssessmentTemplate.test_plan_procedure t && str_truthy snapshot_plan
  then
    if str_truthy description
    then (description +:+ "<br>") +:+ snapshot_plan
    else snapshot_plan
  else description.

(** *** Sample data

    Status constants such as the assessment class declares them: the final
    state is one of the done states. *)
Definition sample_NOT_DONE_STATES : gset string :=
  {[ "Not Started"; "In Progress"; "Rework Needed" ]}.
Definition sample_DONE_STATES : gset string :=
  {[ "In Review"; "Verified"; "Completed" ]}.
Definition sample_FINAL_STATE : string := "Completed".
Definition sample_DONE_STATE : string := "In Review".

Definition sample_verifier : Person.t := Person.mk 7 "verifier@example.com".
Definition sample_captain : Person.t := Person.mk 8 "captain@example.com".
Definition sample_user : Person.t := Person.mk 9 "user@example.com".

Definition sample_tables : Tables :=
  mkTables [sample_verifier; sample_captain; sample_user] [] [] [] [].

(** A request with a cache: the cache is made when there is none, and a
    cache is true. *)
Definition sample_get_cache (c : option (gset row_ref))
    : option (gset row_ref) :=
  Some (default ∅ c).
Definition sample_cache_truthy (c : gset row_ref) : bool := true.

Definition sample_state (a : Assessment.t) : State :=
  mkState a (mkFlaskG None None) (mkSession sample_tables sample_tables)
    None 0 [].

(** An assessment with a verifier, being completed while its
    preconditions have failed. *)
Definition completed_with_failed_preconditions : Assessment.t :=
  Assessment.mk 1 "Completed" false (Some false) (Some [sample_verifier])
    (Some true) "" "" false "".

(** The same, with its preconditions satisfied. *)
Definition completed_assessment : Assessment.t :=
  Assessment.mk 1 "Completed" false (Some false) (Some [sample_verifier])
    (Some false) "" "" false "".

Definition in_review_with_failed_preconditions : Assessment.t :=
  Assessment.mk 1 "In Review" false (Some false) (Some [sample_verifier])
    (Some true) "" "" false "".

(** A PUT in its transaction: the committed row of the assessment is
    in progress, the status "In Review" is pending on the object, and the
    transaction has inserted a row that is not committed. *)
Definition sample_assessment_row : Assessment.t :=
  Assessment.mk 1 "In Progress" false (Some false) (Some [sample_verifier])
    (Some true) "" "" false "".

Definition sample_database : Tables :=
  mkTables [sample_verifier; sample_captain; sample_user] [] [] []
    [sample_assessment_row].

Definition sample_put_state : State :=
  mkState in_review_with_failed_preconditions (mkFlaskG None None)
    (mkSession sample_database
       (insert_access_control_people
          [<["person_id" := PyInt 7]> (<["ac_list_id" := PyInt 101]> ∅)]
          sample_database))
    None 0 [].

(** Roles, lists and request data for a sample creation. *)
Definition sample_roles (object_type : string) : list (Z * string) :=
  if String.eqb object_type "Audit"
  then [(1, "Audit Captains"); (2, "Auditors")]
  else [(11, "Principal Assignees"); (12, "Admin")].

Definition sample_get_acl (a : Assessment.t) (role_name : string)
    : option AccessControlList.t :=
  if String.eqb role_name "Assignees" then Some (AccessControlList.mk 101 21)
  else if String.eqb role_name "Verifiers"
  then Some (AccessControlList.mk 102 22)
  else if String.eqb role_name "Creators"
  then Some (AccessControlList.mk 103 23)
  else None.

Definition sample_utcnow (n : nat) : Z := 1570000000 + Z.of_nat n.

Definition sample_iter_set (ids : gset Z) : list Z := elements ids.

Definition sample_map_to (a : Assessment.t) (other : related)
    (ss : Session) : Session := ss.

Definition sample_audit : Audit.t :=
  Audit.mk 3 "2019 Audit" [(sample_captain, AccessControlList.mk 50 1)].

Definition sample_snapshot : Snapshot.t := Snapshot.mk 5 "Control".

(** The revision names an assignee, and a role that was deleted since. *)
Definition sample_content : RevisionContent.t :=
  RevisionContent.mk (Some "Access control") (Some "Check the logs")
    (Some [RevisionContent.mk_acl 11 7; RevisionContent.mk_acl 99 3]).

Definition sample_definition : CustomAttributeDefinition.t :=
  CustomAttributeDefinition.mk
    (<["id" := PyInt 30]>
       (<["title" := PyStr "Evidence"]>
          (<["definition_type" := PyStr "assessment_template"]> ∅))).

Definition sample_template : AssessmentTemplate.t :=
  AssessmentTemplate.mk 4 true "Follow the procedure" "Control" true
    (<["assignees" := RoleName "Principal Assignees"]>
       (<["verifiers" := RoleName "Auditors"]> ∅))
    [sample_definition].

Definition new_assessment : Assessment.t :=
  Assessment.mk 1 "Not Started" false None None None "" "" false "".

Definition sample_handle_assessment : Eff State unit :=
  _handle_assessment sample_roles sample_get_acl "assessment" sample_utcnow
    9 sample_iter_set sample_map_to sample_audit (Some sample_template)
    (Some sample_snapshot) (Some sample_content) false.

(** *** The source of a POSTed assessment *)

(** The POSTed JSON, as Python reads it: [JNull] is [None], an object is a
    dict; the numbers are the integers, as ids are. *)
#[warnings="-register-all"]
Inductive json : Type :=
| JNull
| JBool (b : bool)
| JInt (z : Z)
| JStr (s : string)
| JList (l : list json)
| JObject (d : gmap string json).

Definition json_truthy (v : json) : bool :=
  match v with
  | JNull => false
  | JBool b => b
  | JInt z => negb (Z.eqb z 0)
  | JStr s => str_truthy s
  | JList l => list_truthy l
  | JObject d => negb (Nat.eqb (size d) 0)
  end.

(** [(asmt_src.get(key) or {}).get("id")]: a value that is not a dict and
    is true has no [get]. *)
Definition get_id_of (key : string) (asmt_src : gmap string json)
    : result json :=
  match asmt_src !! key with
  | None => Ok JNull
  | Some v =>
      if json_truthy v
      then
        match v with
        | JObject d => Ok (default JNull (d !! "id"))
        | _ => Raise (AttributeError "object has no attribute 'get'")
        end
      else Ok JNull
  end.

Definition _get_audit_id : gmap string json -> result json :=
  get_id_of "audit".

Definition _get_snapshot_id : gmap string json -> result json :=
  get_id_of "object".

Definition _get_template_id : gmap string json -> result json :=
  get_id_of "template".

(** [asmt_src.get("_generated") or False] *)
Definition _is_autogenerated (asmt_src : gmap string json) : json :=
  match asmt_src !! "_generated" with
  | Some v => if json_truthy v then v else JBool false
  | None => JBool false
  end.

(** [current.id != id_], an integer against a JSON value; in Python [True]
    equals 1 and [False] equals 0. *)
Definition id_differs (current_id : Z) (id_ : json) : bool :=
  match id_ with
  | JInt z => negb (Z.eqb current_id z)
  | JBool b => negb (Z.eqb current_id (if b then 1 else 0))
  | _ => true
  end.

Section ObjectFromSource.
(** A model class: its instances, their ids, and
    [referenced_objects.get(obj_type, id_, raise_exception=True)], which
    gives the object or raises. *)
Variable Model : Type.
Variable model_id : Model -> Z.
Variable referenced_objects_get : json -> result Model.

Definition _get_object_from_src (src : gmap string json)
    (id_getter : gmap string json -> result json)
    (current : option Model) : result (option Model) :=
  let obj := current in
  match id_getter src with
  | Raise e => Raise e
  | Ok JNull => Ok None
  | Ok id_ =>
      if match current with
         | None => true
         | Some c => id_differs (model_id c) id_
         end
      then
        match referenced_objects_get id_ with
        | Ok o => Ok (Some o)
        | Raise e => Raise e
        end
      else Ok obj
  end.
End ObjectFromSource.

(** *** Stubs and the people they are for *)

(** [stub] is for a person of [people] that one of [roles] names, in the
    list the assessment [a] has for that role. *)
Definition acp_stub_for
    (get_acl_with_role_name :
       Assessment.t -> string -> option AccessControlList.t)
    (a : Assessment.t) (people : list Person.t)
    (roles : list (string * list Z)) (stub : dict) : Prop :=
  exists person role ids acl,
    person ∈ people /\ (role, ids) ∈ roles /\ Person.id person ∈ ids /\
    get_acl_with_role_name a role = Some acl /\
    is_acp_stub_of (Person.id person) acl stub.

(** What the creation hook leaves of a state, but for what
    [assessment.map_to] does to the session: the tables, the cache, and
    the identity and status of the assessment. *)
Definition untouched_by_hook (s s' : State) : Prop :=
  session s' = session s /\ cache_new s' = cache_new s /\
  Assessment.id (obj s') = Assessment.id (obj s) /\
  Assessment.status (obj s') = Assessment.status (obj s) /\
  Assessment.verified (obj s') = Assessment.verified (obj s) /\
  Assessment.verifiers (obj s') = Assessment.verifiers (obj s) /\
  Assessment.preconditions_failed (obj s')
  = Assessment.preconditions_failed (obj s).

(** The entries of a revision's access control list whose role has no
    name among the roles [acr_dict]. *)
Definition unknown_role_entries (acr_dict : list (Z * string))
    (acls : list RevisionContent.acl_entry)
    : list RevisionContent.acl_entry :=
  filter (fun acl =>
            str_truthy
              (default "" (items_get acr_dict (RevisionContent.ac_role_id acl)))
            = false)
    acls.

(** A source that names the sample audit, and one that names no audit. *)
Definition sample_src : gmap string json :=
  <["audit" := JObject (<["id" := JInt 3]> (<["type" := JStr "Audit"]> ∅))]>
    (<["title" := JStr "untitled"]> ∅).

Definition sample_src_without_audit : gmap string json :=
  <["audit" := JNull]> (<["title" := JStr "untitled"]> ∅).

Definition sample_audits (id_ : json) : result Audit.t :=
  match id_ with
  | JInt 3 => Ok sample_audit
  | _ => Raise (KeyError "not found")
  end.

(** The source names no object under [key]: no entry, an entry that is
    false, or a dict whose "id" is missing or null. *)
Definition names_no_id (key : string) (src : gmap string json) : Prop :=
  match src !! key with
  | None => True
  | Some v =>
      json_truthy v = false \/
      exists d, v = JObject d /\ (d !! "id" = None \/ d !! "id" = Some JNull)
  end.

(** Roles of audits that lack the role of auditors. *)
Definition sample_roles_without_auditors (object_type : string)
    : list (Z * string) :=
  if String.eqb object_type "Audit"
  then [(1, "Audit Captains")]
  else [(11, "Principal Assignees"); (12, "Admin")].

(** A source whose audit is an id, not a stub. *)
Definition sample_src_with_bare_id : gmap string json :=
  <["audit" := JInt 3]> (<["title" := JStr "untitled"]> ∅).

End AssessmentHooks.

(** * Theorems *)

(** ** The effect monad *)

Lemma bind_ok {S A B} (c : Eff S A) (k : A -> Eff S B) s a s' :
  c s = (Ok a, s') -> bind c k s = k a s'.
Proof. intros H. unfold bind. now rewrite H. Qed.








Section Keeps.
Context {S : Type} (R : S -> S -> Prop).
Hypothesis R_refl : forall s, R s s.
Hypothesis R_trans : forall s1 s2 s3, R s1 s2 -> R s2 s3 -> R s1 s3.

Lemma keeps_ret {A} (a : A) : keeps R (ret a).
Proof. intros s. apply R_refl. Qed.

Lemma keeps_raise {A} (e : exn) : keeps R (@raise S A e).
Proof. intros s. apply R_refl. Qed.

Lemma keeps_gets {A} (f : S -> A) : keeps R (gets f).
Proof. intros s. apply R_refl. Qed.

Lemma keeps_modify (f : S -> S) :
  (forall s, R s (f s)) -> keeps R (modify f).
Proof. intros Hf s. apply Hf. Qed.

Lemma keeps_bind {A B} (c : Eff S A) (k : A -> Eff S B) :
  keeps R c -> (forall a, keeps R (k a)) -> keeps R (bind c k).
Proof.
  intros Hc Hk s. unfold bind. specialize (Hc s).
  destruct (c s) as [[a | e] s']; cbn in *; [| exact Hc].
  apply (R_trans s s'); [exact Hc | apply Hk].
Qed.

Lemma keeps_for_each {A} (xs : list A) (body : A -> Eff S unit) :
  (forall x, keeps R (body x)) -> keeps R (for_each xs body).
Proof.
  intros Hb. induction xs as [| x xs IH]; cbn.
  - apply keeps_ret.
  - apply keeps_bind; [apply Hb | intros _; exact IH].
Qed.
End Keeps.

(** A relation through the combinators, case by case on the tests, given
    that it is reflexive and transitive; a [modify] is left to [tac]. *)
Ltac keeping refl trans tac :=
  repeat first
    [ apply (keeps_ret _ refl)
    | apply (keeps_raise _ refl)
    | apply (keeps_gets _ refl)
    | apply (keeps_bind _ trans); [| intros ?]
    | apply (keeps_for_each _ refl trans); intros ?
    | apply keeps_modify; intros ?; solve [tac]
    | match goal with
      | |- keeps _ (match ?x with _ => _ end) => destruct x
      end ].

(** ** The migration *)

Module MigrationProofs.
Import Migration.

Lemma has_column_app cs us us' extra n :
  has_column (mkTable (cs ++ extra) us) n
  = has_column (mkTable cs us') n || bool_decide (n ∈ col_name <$> extra).
Proof.
  unfold has_column. cbn [columns]. rewrite fmap_app.
  apply eq_true_iff_eq.
  rewrite orb_true_iff, !bool_decide_eq_true, elem_of_app. tauto.
Qed.

Lemma has_unique_app cs cs' us extra n :
  has_unique (mkTable cs (us ++ extra)) n
  = has_unique (mkTable cs' us) n || bool_decide (n ∈ uq_name <$> extra).
Proof.
  unfold has_unique. cbn [uniques]. rewrite fmap_app.
  apply eq_true_iff_eq.
  rewrite orb_true_iff, !bool_decide_eq_true, elem_of_app. tauto.
Qed.

Lemma add_column_ok table c t (db : Schema) :
  db !! table = Some t ->
  has_column t (col_name c) = false ->
  add_column table c db
  = (Ok tt, <[table := mkTable (columns t ++ [c]) (uniques t)]> db).
Proof. intros Ht Hc. unfold add_column. now rewrite Ht, Hc. Qed.

Lemma create_unique_constraint_ok name table cols t (db : Schema) :
  db !! table = Some t ->
  has_unique t name = false ->
  forallb (has_column t) cols = true ->
  create_unique_constraint name table cols db
  = (Ok tt,
     <[table := mkTable (columns t) (uniques t ++ [mkUnique name cols])]> db).
Proof.
  intros Ht Hu Hc. unfold create_unique_constraint. now rewrite Ht, Hu, Hc.
Qed.

(** One turn of the loop on a table the migration was not applied to. *)
Lemma upgrade_table_ok name t (db : Schema) :
  db !! name = Some t ->
  table_ready t = true ->
  upgrade_table name db = (Ok tt, <[name := extended t]> db).
Proof.
  intros Ht Hr. unfold table_ready in Hr.
  repeat (apply andb_prop in Hr; destruct Hr as [Hr ?]).
  rewrite negb_true_iff in *.
  destruct t as [cs us]. unfold upgrade_table, extended.
  assert (Hcol : forall us' extra n,
             has_column (mkTable (cs ++ extra) us') n
             = has_column (mkTable cs us) n
               || bool_decide (n ∈ col_name <$> extra))
    by (intros; apply has_column_app).
  assert (Huq : forall cs' extra n,
             has_unique (mkTable cs' (us ++ extra)) n
             = has_unique (mkTable cs us) n
               || bool_decide (n ∈ uq_name <$> extra))
    by (intros; apply has_unique_app).
  rewrite (bind_ok _ _ db tt _ (add_column_ok name external_id_column _ db Ht Hr)).
  cbn [columns uniques].
  erewrite bind_ok;
    [| apply add_column_ok; [apply lookup_insert_eq |]].
  2:{ cbn [col_name external_slug_column]. rewrite Hcol, H2. reflexivity. }
  rewrite insert_insert_eq. cbn [columns uniques].
  erewrite bind_ok;
    [| apply add_column_ok; [apply lookup_insert_eq |]].
  2:{ cbn [col_name created_by_id_column]. rewrite <- app_assoc, Hcol, H1.
      reflexivity. }
  rewrite insert_insert_eq. cbn [columns uniques].
  erewrite bind_ok;
    [| apply create_unique_constraint_ok; [apply lookup_insert_eq | |]].
  2:{ assumption. }
  2:{ cbn [forallb]. rewrite <- !app_assoc, Hcol, Hr. reflexivity. }
  rewrite insert_insert_eq. cbn [columns uniques].
  erewrite create_unique_constraint_ok; [| apply lookup_insert_eq | |].
  - rewrite insert_insert_eq. cbn [columns uniques].
    rewrite <- !app_assoc. reflexivity.
  - rewrite Huq, H. reflexivity.
  - cbn [forallb]. rewrite <- !app_assoc, Hcol, H2. reflexivity.
Qed.

Lemma schema_ready_lookup (db : Schema) name :
  schema_ready db = true ->
  name ∈ scope_tables_names ->
  exists t, db !! name = Some t /\ table_ready t = true.
Proof.
  unfold schema_ready. rewrite forallb_forall. intros Hall Hin.
  specialize (Hall name). rewrite <- list_elem_of_In, elem_of_elements in Hall.
  specialize (Hall Hin). destruct (db !! name) as [t |]; [eauto | discriminate].
Qed.

(** The loop, by induction on the names still to visit: every visited
    table is extended, the others are as before. *)
Lemma upgrade_in_ok order :
  NoDup order ->
  forall db : Schema,
    (forall name, name ∈ order ->
                  exists t, db !! name = Some t /\ table_ready t = true) ->
    exists db' : Schema,
      upgrade_in order db = (Ok tt, db') /\
      (forall name, name ∈ order ->
                    exists t, db !! name = Some t /\
                              db' !! name = Some (extended t)) /\
      (forall name, name ∉ order -> db' !! name = db !! name).
Proof.
  induction 1 as [| name order Hnotin Hnd IH]; intros db Hready.
  - exists db. split; [reflexivity |]. split.
    + intros name Hin. inversion Hin.
    + reflexivity.
  - destruct (Hready name) as (t & Ht & Hr); [left |].
    destruct (IH (<[name := extended t]> db)) as (db' & Hrun & Hin & Hout).
    { intros n Hn. destruct (Hready n) as (tn & Htn & Hrn); [now right |].
      exists tn. split; [| assumption].
      rewrite lookup_insert_ne; [assumption |]. intros ->. contradiction. }
    exists db'. split; [| split].
    + unfold upgrade_in in *. cbn [for_each].
      rewrite (bind_ok _ _ _ _ _ (upgrade_table_ok _ _ _ Ht Hr)). exact Hrun.
    + intros n Hn. apply elem_of_cons in Hn. destruct Hn as [-> | Hn].
      * exists t. split; [assumption |].
        rewrite (Hout name Hnotin). apply lookup_insert_eq.
      * destruct (Hin n Hn) as (tn & Htn & Htn').
        exists tn. split; [| assumption].
        rewrite lookup_insert_ne in Htn; [assumption |].
        intros ->. contradiction.
    + intros n Hn. rewrite not_elem_of_cons in Hn. destruct Hn as [Hne Hn].
      rewrite (Hout n Hn). now apply lookup_insert_ne.
Qed.

(** C1. Whatever the order in which the set [scope_tables_names] is
    iterated, on a schema that has the scope tables without the new
    columns and constraints, [upgrade] succeeds, and every scope table
    gains exactly the three columns [external_id] (integer, nullable),
    [external_slug] (string(255), nullable) and [created_by_id] (integer,
    nullable), and the two unique constraints, on [external_id] and on
    [external_slug]; the tables outside the set are unchanged. *)
Theorem upgrade_extends_scope_tables (order : list string) (db : Schema) :
  order ≡ₚ elements scope_tables_names ->
  schema_ready db = true ->
  exists db' : Schema,
    upgrade_in order db = (Ok tt, db') /\
    (forall name, name ∈ scope_tables_names ->
       exists t,
         db !! name = Some t /\
         db' !! name =
           Some (mkTable
                   (columns t ++
                      [mkColumn "external_id" SaInteger (Some false) true;
                       mkColumn "external_slug" (SaString 255) (Some false) true;
                       mkColumn "created_by_id" SaInteger None true])
                   (uniques t ++
                      [mkUnique "uq_external_id" ["external_id"];
                       mkUnique "uq_external_slug" ["external_slug"]]))) /\
    (forall name, name ∉ scope_tables_names -> db' !! name = db !! name).
Proof.
  intros Hperm Hready.
  assert (Hmem : forall n, n ∈ order <-> n ∈ scope_tables_names).
  { intros n. rewrite Hperm. apply elem_of_elements. }
  destruct (upgrade_in_ok order) with (db := db) as (db' & Hrun & Hin & Hout).
  - rewrite Hperm. apply NoDup_elements.
  - intros n Hn. apply schema_ready_lookup; [assumption | now apply Hmem].
  - exists db'. split; [assumption |]. split.
    + intros n Hn. apply Hin. now apply Hmem.
    + intros n Hn. apply Hout. now rewrite Hmem.
Qed.

Lemma upgrade_extends_scope_tables_witness :
  schema_ready sample_schema = true /\
  exists db' : Schema,
    upgrade sample_schema = (Ok tt, db') /\
    (forall name, name ∈ scope_tables_names ->
       exists t,
         sample_schema !! name = Some t /\
         db' !! name =
           Some (mkTable
                   (columns t ++
                      [mkColumn "external_id" SaInteger (Some false) true;
                       mkColumn "external_slug" (SaString 255) (Some false) true;
                       mkColumn "created_by_id" SaInteger None true])
                   (uniques t ++
                      [mkUnique "uq_external_id" ["external_id"];
                       mkUnique "uq_external_slug" ["external_slug"]]))) /\
    (forall name, name ∉ scope_tables_names ->
                  db' !! name = sample_schema !! name).
Proof.
  split.
  - vm_compute. reflexivity.
  - apply (upgrade_extends_scope_tables (elements scope_tables_names)
             sample_schema).
    + reflexivity.
    + vm_compute. reflexivity.
Defined.

(** C4. [downgrade] raises [NotImplementedError] on every database state
    and leaves the schema as it found it. *)
Theorem downgrade_raises (db : Schema) :
  downgrade db = (Raise (NotImplementedError "Downgrade is not supported"), db).
Proof. reflexivity. Qed.

(** X1. On a schema that has the scope tables without the new columns and
    constraints, the order in which [upgrade] visits the set of names does
    not matter: any two orders give the same schema. *)
Theorem upgrade_order_independent (order1 order2 : list string)
    (db : Schema) :
  order1 ≡ₚ elements scope_tables_names ->
  order2 ≡ₚ elements scope_tables_names ->
  schema_ready db = true ->
  upgrade_in order1 db = upgrade_in order2 db.
Proof.
  intros H1 H2 Hready.
  assert (Hrun : forall order,
             order ≡ₚ elements scope_tables_names ->
             exists db' : Schema,
               upgrade_in order db = (Ok tt, db') /\
               forall name,
                 db' !! name
                 = if decide (name ∈ scope_tables_names)
                   then extended <$> db !! name
                   else db !! name).
  { intros order Hperm.
    assert (Hmem : forall n, n ∈ order <-> n ∈ scope_tables_names)
      by (intros n; rewrite Hperm; apply elem_of_elements).
    destruct (upgrade_in_ok order) with (db := db)
      as (db' & Hrun & Hin & Hout).
    - rewrite Hperm. apply NoDup_elements.
    - intros n Hn. apply schema_ready_lookup; [assumption | now apply Hmem].
    - exists db'. split; [exact Hrun |]. intros name.
      destruct (decide (name ∈ scope_tables_names)) as [Hs | Hs].
      + destruct (Hin name) as (t & Ht & Ht'); [now apply Hmem |].
        now rewrite Ht, Ht'.
      + apply Hout. now rewrite Hmem. }
  destruct (Hrun order1 H1) as (db1 & R1 & L1).
  destruct (Hrun order2 H2) as (db2 & R2 & L2).
  rewrite R1, R2. f_equal. apply map_eq. intros name.
  now rewrite L1, L2.
Qed.

Lemma upgrade_order_independent_witness :
  upgrade_in (reverse (elements scope_tables_names)) sample_schema
  = upgrade sample_schema.
Proof.
  apply upgrade_order_independent.
  - apply reverse_Permutation.
  - reflexivity.
  - vm_compute. reflexivity.
Defined.

End MigrationProofs.

(** ** The order of columns *)

Module ImportHelperProofs.
Import ImportHelper.

Lemma string_leb_trans s1 s2 s3 :
  String.leb s1 s2 = true -> String.leb s2 s3 = true ->
  String.leb s1 s3 = true.
Proof.
  unfold String.leb. revert s2 s3.
  induction s1 as [| c1 s1 IH]; intros [| c2 s2] [| c3 s3]; cbn;
    try congruence.
  unfold Ascii.compare.
  destruct (N.compare_spec (N_of_ascii c1) (N_of_ascii c2)) as [E12 | L12 | G12];
    destruct (N.compare_spec (N_of_ascii c2) (N_of_ascii c3)) as [E23 | L23 | G23];
    destruct (N.compare_spec (N_of_ascii c1) (N_of_ascii c3)) as [E13 | L13 | G13];
    try congruence; try (exfalso; lia); try apply IH.
Qed.

Section SortFacts.
Context {A : Type} (key : A -> string).

Lemma insert_by_key_perm x l : insert_by_key key x l ≡ₚ x :: l.
Proof.
  induction l as [| y l IH]; cbn; [reflexivity |].
  destruct (String.leb (key x) (key y)); [reflexivity |].
  rewrite IH. apply perm_swap.
Qed.

Lemma sort_by_key_perm l : sort_by_key key l ≡ₚ l.
Proof.
  induction l as [| x l IH]; cbn; [reflexivity |].
  fold (sort_by_key key l). now rewrite insert_by_key_perm, IH.
Qed.

Lemma insert_by_key_sorted x l :
  StronglySorted (key_le key) l ->
  StronglySorted (key_le key) (insert_by_key key x l).
Proof.
  induction 1 as [| y l Hs IH Hall]; cbn.
  - repeat constructor.
  - destruct (String.leb (key x) (key y)) eqn:E.
    + constructor; [now constructor |].
      constructor; [exact E |].
      eapply Forall_impl; [exact Hall |].
      intros z Hz. eapply string_leb_trans; eassumption.
    + constructor; [exact IH |].
      rewrite insert_by_key_perm. constructor; [| exact Hall].
      destruct (String.leb_total (key x) (key y)); [congruence | assumption].
Qed.

Lemma sort_by_key_sorted l : StronglySorted (key_le key) (sort_by_key key l).
Proof.
  induction l as [| x l IH]; cbn; [constructor |].
  now apply insert_by_key_sorted.
Qed.
End SortFacts.

(** C9. Whatever [lower] the strings have, [get_column_order] returns
    three runs, one after the other: the attributes of the input that
    [COLUMN_ORDER] lists, in the order of [COLUMN_ORDER] (each once,
    [COLUMN_ORDER] listing each name once); the remaining attributes whose
    lowercase form does not start with "map:", sorted by their lowercase
    form; the remaining attributes whose lowercase form starts with
    "map:", sorted the same way.  Every element of the input is in the
    output. *)
Theorem get_column_order_spec (lower : string -> string)
    (COLUMN_ORDER attr_list : list string) :
  exists default_attrs custom_attrs mapping_attrs : list string,
    get_column_order lower COLUMN_ORDER attr_list
    = (default_attrs ++ custom_attrs ++ mapping_attrs)%list /\
    (sublist default_attrs COLUMN_ORDER /\
     (NoDup COLUMN_ORDER -> NoDup default_attrs) /\
     forall v, v ∈ default_attrs <-> v ∈ COLUMN_ORDER /\ v ∈ attr_list) /\
    (custom_attrs
       ≡ₚ (filter (fun v => (v ∉ default_attrs) /\ is_mapping lower v = false)
             attr_list) /\
     StronglySorted (ci_le lower) custom_attrs) /\
    (mapping_attrs
       ≡ₚ (filter (fun v => (v ∉ default_attrs) /\ is_mapping lower v = true)
             attr_list) /\
     StronglySorted (ci_le lower) mapping_attrs) /\
    forall v,
      v ∈ attr_list -> v ∈ get_column_order lower COLUMN_ORDER attr_list.
Proof.
  unfold get_column_order.
  set (attr_set := list_to_set attr_list : gset string).
  set (default_attrs := filter (fun v => v ∈ attr_set) COLUMN_ORDER).
  set (default_set := list_to_set default_attrs : gset string).
  set (other_attrs := filter (fun v => v ∉ default_set) attr_list).
  assert (Hdef : forall v,
             v ∈ default_attrs <-> v ∈ COLUMN_ORDER /\ v ∈ attr_list).
  { intros v. unfold default_attrs, attr_set.
    rewrite list_elem_of_filter, elem_of_list_to_set. tauto. }
  assert (Hother : forall (P : string -> Prop) `{!forall v, Decision (P v)},
             filter P other_attrs
             = filter (fun v => (v ∉ default_attrs) /\ P v) attr_list).
  { intros P HP. unfold other_attrs. rewrite list_filter_filter.
    apply list_filter_iff. intros v. unfold default_set.
    rewrite elem_of_list_to_set. tauto. }
  eexists default_attrs, _, _. split; [reflexivity |].
  split; [| split; [| split]].
  - split; [apply sublist_filter |]. split; [| exact Hdef].
    intros Hnd. now apply NoDup_filter.
  - split; [| apply sort_by_key_sorted].
    rewrite sort_by_key_perm. now rewrite Hother.
  - split; [| apply sort_by_key_sorted].
    rewrite sort_by_key_perm. now rewrite Hother.
  - intros v Hv. rewrite !elem_of_app, !sort_by_key_perm, !Hother.
    rewrite !list_elem_of_filter.
    destruct (decide (v ∈ default_attrs)) as [Hin | Hnin]; [now left |].
    right. destruct (is_mapping lower v) eqn:E; [right | left]; tauto.
Qed.

Lemma get_column_order_spec_witness :
  exists default_attrs custom_attrs mapping_attrs : list string,
    get_column_order unicode_lower_latin1 sample_column_order
      sample_unicode_attr_list
    = (default_attrs ++ custom_attrs ++ mapping_attrs)%list /\
    (sublist default_attrs sample_column_order /\
     NoDup default_attrs /\
     forall v, v ∈ default_attrs
               <-> v ∈ sample_column_order /\ v ∈ sample_unicode_attr_list) /\
    (custom_attrs
       ≡ₚ (filter (fun v => (v ∉ default_attrs) /\
                            is_mapping unicode_lower_latin1 v = false)
             sample_unicode_attr_list) /\
     StronglySorted (ci_le unicode_lower_latin1) custom_attrs) /\
    (mapping_attrs
       ≡ₚ (filter (fun v => (v ∉ default_attrs) /\
                            is_mapping unicode_lower_latin1 v = true)
             sample_unicode_attr_list) /\
     StronglySorted (ci_le unicode_lower_latin1) mapping_attrs) /\
    forall v, v ∈ sample_unicode_attr_list ->
              v ∈ get_column_order unicode_lower_latin1 sample_column_order
                    sample_unicode_attr_list.
Proof.
  destruct (get_column_order_spec unicode_lower_latin1 sample_column_order
              sample_unicode_attr_list)
    as (default_attrs & custom_attrs & mapping_attrs
        & Heq & (Hsub & Hnd & Hin) & Hcustom & Hmapping & Hall).
  exists default_attrs, custom_attrs, mapping_attrs.
  split; [exact Heq |]. split; [| auto].
  split; [exact Hsub |]. split; [| exact Hin].
  apply Hnd. apply (bool_decide_unpack (NoDup sample_column_order)).
  vm_compute. exact I.
Defined.

(** Names of bytes, as [str.lower] orders them. *)
Example get_column_order_sample :
  get_column_order str_lower sample_column_order sample_attr_list
  = ["slug"; "title"; "Alpha"; "beta"; "beta"; "Beta"; "zeta";
     "Map:audit"; "map:Control"].
Proof. vm_compute. reflexivity. Qed.

(** Names of letters beyond ASCII: [unicode.lower] puts the small letter
    and its capital together, [str.lower] leaves the capital in front. *)
Example get_column_order_unicode_sample :
  get_column_order unicode_lower_latin1 sample_column_order
    sample_unicode_attr_list
  = ["title"; "Zulu"; "éa"; "Éb"; "map:zone"] /\
  get_column_order unicode_lower_latin1 [] ["Éb"; "éa"] = ["éa"; "Éb"] /\
  get_column_order str_lower [] ["Éb"; "éa"] = ["Éb"; "éa"].
Proof. vm_compute. repeat split. Qed.

(** *** Tables of cells *)

Lemma heads_tails_zip_with {A} (hs : list A) :
  forall ts : list (list A),
    length hs = length ts ->
    heads_tails (zip_with cons hs ts) = Some (hs, ts).
Proof.
  induction hs as [| x hs IH]; intros [| t ts] Hlen; try discriminate;
    [reflexivity |].
  cbn. rewrite IH by (cbn in Hlen; lia). reflexivity.
Qed.

Lemma heads_tails_rect {A} k (rows : list (list A)) :
  Forall (fun row => length row = S k) rows ->
  exists hs,
    heads_tails rows = Some (hs, tail <$> rows) /\
    length hs = length rows.
Proof.
  induction 1 as [| row rows Hrow Hrows (hs & IH & Hlen)].
  - exists []. split; reflexivity.
  - destruct row as [| x row]; [discriminate |].
    exists (x :: hs). cbn. rewrite IH. cbn. split; [reflexivity | lia].
Qed.

Lemma Forall_length_tail {A} k (rows : list (list A)) :
  Forall (fun row => length row = S k) rows ->
  Forall (fun row => length row = k) (tail <$> rows).
Proof.
  intros H. apply Forall_fmap. eapply Forall_impl; [exact H |].
  intros [| x row]; cbn; [discriminate | lia].
Qed.

Lemma length_zip_upto {A} n :
  forall rows : list (list A), (length (zip_upto n rows) <= n)%nat.
Proof.
  induction n as [| n IH]; intros rows; cbn; [lia |].
  destruct (heads_tails rows) as [[hs ts] |]; cbn; [| lia].
  specialize (IH ts). lia.
Qed.

Lemma zip_upto_S {A} n (rows : list (list A)) :
  zip_upto (S n) rows
  = match heads_tails rows with
    | Some (hs, ts) => hs :: zip_upto n ts
    | None => []
    end.
Proof. reflexivity. Qed.

Lemma zip_upto_nil {A} n : zip_upto n (@nil (list A)) = replicate n [].
Proof. induction n as [| n IH]; cbn; [reflexivity | now rewrite IH]. Qed.

(** A row in front of a table of its width is a cell in front of every
    column. *)
Lemma zip_upto_cons {A} k :
  forall (row : list A) (rows : list (list A)),
    length row = k ->
    Forall (fun r => length r = k) rows ->
    zip_upto k (row :: rows) = zip_with cons row (zip_upto k rows).
Proof.
  induction k as [| k IH]; intros row rows Hlen Hrows.
  - destruct row; [reflexivity | discriminate].
  - destruct row as [| x row]; [discriminate |].
    destruct (heads_tails_rect k rows Hrows) as (hs & Hht & _).
    cbn. rewrite Hht. cbn. f_equal.
    apply IH; [cbn in Hlen; lia | now apply Forall_length_tail].
Qed.

Lemma zip_upto_rows_of_columns {A} k (rows : list (list A)) :
  Forall (fun r => length r = k) rows ->
  zip_upto k rows = rows_of_columns k rows.
Proof.
  induction 1 as [| row rows Hrow Hrows IH].
  - apply zip_upto_nil.
  - rewrite zip_upto_cons by assumption. now rewrite IH.
Qed.

Lemma rows_of_columns_shape {A} h (cols : list (list A)) :
  Forall (fun c => length c = h) cols ->
  length (rows_of_columns h cols) = h /\
  Forall (fun row => length row = length cols) (rows_of_columns h cols).
Proof.
  induction 1 as [| c cols Hc Hcols [IHlen IHall]]; cbn.
  - split; [apply length_replicate |].
    apply Forall_forall. intros row Hin.
    apply elem_of_replicate in Hin. destruct Hin as [-> _]. reflexivity.
  - fold (rows_of_columns h cols). split.
    + rewrite length_zip_with. lia.
    + revert IHall IHlen. generalize (rows_of_columns h cols). clear Hcols.
      revert Hc. generalize h. clear h.
      induction c as [| x c IHc]; intros h Hc rows Hall Hlen; cbn;
        [constructor |].
      destruct rows as [| row rows]; [constructor |].
      inversion Hall; subst. constructor; [cbn; lia |].
      apply (IHc (length c) eq_refl rows); [assumption |].
      cbn in Hlen. cbn in *. lia.
Qed.

(** The columns of the table made of the columns [cols] are [cols]. *)
Lemma zip_upto_of_columns {A} h (cols : list (list A)) :
  Forall (fun c => length c = h) cols ->
  zip_upto (length cols) (rows_of_columns h cols) = cols.
Proof.
  induction 1 as [| c cols Hc Hcols IH]; [reflexivity |].
  cbn. fold (rows_of_columns h cols).
  rewrite heads_tails_zip_with.
  - now rewrite IH.
  - destruct (rows_of_columns_shape h cols Hcols) as [Hlen _]. lia.
Qed.

(** X2. On a table whose rows after the first all have the same width, two
    cells or more, [extract_relevant_data] drops the first row and the
    first column: the second row gives the column definitions and the rows
    below it the data. *)
Theorem extract_relevant_data_rectangular {A} (w : nat)
    (header row : list A) (rows : list (list A)) :
  Forall (fun r => length r = S (S w)) (row :: rows) ->
  extract_relevant_data (header :: row :: rows)
  = Some (tail row, tail <$> rows).
Proof.
  intros Hrect. unfold extract_relevant_data. cbn [drop].
  assert (Hlen : length row = S (S w)) by (now inversion Hrect).
  unfold zip_star at 2. rewrite Hlen.
  destruct (heads_tails_rect (S w) (row :: rows) Hrect) as (hs & Hht & _).
  rewrite zip_upto_S, Hht. cbn [drop].
  pose proof (Forall_length_tail (S w) (row :: rows) Hrect) as Htails.
  rewrite (zip_upto_rows_of_columns (S w) _ Htails).
  destruct (rows_of_columns_shape (S w) _ Htails) as [Hn Hall].
  pose proof (zip_upto_of_columns (S w) _ Htails) as Hback.
  destruct (rows_of_columns (S w) (tail <$> row :: rows)) as [| c cs] eqn:E;
    [discriminate |].
  unfold zip_star. inversion Hall as [| ? ? Hc _]; subst.
  change (drop 0 (c :: cs)) with (c :: cs). cbn beta iota.
  rewrite Hc, Hback. reflexivity.
Qed.

(** X3. With fewer than two rows, or when the second row has at most one
    cell, [extract_relevant_data] fails on [data.pop(0)]. *)
Theorem extract_relevant_data_nothing_to_pop {A} (csv_data : list (list A)) :
  (length csv_data <= 1)%nat \/
  (exists header row rows,
      csv_data = header :: row :: rows /\ (length row <= 1)%nat) ->
  extract_relevant_data csv_data = None.
Proof.
  intros [Hshort | (header & row & rows & -> & Hrow)].
  - destruct csv_data as [| header [| row rows]]; [reflexivity .. |].
    cbn in Hshort. lia.
  - unfold extract_relevant_data. cbn [drop]. unfold zip_star at 2.
    pose proof (length_zip_upto (length row) (row :: rows)) as Hlen.
    destruct (zip_upto (length row) (row :: rows)) as [| c [| c' cs]];
      [reflexivity .. |].
    cbn in Hlen. lia.
Qed.

Lemma extract_relevant_data_rectangular_witness :
  extract_relevant_data
    [["Object type"; ""; ""]; ["Control"; "Code"; "Title"];
     [""; "C-1"; "first"]; [""; "C-2"; "second"]]
  = Some (["Code"; "Title"], [["C-1"; "first"]; ["C-2"; "second"]]).
Proof.
  apply (extract_relevant_data_rectangular 1 ["Object type"; ""; ""]
           ["Control"; "Code"; "Title"]
           [[""; "C-1"; "first"]; [""; "C-2"; "second"]]).
  repeat constructor.
Defined.

Lemma extract_relevant_data_nothing_to_pop_witness :
  extract_relevant_data [["Object type"]; ["Control"]; ["C-1"; "first"]]
  = None.
Proof.
  apply extract_relevant_data_nothing_to_pop. right.
  exists ["Object type"], ["Control"], [["C-1"; "first"]].
  split; [reflexivity | cbn; lia].
Defined.

Lemma equalize_array_lengths array :
  Forall (fun row => length row = max_list (length <$> array))
    (equalize_array array).
Proof.
  unfold equalize_array. destruct array as [| row0 rows]; [constructor |].
  cbn [length Nat.eqb]. apply Forall_fmap, Forall_forall. intros row Hin.
  unfold compose. rewrite length_app, length_replicate.
  assert (length row <= max_list (length <$> row0 :: rows))%nat; [| lia].
  apply max_list_elem_of_le, list_elem_of_fmap. eauto.
Qed.

(** X4. [equalize_array] keeps the number of rows and the cells of every
    row, adds nothing but empty strings at the end of a row, and gives
    every row the length of the longest. *)
Theorem equalize_array_pads (array : list (list string)) :
  Forall2
    (fun row row' =>
       (exists n, row' = row ++ replicate n "") /\
       length row' = max_list (length <$> array))
    array (equalize_array array).
Proof.
  pose proof (equalize_array_lengths array) as Hlen. revert Hlen.
  unfold equalize_array. destruct array as [| row0 rows]; [constructor |].
  cbn [length Nat.eqb]. intros Hlen.
  apply Forall2_fmap_r, Forall_Forall2_diag, Forall_forall.
  intros row Hin. split; [eauto |].
  rewrite Forall_fmap, Forall_forall in Hlen. apply (Hlen row Hin).
Qed.

Lemma max_list_constant (w : nat) (ns : list nat) :
  ns <> [] -> Forall (fun n => n = w) ns -> max_list ns = w.
Proof.
  intros Hne Hall. induction Hall as [| n ns Hn Hall IH]; [congruence |].
  subst n. destruct ns as [| m ns']; [cbn; lia |].
  change (max_list (w :: m :: ns')) with (Nat.max w (max_list (m :: ns'))).
  rewrite IH by discriminate. lia.
Qed.

Lemma equalize_array_same_length (w : nat) (array : list (list string)) :
  Forall (fun row => length row = w) array ->
  equalize_array array = array.
Proof.
  intros Hrect. unfold equalize_array.
  destruct array as [| row0 rows]; [reflexivity |]. cbn [length Nat.eqb].
  rewrite (max_list_constant w);
    [| discriminate | now apply Forall_fmap].
  rewrite <- (list_fmap_id (row0 :: rows)) at 2.
  apply Forall_fmap_ext_1. eapply Forall_impl; [exact Hrect |].
  intros row ->. rewrite Nat.sub_diag. apply app_nil_r.
Qed.

(** X5. An array whose rows all have the same length is returned as it
    is. *)
Theorem equalize_array_rectangular (w : nat) (array : list (list string)) :
  Forall (fun row => length row = w) array ->
  equalize_array array = array.
Proof. apply equalize_array_same_length. Qed.

(** X6. [equalize_array] is idempotent. *)
Theorem equalize_array_idempotent (array : list (list string)) :
  equalize_array (equalize_array array) = equalize_array array.
Proof.
  apply (equalize_array_same_length (max_list (length <$> array))).
  apply equalize_array_lengths.
Qed.

(** X7. [generate_2d_array] makes [height] rows of [width] cells, all
    [value] (no row for a height below one, no cell for a width below
    one), and [equalize_array] leaves such an array as it is. *)
Theorem generate_2d_array_rectangular (width height : Z) (value : string) :
  length (generate_2d_array width height value) = Z.to_nat height /\
  Forall (fun row => length row = Z.to_nat width /\ Forall (eq value) row)
    (generate_2d_array width height value) /\
  equalize_array (generate_2d_array width height value)
  = generate_2d_array width height value.
Proof.
  unfold generate_2d_array. split; [apply length_replicate |]. split.
  - apply Forall_replicate. split; [apply length_replicate |].
    apply Forall_replicate_eq.
  - apply (equalize_array_same_length (Z.to_nat width)).
    apply Forall_replicate, length_replicate.
Qed.

Lemma equalize_array_rectangular_witness :
  equalize_array [["a"; "b"]; ["c"; "d"]] = [["a"; "b"]; ["c"; "d"]].
Proof.
  apply (equalize_array_rectangular 2). repeat constructor.
Defined.

(** *** Definitions of columns *)

Lemma update_definition_fold {V} (items : list (string * V)) :
  NoDup items.*1 ->
  forall (definition : gmap string V) (key : string),
    foldl (fun definition '(key, value) =>
             if bool_decide (is_Some (definition !! key))
             then <[key := value]> definition
             else definition)
      definition items !! key
    = match definition !! key with
      | None => None
      | Some old =>
          Some (default old ((list_to_map items : gmap string V) !! key))
      end.
Proof.
  induction items as [| [k v] items IH]; intros Hnd definition key.
  - cbn. rewrite lookup_empty. now destruct (definition !! key).
  - cbn [fmap list_fmap fst] in Hnd. apply NoDup_cons in Hnd.
    destruct Hnd as [Hnotin Hnd].
    cbn [foldl]. rewrite (IH Hnd). cbn [list_to_map foldr uncurry].
    fold (list_to_map items : gmap string V).
    destruct (decide (k = key)) as [-> | Hne].
    + rewrite lookup_insert_eq.
      rewrite (not_elem_of_list_to_map_1 items key Hnotin).
      destruct (definition !! key) as [old |] eqn:E.
      * rewrite bool_decide_eq_true_2 by eauto.
        now rewrite lookup_insert_eq.
      * rewrite bool_decide_eq_false_2 by (intros [? ?]; congruence).
        now rewrite E.
    + rewrite (lookup_insert_ne _ k key) by assumption.
      destruct (bool_decide (is_Some (definition !! k)));
        [now rewrite lookup_insert_ne by assumption | reflexivity].
Qed.

Lemma lookup_update_definition {V} (definition values_dict : gmap string V)
    (key : string) :
  update_definition definition values_dict !! key
  = match definition !! key with
    | None => None
    | Some old => Some (default old (values_dict !! key))
    end.
Proof.
  unfold update_definition.
  rewrite (update_definition_fold (map_to_list values_dict)
             (NoDup_fst_map_to_list values_dict)).
  now rewrite list_to_map_to_list.
Qed.

(** X8. After [update_definition], a key of the definition holds the value
    [values_dict] has for it, or its old value when [values_dict] has none;
    a key the definition did not have is not added. *)
Theorem update_definition_lookup {V} (definition values_dict : gmap string V)
    (key : string) :
  update_definition definition values_dict !! key
  = match definition !! key with
    | None => None
    | Some old => Some (default old (values_dict !! key))
    end.
Proof. apply lookup_update_definition. Qed.

(** *** Class names *)

Lemma span_not_upper_from_first_upper s :
  span_not_upper s +:+ from_first_upper s = s.
Proof.
  induction s as [| c s IH]; [reflexivity |].
  cbn [span_not_upper from_first_upper].
  destruct (is_upper c); [reflexivity |].
  change (String c (span_not_upper s) +:+ from_first_upper s)
    with (String c (span_not_upper s +:+ from_first_upper s)).
  now rewrite IH.
Qed.

Lemma append_cons c a b : String c a +:+ b = String c (a +:+ b).
Proof. reflexivity. Qed.

Lemma append_empty_r p : p +:+ EmptyString = p.
Proof.
  induction p as [| c p IH]; [reflexivity |].
  now rewrite append_cons, IH.
Qed.

Lemma join_empty_cons p ps : join "" (p :: ps) = p +:+ join "" ps.
Proof.
  destruct ps as [| q ps]; cbn [join]; [| reflexivity].
  symmetry. apply append_empty_r.
Qed.

Lemma join_findall_capitalized s :
  join "" (findall_capitalized s) = from_first_upper s.
Proof.
  induction s as [| c s IH]; [reflexivity |]. cbn [findall_capitalized].
  cbn [from_first_upper]. destruct (is_upper c); [| exact IH].
  rewrite join_empty_cons, IH.
  change (String c (span_not_upper s) +:+ from_first_upper s)
    with (String c (span_not_upper s +:+ from_first_upper s)).
  now rewrite span_not_upper_from_first_upper.
Qed.

Lemma findall_capitalized_span s :
  findall_capitalized (span_not_upper s) = [].
Proof.
  induction s as [| c s IH]; [reflexivity |]. cbn.
  destruct (is_upper c) eqn:E; [reflexivity |]. cbn. now rewrite E.
Qed.

(** X9. Every part [pretty_class_name] joins starts with a capital and has
    no other capital, and the parts put together are the class name from
    its first capital on. *)
Theorem pretty_class_name_parts (name : string) :
  Forall (fun part =>
            exists c rest,
              part = String c rest /\ is_upper c = true /\
              findall_capitalized rest = [])
    (findall_capitalized name) /\
  join "" (findall_capitalized name) = from_first_upper name.
Proof.
  split; [| apply join_findall_capitalized].
  induction name as [| c s IH]; [constructor |]. cbn.
  destruct (is_upper c) eqn:E; [| exact IH].
  constructor; [| exact IH].
  exists c, (span_not_upper s). split; [reflexivity |].
  split; [exact E | apply findall_capitalized_span].
Qed.

Lemma remove_spaces_app a b :
  remove_spaces (a +:+ b) = remove_spaces a +:+ remove_spaces b.
Proof.
  induction a as [| c a IH]; [reflexivity |].
  rewrite append_cons. cbn [remove_spaces].
  destruct (Ascii.eqb c " "); [exact IH |].
  now rewrite append_cons, IH.
Qed.

Lemma remove_spaces_id s : has_space s = false -> remove_spaces s = s.
Proof.
  induction s as [| c s IH]; [reflexivity |]. cbn.
  destruct (Ascii.eqb c " "); [discriminate |]. cbn. intros H.
  now rewrite IH.
Qed.

Lemma join_cons_cons sep p q ps :
  join sep (p :: q :: ps) = p +:+ sep +:+ join sep (q :: ps).
Proof. reflexivity. Qed.

Lemma remove_spaces_join parts :
  Forall (fun part => has_space part = false) parts ->
  remove_spaces (join " " parts) = join "" parts.
Proof.
  induction 1 as [| p ps Hp Hps IH]; [reflexivity |].
  rewrite join_empty_cons. destruct ps as [| q ps].
  - cbn [join]. rewrite remove_spaces_id by assumption.
    symmetry. apply append_empty_r.
  - rewrite join_cons_cons, !remove_spaces_app.
    rewrite (remove_spaces_id p Hp). f_equal.
    change (remove_spaces " ") with EmptyString.
    change (EmptyString +:+ ?x) with x.
    exact IH.
Qed.

Lemma has_space_span s :
  has_space s = false -> has_space (span_not_upper s) = false.
Proof.
  induction s as [| c s IH]; [reflexivity |]. cbn.
  destruct (is_upper c); [reflexivity |]. cbn.
  destruct (Ascii.eqb c " "); [discriminate | exact IH].
Qed.

Lemma has_space_findall s :
  has_space s = false ->
  Forall (fun part => has_space part = false) (findall_capitalized s).
Proof.
  induction s as [| c s IH]; [constructor |]. cbn.
  destruct (Ascii.eqb c " ") eqn:E; [discriminate |]. cbn. intros H.
  destruct (is_upper c); [| now apply IH].
  constructor; [| now apply IH]. cbn. rewrite E. cbn.
  now apply has_space_span.
Qed.

(** X10. For a class name without spaces, taking the spaces out of
    [pretty_class_name] gives back the name from its first capital on: the
    whole name when it starts with a capital. *)
Theorem pretty_class_name_remove_spaces (name : string) :
  has_space name = false ->
  remove_spaces (pretty_class_name name) = from_first_upper name.
Proof.
  intros H. unfold pretty_class_name.
  rewrite remove_spaces_join by now apply has_space_findall.
  apply join_findall_capitalized.
Qed.

Lemma pretty_class_name_remove_spaces_witness :
  pretty_class_name "AccessControlList" = "Access Control List" /\
  remove_spaces (pretty_class_name "AccessControlList") = "AccessControlList".
Proof.
  split; [reflexivity |].
  apply (pretty_class_name_remove_spaces "AccessControlList"). reflexivity.
Defined.

(** *** More on the order of columns *)

Lemma filter_ext_in {A} (P Q : A -> Prop) `{!forall x, Decision (P x)}
    `{!forall x, Decision (Q x)} (l : list A) :
  (forall x, x ∈ l -> (P x <-> Q x)) -> filter P l = filter Q l.
Proof.
  induction l as [| x l IH]; intros Hext; [reflexivity |].
  rewrite !filter_cons.
  rewrite IH by (intros y Hy; apply Hext; now right).
  destruct (decide (P x)) as [HP | HP], (decide (Q x)) as [HQ | HQ];
    try reflexivity; exfalso.
  - apply HQ. apply (Hext x); [left | exact HP].
  - apply HP. apply (Hext x); [left | exact HQ].
Qed.

Lemma filter_all {A} (P : A -> Prop) `{!forall x, Decision (P x)}
    (l : list A) :
  Forall P l -> filter P l = l.
Proof.
  induction 1 as [| x l Hx Hl IH]; [reflexivity |].
  now rewrite filter_cons_True, IH.
Qed.

Lemma filter_none {A} (P : A -> Prop) `{!forall x, Decision (P x)}
    (l : list A) :
  Forall (fun x => ~ P x) l -> filter P l = [].
Proof.
  induction 1 as [| x l Hx Hl IH]; [reflexivity |].
  now rewrite filter_cons_False.
Qed.

(** Sorting a sorted list changes nothing. *)
Lemma sort_by_key_of_sorted {A} (key : A -> string) (l : list A) :
  StronglySorted (key_le key) l -> sort_by_key key l = l.
Proof.
  induction 1 as [| x l Hs IH Hall]; [reflexivity |].
  cbn. fold (sort_by_key key l). rewrite IH.
  destruct l as [| y l]; [reflexivity |]. cbn.
  inversion Hall as [| ? ? Hxy _]; subst. unfold key_le in Hxy.
  now rewrite Hxy.
Qed.

(** [get_column_order], with the sets read as the lists they are made of. *)
Lemma get_column_order_unfold (lower : string -> string)
    (COLUMN_ORDER attr_list : list string) :
  get_column_order lower COLUMN_ORDER attr_list
  = (filter (fun v => v ∈ attr_list) COLUMN_ORDER
     ++ sort_by_key lower
          (filter (fun v => (v ∉ COLUMN_ORDER) /\ is_mapping lower v = false)
             attr_list)
     ++ sort_by_key lower
          (filter (fun v => (v ∉ COLUMN_ORDER) /\ is_mapping lower v = true)
             attr_list))%list.
Proof.
  unfold get_column_order.
  assert (Hd : filter (fun v => v ∈ (list_to_set attr_list : gset string))
                 COLUMN_ORDER
               = filter (fun v => v ∈ attr_list) COLUMN_ORDER).
  { apply list_filter_iff. intros v. apply elem_of_list_to_set. }
  rewrite Hd. f_equal.
  assert (Ho : forall (P : string -> Prop) `{!forall v, Decision (P v)},
             filter P
               (filter (fun v =>
                          v ∉ (list_to_set
                                 (filter (fun v => v ∈ attr_list) COLUMN_ORDER)
                               : gset string))
                  attr_list)
             = filter (fun v => (v ∉ COLUMN_ORDER) /\ P v) attr_list).
  { intros P HP. rewrite list_filter_filter. apply filter_ext_in.
    intros v Hv. rewrite elem_of_list_to_set, list_elem_of_filter. tauto. }
  now rewrite !Ho.
Qed.

Lemma elem_of_get_column_order (lower : string -> string)
    (COLUMN_ORDER attr_list : list string) v :
  v ∈ get_column_order lower COLUMN_ORDER attr_list <-> v ∈ attr_list.
Proof.
  rewrite get_column_order_unfold, !elem_of_app, !sort_by_key_perm.
  rewrite !list_elem_of_filter.
  destruct (decide (v ∈ COLUMN_ORDER)), (is_mapping lower v);
    intuition congruence.
Qed.

(** X11. [get_column_order] is idempotent, whatever [lower] the strings
    have: ordering an ordered list of attributes gives the same list. *)
Theorem get_column_order_idempotent (lower : string -> string)
    (COLUMN_ORDER attr_list : list string) :
  get_column_order lower COLUMN_ORDER
    (get_column_order lower COLUMN_ORDER attr_list)
  = get_column_order lower COLUMN_ORDER attr_list.
Proof.
  rewrite (get_column_order_unfold lower COLUMN_ORDER
             (get_column_order lower COLUMN_ORDER attr_list)).
  assert (Hd : filter
                 (fun v => v ∈ get_column_order lower COLUMN_ORDER attr_list)
                 COLUMN_ORDER
               = filter (fun v => v ∈ attr_list) COLUMN_ORDER).
  { apply list_filter_iff. intros v. apply elem_of_get_column_order. }
  rewrite Hd. rewrite (get_column_order_unfold lower COLUMN_ORDER attr_list).
  set (d := filter (fun v => v ∈ attr_list) COLUMN_ORDER).
  set (c := sort_by_key lower
              (filter (fun v => (v ∉ COLUMN_ORDER) /\ is_mapping lower v = false)
                 attr_list)).
  set (m := sort_by_key lower
              (filter (fun v => (v ∉ COLUMN_ORDER) /\ is_mapping lower v = true)
                 attr_list)).
  assert (Hdall : Forall (fun v => v ∈ COLUMN_ORDER) d).
  { apply Forall_forall. intros v Hv. unfold d in Hv.
    apply list_elem_of_filter in Hv. tauto. }
  assert (Hcall : Forall (fun v => (v ∉ COLUMN_ORDER) /\
                                   is_mapping lower v = false) c).
  { unfold c. rewrite sort_by_key_perm. apply Forall_forall. intros v Hv.
    apply list_elem_of_filter in Hv. tauto. }
  assert (Hmall : Forall (fun v => (v ∉ COLUMN_ORDER) /\
                                   is_mapping lower v = true) m).
  { unfold m. rewrite sort_by_key_perm. apply Forall_forall. intros v Hv.
    apply list_elem_of_filter in Hv. tauto. }
  f_equal. rewrite !filter_app.
  rewrite (filter_none _ d)
    by (eapply Forall_impl; [exact Hdall |]; cbn; tauto).
  rewrite (filter_all _ c) by exact Hcall.
  rewrite (filter_none
             (fun v => (v ∉ COLUMN_ORDER) /\ is_mapping lower v = false) m)
    by (eapply Forall_impl; [exact Hmall |]; cbn; intuition congruence).
  rewrite (filter_none _ d)
    by (eapply Forall_impl; [exact Hdall |]; cbn; tauto).
  rewrite (filter_none _ c)
    by (eapply Forall_impl; [exact Hcall |]; cbn; intuition congruence).
  rewrite (filter_all _ m) by exact Hmall.
  cbn [app]. rewrite app_nil_r.
  rewrite !sort_by_key_of_sorted by apply sort_by_key_sorted.
  reflexivity.
Qed.

(** X12. When [COLUMN_ORDER] and the input list name no attribute twice,
    [get_column_order] gives a rearrangement of the input: no attribute is
    lost, added or repeated. *)
Theorem get_column_order_permutation (lower : string -> string)
    (COLUMN_ORDER attr_list : list string) :
  NoDup COLUMN_ORDER -> NoDup attr_list ->
  get_column_order lower COLUMN_ORDER attr_list ≡ₚ attr_list.
Proof.
  intros Hc Hl. rewrite get_column_order_unfold, !sort_by_key_perm.
  assert (Hd : filter (fun v => v ∈ attr_list) COLUMN_ORDER
               ≡ₚ filter (fun v => v ∈ COLUMN_ORDER) attr_list).
  { apply NoDup_Permutation; try now apply NoDup_filter.
    intros v. rewrite !list_elem_of_filter. tauto. }
  rewrite Hd.
  rewrite <- (filter_app_complement (fun v => v ∈ COLUMN_ORDER) attr_list)
    at 4.
  apply Permutation_app_head.
  rewrite <- (filter_app_complement (fun v => is_mapping lower v = false)
                (filter (fun v => v ∉ COLUMN_ORDER) attr_list)).
  rewrite !list_filter_filter.
  rewrite (list_filter_iff
             (fun v => (v ∉ COLUMN_ORDER) /\ is_mapping lower v = false)
             (fun a => is_mapping lower a = false /\ (a ∉ COLUMN_ORDER)))
    by (intros v; tauto).
  rewrite (list_filter_iff
             (fun v => (v ∉ COLUMN_ORDER) /\ is_mapping lower v = true)
             (fun a => is_mapping lower a <> false /\ (a ∉ COLUMN_ORDER)))
    by (intros v; destruct (is_mapping lower v); intuition congruence).
  reflexivity.
Qed.

Lemma get_column_order_permutation_witness :
  get_column_order unicode_lower_latin1 sample_column_order
    ["map:Control"; "zeta"; "title"; "Alpha"; "slug"]
  ≡ₚ ["map:Control"; "zeta"; "title"; "Alpha"; "slug"].
Proof.
  apply get_column_order_permutation.
  - apply (bool_decide_unpack _). vm_compute. exact I.
  - apply (bool_decide_unpack _). vm_compute. exact I.
Defined.

(** *** Column definitions of a class *)

Section ColumnDefinitionsFacts.
Context {Handler ClassAttr : Type}.
Variable COLUMN_HANDLERS : gmap string Handler.
Variable ColumnHandler : Handler.

Local Abbreviation object_class := (object_class Handler ClassAttr).
Local Abbreviation value := (value Handler ClassAttr).
Local Abbreviation custom_attribute_definition :=
  (custom_attribute_definition COLUMN_HANDLERS ColumnHandler).
Local Abbreviation get_custom_attributes_definitions :=
  (get_custom_attributes_definitions COLUMN_HANDLERS ColumnHandler).
Local Abbreviation column_definition :=
  (column_definition COLUMN_HANDLERS ColumnHandler).
Local Abbreviation get_object_column_definitions :=
  (get_object_column_definitions COLUMN_HANDLERS ColumnHandler).

Lemma custom_attributes_fold (attrs : list custom_attribute) (t : string) :
  forall definitions : gmap string (gmap string value),
    foldl (fun definitions attr =>
             <[title attr := custom_attribute_definition attr]> definitions)
      definitions attrs !! t
    = match last (filter (fun attr => title attr = t) attrs) with
      | Some attr => Some (custom_attribute_definition attr)
      | None => definitions !! t
      end.
Proof.
  induction attrs as [| a attrs IH]; intros definitions; [reflexivity |].
  cbn [foldl]. rewrite IH, filter_cons.
  destruct (decide (title a = t)) as [<- | Hne].
  - rewrite last_cons, lookup_insert_eq.
    now destruct (last (filter _ attrs)).
  - rewrite lookup_insert_ne by assumption. reflexivity.
Qed.

(** X13. [get_custom_attributes_definitions] has an entry for a title when
    the class has a custom attribute of that title, and the entry is the
    one of the last such attribute: its display name and mandatory flag,
    the handler [COLUMN_HANDLERS] has for the title or [ColumnHandler],
    no validator, no default and an empty description. *)
Theorem custom_attributes_definitions_lookup (cls : object_class)
    (t : string) :
  get_custom_attributes_definitions cls !! t
  = (fun attr =>
       <["display_name" := VStr (display_name attr)]>
         (<["mandatory" := VBool (mandatory attr)]>
            (<["handler" :=
                 VHandler (default ColumnHandler (COLUMN_HANDLERS !! t))]>
               (<["validator" := VNone]>
                  (<["default" := VNone]>
                     (<["description" := VStr ""]> ∅))))))
    <$> last (filter (fun attr => title attr = t)
                (get_custom_attribute_definitions cls)).
Proof.
  unfold ImportHelper.get_custom_attributes_definitions.
  rewrite custom_attributes_fold, lookup_empty.
  destruct (last _) as [attr |] eqn:E; [| reflexivity].
  apply last_Some_elem_of, list_elem_of_filter in E. destruct E as [<- _].
  reflexivity.
Qed.

Lemma dom_update_definition {V} (definition values_dict : gmap string V) :
  dom (update_definition definition values_dict) = dom definition.
Proof.
  apply set_eq. intros k. rewrite !elem_of_dom, lookup_update_definition.
  destruct (definition !! k); [| reflexivity].
  split; intros _; eauto.
Qed.

(** X14. Whatever the alias of an attribute is, a plain name or a dict with
    any keys, its column definition has the six keys of a definition and
    no other. *)
Theorem column_definition_keys (cls : object_class) (key : string)
    (alias : value) :
  dom (column_definition cls key alias)
  = {[ "display_name"; "mandatory"; "default"; "validator"; "handler";
       "description" ]}.
Proof.
  unfold ImportHelper.column_definition.
  destruct alias; try rewrite dom_update_definition;
    rewrite !dom_insert_L, dom_empty_L; set_solver.
Qed.

(** X15. A column is mandatory when the table of the class has a column of
    that name that is not nullable, and not mandatory when it has none,
    unless the alias is a dict that has "mandatory", which then decides. *)
Theorem column_definition_mandatory (cls : object_class) (key : string)
    (alias : value) :
  let of_table :=
    VBool (match table_columns cls !! key with
           | Some nullable => negb nullable
           | None => false
           end) in
  column_definition cls key alias !! "mandatory"
  = Some (match alias with
          | VDict items => default of_table (items !! "mandatory")
          | _ => of_table
          end).
Proof.
  unfold ImportHelper.column_definition.
  destruct alias; try rewrite lookup_update_definition;
    rewrite lookup_insert_ne by discriminate;
    rewrite lookup_insert_eq; reflexivity.
Qed.

Lemma custom_attributes_definitions_is_Some (cls : object_class) key :
  is_Some (get_custom_attributes_definitions cls !! key)
  <-> exists attr, attr ∈ get_custom_attribute_definitions cls /\
                   title attr = key.
Proof.
  unfold ImportHelper.get_custom_attributes_definitions.
  rewrite custom_attributes_fold, lookup_empty.
  destruct (last _) as [attr |] eqn:E.
  - split; [intros _ | intros _; eexists; reflexivity].
    apply last_Some_elem_of, list_elem_of_filter in E.
    exists attr. tauto.
  - apply last_None in E. split; [intros [? [=]] |].
    intros (attr & Hin & Ht).
    assert (Hf : attr ∈ filter (fun attr => title attr = key)
                          (get_custom_attribute_definitions cls))
      by (apply list_elem_of_filter; auto).
    rewrite E in Hf. inversion Hf.
Qed.

(** X16. The columns [get_object_column_definitions] defines are: the titles
    of the custom attributes of the class, when its alias
    "custom_attributes" is set to something true; and the aliases that are
    not [None], but for "custom_attributes" itself. *)
Theorem object_column_definitions_keys (cls : object_class) (key : string) :
  key ∈ dom (get_object_column_definitions cls)
  <-> (value_truthy
         (default VNone (gather_aliases cls !! "custom_attributes")) = true /\
       exists attr, attr ∈ get_custom_attribute_definitions cls /\
                    title attr = key) \/
      (key <> "custom_attributes" /\
       exists alias, gather_aliases cls !! key = Some alias /\
                     alias <> VNone).
Proof.
  unfold ImportHelper.get_object_column_definitions.
  rewrite dom_union_L, elem_of_union, !elem_of_dom.
  match goal with
  | |- ?A \/ ?B <-> ?C \/ ?D =>
      assert (H1 : A <-> C); [| assert (H2 : B <-> D); [| tauto]]
  end.
  - destruct (value_truthy _).
    + rewrite custom_attributes_definitions_is_Some. intuition.
    + rewrite lookup_empty. split; [intros [? [=]] | intros [[=] _]].
  - rewrite map_lookup_imap.
    destruct (decide (key = "custom_attributes")) as [-> | Hne].
    + rewrite lookup_delete_eq. cbn. split; [intros [? [=]] | tauto].
    + rewrite lookup_delete_ne by congruence.
      destruct (gather_aliases cls !! key) as [alias |]; cbn.
      * destruct alias; cbn;
          [ split; [intros [? [=]] | intros (_ & ? & [= <-] & ?); congruence]
          | split;
            [ intros _; split; [assumption |];
              eexists; split; [reflexivity | discriminate]
            | intros _; eexists; reflexivity ] .. ].
      * split; [intros [? [=]] | intros (_ & ? & [=] & _)].
Qed.

(** X17. A custom attribute takes the place of an attribute of the class
    with the same name: when the alias "custom_attributes" is set to
    something true, the definition of a column that is the title of a
    custom attribute is the one of the custom attribute. *)
Theorem custom_attribute_replaces_attribute (cls : object_class)
    (key : string) (definition : gmap string value) :
  value_truthy (default VNone (gather_aliases cls !! "custom_attributes"))
  = true ->
  get_custom_attributes_definitions cls !! key = Some definition ->
  get_object_column_definitions cls !! key = Some definition.
Proof.
  intros Htrue Hcad. unfold ImportHelper.get_object_column_definitions.
  rewrite Htrue. now apply lookup_union_Some_l.
Qed.

End ColumnDefinitionsFacts.

Lemma custom_attribute_replaces_attribute_witness :
  get_object_column_definitions sample_handlers "ColumnHandler" sample_class
    !! "Severity"
  = Some (custom_attribute_definition sample_handlers "ColumnHandler"
            (mkCustomAttribute "Severity" "Severity" true)).
Proof.
  apply (custom_attribute_replaces_attribute sample_handlers "ColumnHandler"
           sample_class "Severity").
  - reflexivity.
  - vm_compute. reflexivity.
Defined.

(** The columns of the sample class: the alias that is [None] and the
    alias "custom_attributes" give none, the keys of the alias dict that a
    definition does not have are dropped. *)
Example sample_class_columns :
  (fun d => (d !! "display_name", d !! "mandatory", d !! "handler"))
    <$> get_object_column_definitions sample_handlers "ColumnHandler"
          sample_class
  = <["title" := (Some (VStr "Title"), Some (VBool true),
                  Some (VHandler "ColumnHandler"))]>
      (<["description" := (Some (VStr "Description"), Some (VBool false),
                           Some (VHandler "ColumnHandler"))]>
         (<["owners" := (Some (VStr "Admin"), Some (VBool true),
                         Some (VHandler "OwnerColumnHandler"))]>
            (<["Severity" := (Some (VStr "Severity"), Some (VBool true),
                              Some (VHandler "ColumnHandler"))]> ∅))).
Proof. vm_compute. reflexivity. Qed.

End ImportHelperProofs.

(** ** The assessment hooks *)

Module AssessmentHooksProofs.
Import AssessmentHooks.

Section DoneState.
Variables NOT_DONE_STATES DONE_STATES : gset string.
Variables FINAL_STATE DONE_STATE : string.

Local Abbreviation validate :=
  (_validate_assessment_done_state NOT_DONE_STATES DONE_STATES
     FINAL_STATE DONE_STATE).
Local Abbreviation handler :=
  (handle_assessment_done_state NOT_DONE_STATES DONE_STATES
     FINAL_STATE DONE_STATE).
Local Abbreviation preconditions_block :=
  (preconditions_block NOT_DONE_STATES DONE_STATES).
Local Abbreviation awaits_verification :=
  (awaits_verification FINAL_STATE).

Lemma validate_blocked old_value st :
  preconditions_block old_value st ->
  validate old_value st
  = (Raise (StatusValidationError precondition_message), st).
Proof.
  intros (Hold & Hnew & Hpre).
  unfold _validate_assessment_done_state, bind, gets, raise.
  rewrite !bool_decide_eq_true_2 by assumption.
  rewrite Hpre. reflexivity.
Qed.

Lemma validate_not_blocked old_value st :
  ~ preconditions_block old_value st ->
  validate old_value st
  = if String.eqb (Assessment.status (obj st)) FINAL_STATE &&
       negb (Assessment.verified (obj st)) &&
       negb (default false (Assessment.sox_302_enabled (obj st))) &&
       list_truthy (default [] (Assessment.verifiers (obj st)))
    then (Ok tt, with_obj (Assessment.set_status DONE_STATE) st)
    else (Ok tt, st).
Proof.
  intros Hnot.
  unfold _validate_assessment_done_state, bind, gets, raise, ret, modify.
  destruct (bool_decide (old_value ∈ NOT_DONE_STATES)) eqn:Eo; cbn;
    [destruct (bool_decide (Assessment.status (obj st) ∈ DONE_STATES))
       eqn:En; cbn;
     [destruct (Assessment.preconditions_failed (obj st)) as [[|] |] eqn:Ep;
      cbn | ] | ];
    try (destruct (_ && _ && _ && _); reflexivity).
  exfalso. apply Hnot. unfold preconditions_block.
  apply bool_decide_eq_true in Eo, En. auto.
Qed.

Lemma awaits_verification_test st :
  String.eqb (Assessment.status (obj st)) FINAL_STATE &&
  negb (Assessment.verified (obj st)) &&
  negb (default false (Assessment.sox_302_enabled (obj st))) &&
  list_truthy (default [] (Assessment.verifiers (obj st))) = true
  <-> awaits_verification st.
Proof.
  unfold awaits_verification.
  rewrite !andb_true_iff, !negb_true_iff, String.eqb_eq.
  destruct (default [] (Assessment.verifiers (obj st))); cbn;
    intuition congruence.
Qed.

(** C2. When the old status is a not-done state, the new status a done
    state and [preconditions_failed] is true, the validation, and with
    it the [model_put_before_commit] handler, raises
    [StatusValidationError]. *)
Theorem failed_preconditions_raise (old_value : string) (st : State) :
  old_value ∈ NOT_DONE_STATES ->
  Assessment.status (obj st) ∈ DONE_STATES ->
  Assessment.preconditions_failed (obj st) = Some true ->
  fst (validate old_value st)
  = Raise (StatusValidationError precondition_message) /\
  fst (handler old_value st)
  = Raise (StatusValidationError precondition_message).
Proof.
  intros Hold Hnew Hpre.
  assert (Hb : preconditions_block old_value st) by (split; auto).
  unfold handle_assessment_done_state, try_except.
  rewrite (validate_blocked _ _ Hb). split; reflexivity.
Qed.

(** The validation raises nothing but [StatusValidationError], and
    raises it before it touches the state. *)
Lemma validate_raise_inv old_value st e st' :
  validate old_value st = (Raise e, st') ->
  e = StatusValidationError precondition_message /\ st' = st /\
  preconditions_block old_value st.
Proof.
  intros H.
  destruct (decide (preconditions_block old_value st)) as [Hb | Hb].
  - rewrite (validate_blocked _ _ Hb) in H. inversion H. subst. auto.
  - rewrite (validate_not_blocked _ _ Hb) in H.
    destruct (_ && _ && _ && _); discriminate.
Qed.

(** C3. When the validation raises [StatusValidationError] in the
    handler, the handler rolls the session back and raises the same
    error.  The database is as it was before the failed transition: the
    committed tables are untouched, the transaction is back at them, and
    the assessment, expired by the rollback, is as its committed row has
    it, the status that was pending on it lost (an assessment without a
    committed row keeps its attributes).  [flask.g] and the cache are
    not touched. *)
Theorem handler_rolls_back_and_reraises (old_value msg : string)
    (st st' : State) :
  validate old_value st = (Raise (StatusValidationError msg), st') ->
  let run := handler old_value st in
  fst run = Raise (StatusValidationError msg) /\
  transaction (session (snd run)) = committed (session st) /\
  committed (session (snd run)) = committed (session st) /\
  obj (snd run)
  = default (obj st) (row_of (obj st) (assessments (committed (session st))))
  /\
  g (snd run) = g st /\ cache_new (snd run) = cache_new st.
Proof.
  intros H run.
  destruct (validate_raise_inv _ _ _ _ H) as (_ & -> & _).
  unfold run, handle_assessment_done_state, try_except. rewrite H. cbn.
  repeat split.
Qed.

(** C8, amended. When the first check does not raise, and the status
    is the final state, the assessment is not verified,
    [sox_302_enabled] is false or absent and there is a verifier, the
    validation sets the status to [DONE_STATE] and changes nothing
    else; in every other case, the one where it raises included, it
    leaves the state, and with it the status, as it was. *)
Theorem final_state_downgraded_unless_blocked (old_value : string)
    (st : State) :
  (~ preconditions_block old_value st ->
   awaits_verification st ->
   validate old_value st
   = (Ok tt, with_obj (Assessment.set_status DONE_STATE) st)) /\
  (~ (~ preconditions_block old_value st /\ awaits_verification st) ->
   snd (validate old_value st) = st).
Proof.
  split.
  - intros Hnb Haw. rewrite (validate_not_blocked _ _ Hnb).
    apply awaits_verification_test in Haw. now rewrite Haw.
  - intros Hn.
    destruct (decide (preconditions_block old_value st)) as [Hb | Hb].
    + now rewrite (validate_blocked _ _ Hb).
    + rewrite (validate_not_blocked _ _ Hb).
      destruct (_ && _ && _ && _) eqn:E; [| reflexivity].
      apply awaits_verification_test in E. tauto.
Qed.

End DoneState.

Lemma failed_preconditions_raise_witness :
  fst (_validate_assessment_done_state sample_NOT_DONE_STATES
         sample_DONE_STATES sample_FINAL_STATE sample_DONE_STATE
         "In Progress" (sample_state in_review_with_failed_preconditions))
  = Raise (StatusValidationError precondition_message) /\
  fst (handle_assessment_done_state sample_NOT_DONE_STATES
         sample_DONE_STATES sample_FINAL_STATE sample_DONE_STATE
         "In Progress" (sample_state in_review_with_failed_preconditions))
  = Raise (StatusValidationError precondition_message).
Proof.
  apply (failed_preconditions_raise sample_NOT_DONE_STATES
           sample_DONE_STATES sample_FINAL_STATE sample_DONE_STATE
           "In Progress" (sample_state in_review_with_failed_preconditions)).
  - apply (bool_decide_unpack _). vm_compute. exact I.
  - apply (bool_decide_unpack _). vm_compute. exact I.
  - reflexivity.
Defined.

Lemma handler_rolls_back_and_reraises_witness :
  let st := sample_put_state in
  let run :=
    handle_assessment_done_state sample_NOT_DONE_STATES sample_DONE_STATES
      sample_FINAL_STATE sample_DONE_STATE "In Progress" st in
  (transaction (session st) <> committed (session st) /\
   Assessment.status (obj st) = "In Review") /\
  fst run = Raise (StatusValidationError precondition_message) /\
  transaction (session (snd run)) = sample_database /\
  committed (session (snd run)) = sample_database /\
  obj (snd run) = sample_assessment_row /\
  Assessment.status (obj (snd run)) = "In Progress".
Proof.
  intros st run.
  destruct (handler_rolls_back_and_reraises sample_NOT_DONE_STATES
              sample_DONE_STATES sample_FINAL_STATE sample_DONE_STATE
              "In Progress" precondition_message st st)
    as (Hraise & Htr & Hco & Hobj & _).
  - vm_compute. reflexivity.
  - split; [split; [discriminate | reflexivity] |].
    split; [exact Hraise |]. split; [exact Htr |]. split; [exact Hco |].
    fold run in Hobj. rewrite Hobj. split; reflexivity.
Defined.

(** C8 as stated fails: an assessment moved from "In Progress" to the
    final state while its preconditions have failed meets the four
    conditions, and keeps the final state, since the validation raises
    before it reaches the second check. *)
Lemma final_state_kept_when_preconditions_fail :
  ~ (forall (old_value : string) (st : State),
       awaits_verification sample_FINAL_STATE st ->
       Assessment.status
         (obj (snd (_validate_assessment_done_state sample_NOT_DONE_STATES
                      sample_DONE_STATES sample_FINAL_STATE
                      sample_DONE_STATE old_value st)))
       = sample_DONE_STATE).
Proof.
  intros H.
  specialize (H "In Progress"
                (sample_state completed_with_failed_preconditions)).
  assert (Haw : awaits_verification sample_FINAL_STATE
                  (sample_state completed_with_failed_preconditions)).
  { repeat split. discriminate. }
  specialize (H Haw). vm_compute in H. discriminate H.
Qed.

Lemma final_state_downgraded_unless_blocked_witness :
  _validate_assessment_done_state sample_NOT_DONE_STATES sample_DONE_STATES
    sample_FINAL_STATE sample_DONE_STATE "In Review"
    (sample_state completed_assessment)
  = (Ok tt,
     with_obj (Assessment.set_status sample_DONE_STATE)
       (sample_state completed_assessment)) /\
  snd (_validate_assessment_done_state sample_NOT_DONE_STATES
         sample_DONE_STATES sample_FINAL_STATE sample_DONE_STATE
         "In Progress" (sample_state completed_with_failed_preconditions))
  = sample_state completed_with_failed_preconditions.
Proof.
  split.
  - apply (proj1 (final_state_downgraded_unless_blocked
                    sample_NOT_DONE_STATES sample_DONE_STATES
                    sample_FINAL_STATE sample_DONE_STATE "In Review"
                    (sample_state completed_assessment))).
    + intros (Hold & _). apply (bool_decide_pack _) in Hold.
      vm_compute in Hold. exact Hold.
    + repeat split. discriminate.
  - apply (proj2 (final_state_downgraded_unless_blocked
                    sample_NOT_DONE_STATES sample_DONE_STATES
                    sample_FINAL_STATE sample_DONE_STATE "In Progress"
                    (sample_state completed_with_failed_preconditions))).
    intros (Hnb & _). apply Hnb. repeat split.
Defined.

Example validation_of_completed_assessment :
  _validate_assessment_done_state sample_NOT_DONE_STATES sample_DONE_STATES
    sample_FINAL_STATE sample_DONE_STATE "In Progress"
    (sample_state completed_with_failed_preconditions)
  = (Raise (StatusValidationError precondition_message),
     sample_state completed_with_failed_preconditions).
Proof. vm_compute. reflexivity. Qed.

Section BatchInsert.
Variable table_singular : string.
Variable utcnow : nat -> Z.
Variable get_current_user_id : Z.
Variable get_cache : option (gset row_ref) -> option (gset row_ref).
Variable cache_truthy : gset row_ref -> bool.

Local Abbreviation clone_cad_stub :=
  (clone_cad_stub table_singular utcnow get_current_user_id).
Local Abbreviation _mark_cads_to_batch_insert :=
  (_mark_cads_to_batch_insert table_singular utcnow get_current_user_id).
Local Abbreviation _add_objects_to_cache :=
  (_add_objects_to_cache get_cache cache_truthy).
Local Abbreviation _batch_insert_cads :=
  (_batch_insert_cads get_cache cache_truthy).

(** The cache is the only part of the state that logging objects in it
    touches. *)
Lemma add_objects_to_cache_ok objs_q st :
  exists st',
    _add_objects_to_cache objs_q st = (Ok tt, st') /\
    obj st' = obj st /\ g st' = g st /\ session st' = session st /\
    utcnow_calls st' = utcnow_calls st /\ log st' = log st /\
    cache_new st'
    = match get_cache (cache_new st) with
      | Some new =>
          Some (if cache_truthy new then new ∪ list_to_set objs_q else new)
      | None => None
      end.
Proof.
  unfold AssessmentHooks._add_objects_to_cache, bind, modify, gets. cbn.
  destruct (get_cache (cache_new st)) as [new |] eqn:E.
  - destruct (cache_truthy new); eexists; (split; [reflexivity |]); cbn;
      rewrite ?E; repeat split.
  - eexists. split; [reflexivity |]. cbn. rewrite ?E. repeat split.
Qed.

Lemma clone_cad_stub_ok cad_stub st :
  exists stub st',
    clone_cad_stub cad_stub st = (Ok stub, st') /\
    g st' = g st /\ same_but_bucket_and_clock st st' /\
    is_cad_stub_of table_singular (obj st)
      (CustomAttributeDefinition.mk cad_stub) stub.
Proof.
  eexists _, _. split; [reflexivity |]. cbn.
  split; [reflexivity |]. split; [repeat split |].
  repeat split; try (by simplify_map_eq).
  intros k Hk. unfold cad_stub_columns in Hk.
  rewrite !not_elem_of_cons in Hk.
  destruct Hk as (? & ? & ? & ? & ? & ? & _).
  rewrite !lookup_insert_ne by congruence. reflexivity.
Qed.

(** The loop of [_mark_cads_to_batch_insert], once the bucket exists. *)
Lemma mark_cads_loop ca_definitions :
  forall st bucket,
    cads_to_batch_insert (g st) = Some bucket ->
    exists st' stubs,
      for_each ca_definitions
        (fun ca_definition =>
           bind (clone_cad_stub
                   (CustomAttributeDefinition.to_dict ca_definition))
             (fun new_ca_stub => append_cad new_ca_stub)) st
      = (Ok tt, st') /\
      cads_to_batch_insert (g st') = Some (bucket ++ stubs) /\
      acps_to_batch_insert (g st') = acps_to_batch_insert (g st) /\
      same_but_bucket_and_clock st st' /\
      Forall2 (is_cad_stub_of table_singular (obj st))
        ca_definitions stubs.
Proof.
  induction ca_definitions as [| d ds IH]; intros st bucket Hb.
  - exists st, []. rewrite app_nil_r. repeat split; auto.
  - destruct (clone_cad_stub_ok (CustomAttributeDefinition.to_dict d) st)
      as (stub & st1 & Hrun & Hg & (Ho & Hs & Hc & Hl) & Hstub).
    set (st2 := with_g (set_cads_to_batch_insert (Some (bucket ++ [stub])))
                  st1).
    destruct (IH st2 (bucket ++ [stub]) eq_refl)
      as (st' & stubs & Hloop & Hb' & Ha' & (Ho' & Hs' & Hc' & Hl') & Hall).
    exists st', (stub :: stubs). split; [| split; [| split; [| split]]].
    + cbn [for_each]. unfold bind at 1. unfold bind at 1.
      rewrite Hrun. unfold append_cad at 1, bind at 1, gets.
      rewrite Hg, Hb. unfold modify. exact Hloop.
    + rewrite Hb', <- app_assoc. reflexivity.
    + rewrite Ha'. unfold st2. cbn. now rewrite Hg.
    + unfold st2 in *. cbn in *. repeat split; congruence.
    + constructor.
      * destruct d. exact Hstub.
      * unfold st2 in Hall. cbn in Hall. now rewrite Ho in Hall.
Qed.

Lemma mark_cads_ok ca_definitions st :
  exists st' stubs,
    _mark_cads_to_batch_insert ca_definitions st = (Ok tt, st') /\
    cads_to_batch_insert (g st')
    = Some (default [] (cads_to_batch_insert (g st)) ++ stubs) /\
    acps_to_batch_insert (g st') = acps_to_batch_insert (g st) /\
    same_but_bucket_and_clock st st' /\
    Forall2 (is_cad_stub_of table_singular (obj st)) ca_definitions stubs.
Proof.
  unfold AssessmentHooks._mark_cads_to_batch_insert.
  destruct (cads_to_batch_insert (g st)) as [bucket |] eqn:Hb.
  - destruct (mark_cads_loop ca_definitions st bucket Hb)
      as (st' & stubs & Hloop & H).
    exists st', stubs. split; [| exact H].
    unfold bind at 1. unfold bind at 1. unfold gets. rewrite Hb. cbn.
    exact Hloop.
  - set (st0 := with_g (set_cads_to_batch_insert (Some [])) st).
    destruct (mark_cads_loop ca_definitions st0 [] eq_refl)
      as (st' & stubs & Hloop & Hb' & Ha' & (Ho & Hs & Hc & Hl) & Hall).
    exists st', stubs. split; [| split; [| split; [| split]]].
    + unfold bind at 1. unfold bind at 1. unfold gets. rewrite Hb. cbn.
      exact Hloop.
    + exact Hb'.
    + exact Ha'.
    + repeat split; assumption.
    + exact Hall.
Qed.

Lemma batch_insert_cads_empty attributables st :
  default [] (cads_to_batch_insert (g st)) = [] ->
  _batch_insert_cads attributables st = (Ok tt, st).
Proof.
  intros H. unfold AssessmentHooks._batch_insert_cads.
  unfold bind at 1. unfold gets at 1. now rewrite H.
Qed.

Lemma batch_insert_cads_run attributables st :
  default [] (cads_to_batch_insert (g st)) <> [] ->
  let st1 :=
    with_session
      (with_transaction
         (insert_custom_attribute_definitions
            (default [] (cads_to_batch_insert (g st)))))
      (with_g (set_cads_to_batch_insert (Some [])) st) in
  _batch_insert_cads attributables st
  = _add_objects_to_cache
      (query CustomAttributeDefinitionTable
         (is_new_cad_of (Assessment.id <$> attributables))
         (custom_attribute_definitions (transaction (session st1))))
      st1.
Proof.
  intros H st1. unfold AssessmentHooks._batch_insert_cads.
  unfold bind at 1. unfold gets at 1.
  destruct (default [] (cads_to_batch_insert (g st))) as [| stub bucket]
    eqn:Hb; [congruence |].
  reflexivity.
Qed.

Lemma batch_insert_cads_ok attributables st :
  exists st',
    _batch_insert_cads attributables st = (Ok tt, st') /\
    custom_attribute_definitions (transaction (session st'))
    = custom_attribute_definitions (transaction (session st))
      ++ default [] (cads_to_batch_insert (g st)) /\
    default [] (cads_to_batch_insert (g st')) = [] /\
    _batch_insert_cads attributables st' = (Ok tt, st').
Proof.
  destruct (decide (default [] (cads_to_batch_insert (g st)) = []))
    as [Hb | Hb].
  - exists st. rewrite Hb, app_nil_r.
    now rewrite batch_insert_cads_empty.
  - rewrite (batch_insert_cads_run attributables st Hb). cbn zeta.
    match goal with
    | |- context [_add_objects_to_cache ?q ?s] =>
        destruct (add_objects_to_cache_ok q s)
          as (st' & R & Ho & Hg & Hs & _)
    end.
    exists st'. rewrite R, Hs, Hg. split; [reflexivity |].
    split; [reflexivity |]. split; [reflexivity |].
    apply batch_insert_cads_empty. now rewrite Hg.
Qed.

(** C7. Every stub [_mark_cads_to_batch_insert] makes, one for each
    definition and in their order, is appended to
    [flask.g.cads_to_batch_insert]; [_batch_insert_cads] appends the
    stubs of the bucket, each once, to the table of custom attribute
    definitions and leaves the bucket empty, so that a second call at
    once changes nothing. *)
Theorem cad_bucket_filled_then_flushed :
  (forall ca_definitions st,
     exists st' stubs,
       _mark_cads_to_batch_insert ca_definitions st = (Ok tt, st') /\
       cads_to_batch_insert (g st')
       = Some (default [] (cads_to_batch_insert (g st)) ++ stubs) /\
       Forall2 (is_cad_stub_of table_singular (obj st))
         ca_definitions stubs) /\
  (forall attributables st,
     exists st',
       _batch_insert_cads attributables st = (Ok tt, st') /\
       custom_attribute_definitions (transaction (session st'))
       = custom_attribute_definitions (transaction (session st))
         ++ default [] (cads_to_batch_insert (g st)) /\
       default [] (cads_to_batch_insert (g st')) = [] /\
       _batch_insert_cads attributables st' = (Ok tt, st')).
Proof.
  split.
  - intros defs st.
    destruct (mark_cads_ok defs st) as (st' & stubs & H1 & H2 & _ & _ & H3).
    eauto.
  - apply batch_insert_cads_ok.
Qed.

End BatchInsert.

Section RolePeople.
Variable get_custom_roles_for : string -> list (Z * string).

Local Abbreviation _generate_role_people_map :=
  (_generate_role_people_map get_custom_roles_for).

Lemma next_role_id_eq roles name (st : State) :
  next_role_id roles name st
  = match role_id_of roles name with
    | Some id_ => (Ok id_, st)
    | None => (Raise StopIteration, st)
    end.
Proof.
  unfold role_id_of.
  induction roles as [| [id_ role_name] roles IH]; cbn; [reflexivity |].
  destruct (String.eqb role_name name); [reflexivity | exact IH].
Qed.

Lemma lookup_extend m k l k' :
  default [] (extend m k l !! k')
  = if decide (k = k') then default [] (m !! k) ++ l
    else default [] (m !! k').
Proof.
  unfold extend. destruct (decide (k = k')) as [-> |].
  - now rewrite lookup_insert_eq.
  - now rewrite lookup_insert_ne.
Qed.

(** The loop over the revision's list: each role with a name gets the
    people the list gives it, after those it had.  The map that comes
    out does not depend on the state. *)
Lemma snapshot_role_people_ok acr_dict snapshot acls :
  forall m,
    exists m',
      (forall role, role <> "" ->
         default [] (m' !! role)
         = default [] (m !! role) ++ snapshot_people acr_dict acls role) /\
      forall st,
        exists st',
          snapshot_role_people acr_dict snapshot acls m st = (Ok m', st') /\
          obj st' = obj st /\ g st' = g st /\ session st' = session st /\
          cache_new st' = cache_new st /\
          utcnow_calls st' = utcnow_calls st.
Proof.
  induction acls as [| acl acls IH]; intros m.
  - exists m. split.
    + intros role _. unfold snapshot_people. cbn. now rewrite app_nil_r.
    + intros st. exists st. repeat split.
  - cbn [snapshot_role_people].
    destruct (items_get acr_dict (RevisionContent.ac_role_id acl))
      as [[| c r] |] eqn:E.
    + destruct (IH m) as (m' & Hm & Hrun). exists m'. split.
      * intros role Hrole. rewrite (Hm role Hrole). f_equal.
        unfold snapshot_people. rewrite filter_cons_False; [reflexivity |].
        rewrite E. congruence.
      * intros st. unfold bind at 1, modify.
        destruct (Hrun (with_log
                          (fun l => l ++ [(Snapshot.id snapshot,
                                           RevisionContent.ac_role_id acl)])
                          st))
          as (st' & R & H).
        exists st'. split; [exact R | exact H].
    + destruct (IH (extend m (String c r) [RevisionContent.person_id acl]))
        as (m' & Hm & Hrun).
      exists m'. split; [| exact Hrun].
      intros role Hrole. rewrite (Hm role Hrole), lookup_extend.
      unfold snapshot_people.
      destruct (decide (String c r = role)) as [<- | Hne].
      * rewrite filter_cons_True by assumption. cbn.
        now rewrite <- app_assoc.
      * rewrite filter_cons_False; [reflexivity |]. rewrite E. congruence.
    + destruct (IH m) as (m' & Hm & Hrun). exists m'. split.
      * intros role Hrole. rewrite (Hm role Hrole). f_equal.
        unfold snapshot_people. rewrite filter_cons_False; [reflexivity |].
        rewrite E. congruence.
      * intros st. unfold bind at 1, modify.
        destruct (Hrun (with_log
                          (fun l => l ++ [(Snapshot.id snapshot,
                                           RevisionContent.ac_role_id acl)])
                          st))
          as (st' & R & H).
        exists st'. split; [exact R | exact H].
Qed.

Lemma generate_role_people_map_ok audit snapshot content acls
    auditor_role_id captain_role_id :
  role_id_of (get_custom_roles_for "Audit") "Auditors"
  = Some auditor_role_id ->
  role_id_of (get_custom_roles_for "Audit") "Audit Captains"
  = Some captain_role_id ->
  RevisionContent.access_control_list content = Some acls ->
  let acr_dict := get_custom_roles_for (Snapshot.child_type snapshot) in
  let leads :=
    snapshot_people acr_dict acls "Audit Lead"
    ++ audit_people audit captain_role_id in
  let auditors :=
    snapshot_people acr_dict acls "Auditors"
    ++ audit_people audit auditor_role_id in
  exists m,
    m !! "Audit Lead" = Some leads /\
    m !! "Auditors" = Some (if list_truthy auditors then auditors else leads) /\
    forall st,
      exists st',
        _generate_role_people_map audit (Some snapshot) (Some content) st
        = (Ok m, st') /\
        obj st' = obj st /\ g st' = g st /\ session st' = session st /\
        cache_new st' = cache_new st /\
        utcnow_calls st' = utcnow_calls st.
Proof.
  intros Haud Hcap Hacl acr_dict leads auditors.
  destruct (snapshot_role_people_ok acr_dict snapshot acls ∅)
    as (m1 & Hm & Hrun).
  assert (Hl : default [] (m1 !! "Audit Lead")
               = snapshot_people acr_dict acls "Audit Lead")
    by (rewrite Hm by discriminate; now rewrite lookup_empty).
  assert (Ha : default [] (m1 !! "Auditors")
               = snapshot_people acr_dict acls "Auditors")
    by (rewrite Hm by discriminate; now rewrite lookup_empty).
  set (m2 := extend m1 "Audit Lead" (audit_people audit captain_role_id)).
  set (m3 := extend m2 "Auditors" (audit_people audit auditor_role_id)).
  assert (E : default [] (m3 !! "Auditors") = auditors).
  { unfold m3, m2. rewrite lookup_extend, decide_True by reflexivity.
    rewrite lookup_extend, decide_False by discriminate.
    now rewrite Ha. }
  assert (L : m3 !! "Audit Lead" = Some leads).
  { unfold m3, m2, extend. rewrite lookup_insert_ne by discriminate.
    rewrite lookup_insert_eq, Hl. reflexivity. }
  exists (if negb (list_truthy (default [] (m3 !! "Auditors")))
          then extend m3 "Auditors" (default [] (m3 !! "Audit Lead"))
          else m3).
  split; [| split].
  - destruct (negb _); [| exact L].
    unfold extend. now rewrite lookup_insert_ne by discriminate.
  - rewrite E. destruct (list_truthy auditors) eqn:Et; cbn [negb].
    + unfold m3, extend at 1. rewrite lookup_insert_eq. f_equal.
      fold (default [] (m2 !! "Auditors")).
      unfold m2. rewrite lookup_extend, decide_False by discriminate.
      now rewrite Ha.
    + unfold extend at 1. rewrite lookup_insert_eq, E, L.
      destruct auditors; [reflexivity | discriminate].
  - intros st. destruct (Hrun st) as (st' & R & H).
    exists st'. split; [| exact H].
    unfold AssessmentHooks._generate_role_people_map.
    unfold bind at 1. unfold ret at 1.
    unfold bind at 1. rewrite next_role_id_eq, Haud.
    unfold bind at 1. rewrite next_role_id_eq, Hcap.
    unfold bind at 1. rewrite Hacl. unfold ret at 1.
    unfold bind at 1. fold acr_dict. rewrite R. reflexivity.
Qed.

(** C10. In the map [_generate_role_people_map] returns, "Audit Lead"
    holds the people the snapshot's list gives that role followed by
    the audit captains.  When neither the snapshot's list nor the audit
    gives a person to "Auditors", the people of "Audit Lead" are the
    "Auditors"; when there is an auditor, "Auditors" holds the auditors
    of the snapshot's list and of the audit, and nobody else. *)
Theorem auditors_default_to_audit_captains (audit : Audit.t)
    (snapshot : Snapshot.t) (content : RevisionContent.t)
    (acls : list RevisionContent.acl_entry)
    (auditor_role_id captain_role_id : Z) (st : State) :
  role_id_of (get_custom_roles_for "Audit") "Auditors"
  = Some auditor_role_id ->
  role_id_of (get_custom_roles_for "Audit") "Audit Captains"
  = Some captain_role_id ->
  RevisionContent.access_control_list content = Some acls ->
  let acr_dict := get_custom_roles_for (Snapshot.child_type snapshot) in
  let leads :=
    snapshot_people acr_dict acls "Audit Lead"
    ++ audit_people audit captain_role_id in
  let auditors :=
    snapshot_people acr_dict acls "Auditors"
    ++ audit_people audit auditor_role_id in
  exists m st',
    _generate_role_people_map audit (Some snapshot) (Some content) st
    = (Ok m, st') /\
    m !! "Audit Lead" = Some leads /\
    (auditors = [] -> m !! "Auditors" = Some leads) /\
    (auditors <> [] -> m !! "Auditors" = Some auditors).
Proof.
  intros Haud Hcap Hacl acr_dict leads auditors.
  destruct (generate_role_people_map_ok audit snapshot content acls
              auditor_role_id captain_role_id Haud Hcap Hacl)
    as (m & Hl & Ha & Hrun).
  destruct (Hrun st) as (st' & R & _).
  exists m, st'. split; [exact R |]. split; [exact Hl |].
  fold acr_dict in Ha. fold leads in Ha. fold auditors in Ha.
  split; intros H.
  - rewrite Ha, H. reflexivity.
  - rewrite Ha. destruct auditors; [congruence | reflexivity].
Qed.

End RolePeople.

(** *** The role map, key by key *)

Section RolePeopleExact.
Variable get_custom_roles_for : string -> list (Z * string).

Local Abbreviation _generate_role_people_map :=
  (_generate_role_people_map get_custom_roles_for).

(** The loop over the revision's list, with the keys it makes and the
    records it logs. *)
Lemma snapshot_role_people_exact acr_dict snapshot acls :
  forall m,
    exists m',
      (forall role, role <> "" ->
         m' !! role
         = match snapshot_people acr_dict acls role with
           | [] => m !! role
           | people => Some (default [] (m !! role) ++ people)
           end) /\
      m' !! "" = m !! "" /\
      forall st,
        exists st',
          snapshot_role_people acr_dict snapshot acls m st = (Ok m', st') /\
          log st'
          = log st
            ++ ((fun acl =>
                   (Snapshot.id snapshot, RevisionContent.ac_role_id acl))
                  <$> unknown_role_entries acr_dict acls) /\
          obj st' = obj st /\ g st' = g st /\ session st' = session st.
Proof.
  induction acls as [| acl acls IH]; intros m.
  - exists m. split; [reflexivity |]. split; [reflexivity |].
    intros st. exists st. cbn. rewrite app_nil_r. repeat split.
  - cbn [snapshot_role_people]. unfold unknown_role_entries, snapshot_people.
    destruct (items_get acr_dict (RevisionContent.ac_role_id acl))
      as [[| c r] |] eqn:E.
    + destruct (IH m) as (m' & Hm & Hempty & Hrun). exists m'.
      split; [| split; [exact Hempty |]].
      * intros role Hrole. rewrite (Hm role Hrole).
        unfold snapshot_people. rewrite (filter_cons_False _ acl);
          [reflexivity | rewrite E; congruence].
      * intros st. unfold bind at 1, modify.
        destruct (Hrun (with_log
                          (fun l => l ++ [(Snapshot.id snapshot,
                                           RevisionContent.ac_role_id acl)])
                          st))
          as (st' & R & Hlog & H).
        exists st'. split; [exact R |]. split; [| exact H].
        rewrite Hlog. cbn [log with_log].
        rewrite filter_cons_True by (now rewrite E).
        cbn. unfold unknown_role_entries. now rewrite <- app_assoc.
    + destruct (IH (extend m (String c r) [RevisionContent.person_id acl]))
        as (m' & Hm & Hempty & Hrun).
      exists m'.
      split; [| split;
                [rewrite Hempty; unfold extend;
                 now rewrite lookup_insert_ne by discriminate |]].
      * intros role Hrole. rewrite (Hm role Hrole). unfold snapshot_people.
        destruct (decide (String c r = role)) as [<- | Hne].
        -- rewrite (filter_cons_True _ acl) by assumption.
           unfold extend. rewrite lookup_insert_eq. cbn.
           destruct (RevisionContent.person_id <$> filter _ acls);
             cbn; [reflexivity |].
           now rewrite <- app_assoc.
        -- rewrite (filter_cons_False _ acl) by (rewrite E; congruence).
           unfold extend. rewrite lookup_insert_ne by assumption.
           reflexivity.
      * intros st. destruct (Hrun st) as (st' & R & Hlog & H).
        exists st'. split; [exact R |]. split; [| exact H].
        rewrite Hlog. rewrite (filter_cons_False _ acl); [reflexivity |].
        rewrite E. cbn. discriminate.
    + destruct (IH m) as (m' & Hm & Hempty & Hrun). exists m'.
      split; [| split; [exact Hempty |]].
      * intros role Hrole. rewrite (Hm role Hrole).
        unfold snapshot_people. rewrite (filter_cons_False _ acl);
          [reflexivity | rewrite E; congruence].
      * intros st. unfold bind at 1, modify.
        destruct (Hrun (with_log
                          (fun l => l ++ [(Snapshot.id snapshot,
                                           RevisionContent.ac_role_id acl)])
                          st))
          as (st' & R & Hlog & H).
        exists st'. split; [exact R |]. split; [| exact H].
        rewrite Hlog. cbn [log with_log].
        rewrite filter_cons_True by (now rewrite E).
        cbn. unfold unknown_role_entries. now rewrite <- app_assoc.
Qed.

Lemma generate_role_people_map_exact audit snapshot content acls
    auditor_role_id captain_role_id :
  role_id_of (get_custom_roles_for "Audit") "Auditors"
  = Some auditor_role_id ->
  role_id_of (get_custom_roles_for "Audit") "Audit Captains"
  = Some captain_role_id ->
  RevisionContent.access_control_list content = Some acls ->
  let acr_dict := get_custom_roles_for (Snapshot.child_type snapshot) in
  let leads :=
    snapshot_people acr_dict acls "Audit Lead"
    ++ audit_people audit captain_role_id in
  let auditors :=
    snapshot_people acr_dict acls "Auditors"
    ++ audit_people audit auditor_role_id in
  exists m,
    m !! "Audit Lead" = Some leads /\
    m !! "Auditors" = Some (if list_truthy auditors then auditors else leads) /\
    (forall role,
       role <> "" -> role <> "Audit Lead" -> role <> "Auditors" ->
       m !! role
       = match snapshot_people acr_dict acls role with
         | [] => None
         | people => Some people
         end) /\
    m !! "" = None /\
    forall st,
      exists st',
        _generate_role_people_map audit (Some snapshot) (Some content) st
        = (Ok m, st') /\
        log st'
        = log st
          ++ ((fun acl =>
                 (Snapshot.id snapshot, RevisionContent.ac_role_id acl))
                <$> unknown_role_entries acr_dict acls) /\
        obj st' = obj st /\ g st' = g st /\ session st' = session st.
Proof.
  intros Haud Hcap Hacl acr_dict leads auditors.
  destruct (snapshot_role_people_exact acr_dict snapshot acls ∅)
    as (m1 & Hm & Hempty & Hrun).
  assert (Hd : forall role, role <> "" ->
             default [] (m1 !! role) = snapshot_people acr_dict acls role).
  { intros role Hrole. rewrite (Hm role Hrole), lookup_empty.
    now destruct (snapshot_people acr_dict acls role). }
  set (m2 := extend m1 "Audit Lead" (audit_people audit captain_role_id)).
  set (m3 := extend m2 "Auditors" (audit_people audit auditor_role_id)).
  assert (E : default [] (m3 !! "Auditors") = auditors).
  { unfold m3, m2. rewrite lookup_extend, decide_True by reflexivity.
    rewrite lookup_extend, decide_False by discriminate.
    now rewrite Hd by discriminate. }
  assert (L : m3 !! "Audit Lead" = Some leads).
  { unfold m3, m2, extend. rewrite lookup_insert_ne by discriminate.
    rewrite lookup_insert_eq, Hd by discriminate. reflexivity. }
  exists (if negb (list_truthy (default [] (m3 !! "Auditors")))
          then extend m3 "Auditors" (default [] (m3 !! "Audit Lead"))
          else m3).
  split; [| split; [| split; [| split]]].
  - destruct (negb _); [| exact L].
    unfold extend. now rewrite lookup_insert_ne by discriminate.
  - rewrite E. destruct (list_truthy auditors) eqn:Et; cbn [negb].
    + unfold m3, extend at 1. rewrite lookup_insert_eq. f_equal.
      fold (default [] (m2 !! "Auditors")).
      unfold m2. rewrite lookup_extend, decide_False by discriminate.
      now rewrite Hd by discriminate.
    + unfold extend at 1. rewrite lookup_insert_eq, E, L.
      destruct auditors; [reflexivity | discriminate].
  - intros role Hr Hl Ha.
    assert (Hbase : m3 !! role
                    = match snapshot_people acr_dict acls role with
                      | [] => None
                      | people => Some people
                      end).
    { unfold m3, m2, extend. rewrite !lookup_insert_ne by congruence.
      rewrite (Hm role Hr), lookup_empty.
      now destruct (snapshot_people acr_dict acls role). }
    destruct (negb _); [| exact Hbase].
    unfold extend. rewrite lookup_insert_ne by congruence. exact Hbase.
  - assert (Hbase : m3 !! "" = None).
    { unfold m3, m2, extend. rewrite !lookup_insert_ne by discriminate.
      now rewrite Hempty, lookup_empty. }
    destruct (negb _); [| exact Hbase].
    unfold extend. rewrite lookup_insert_ne by discriminate. exact Hbase.
  - intros st. destruct (Hrun st) as (st' & R & Hlog & H).
    exists st'. split; [| split; [exact Hlog | exact H]].
    unfold AssessmentHooks._generate_role_people_map.
    unfold bind at 1. unfold ret at 1.
    unfold bind at 1. rewrite next_role_id_eq, Haud.
    unfold bind at 1. rewrite next_role_id_eq, Hcap.
    unfold bind at 1. rewrite Hacl. unfold ret at 1.
    unfold bind at 1. fold acr_dict. rewrite R. reflexivity.
Qed.

End RolePeopleExact.

Section Creation.
Variable get_custom_roles_for : string -> list (Z * string).
Variable get_acl_with_role_name :
  Assessment.t -> string -> option AccessControlList.t.
Variable table_singular : string.
Variable utcnow : nat -> Z.
Variable get_current_user_id : Z.
Variable iter_set : gset Z -> list Z.
Variable map_to : Assessment.t -> related -> Session -> Session.

Local Abbreviation _mark_cads_to_batch_insert :=
  (_mark_cads_to_batch_insert table_singular utcnow get_current_user_id).
Local Abbreviation _mark_acps_to_batch_insert :=
  (_mark_acps_to_batch_insert get_acl_with_role_name utcnow
     get_current_user_id).
Local Abbreviation _generate_assignee_relations :=
  (_generate_assignee_relations get_acl_with_role_name utcnow
     get_current_user_id iter_set).
Local Abbreviation _generate_role_people_map :=
  (_generate_role_people_map get_custom_roles_for).
Local Abbreviation _relate_assignees :=
  (_relate_assignees get_custom_roles_for get_acl_with_role_name utcnow
     get_current_user_id iter_set).
Local Abbreviation _handle_assessment :=
  (_handle_assessment get_custom_roles_for get_acl_with_role_name
     table_singular utcnow get_current_user_id iter_set map_to).

(** **** What the later steps of the hook leave alone *)

Section Preserved.
(** A property of the state that depends on nothing but the flag
    [sox_302_enabled] of the assessment. *)
Variable v : option bool.

Local Abbreviation sox_is :=
  (fun s : State => Assessment.sox_302_enabled (obj s) = v).









End Preserved.

(** **** Marking access control people *)

Lemma mark_acps_ok person role_name st :
  exists st' new,
    _mark_acps_to_batch_insert person role_name st = (Ok tt, st') /\
    acps_to_batch_insert (g st')
    = Some (default [] (acps_to_batch_insert (g st)) ++ new) /\
    cads_to_batch_insert (g st') = cads_to_batch_insert (g st) /\
    same_but_bucket_and_clock st st' /\
    match get_acl_with_role_name (obj st) role_name with
    | None => new = []
    | Some acl =>
        exists stub, new = [stub] /\
                     is_acp_stub_of (Person.id person) acl stub
    end.
Proof.
  unfold AssessmentHooks._mark_acps_to_batch_insert, add_person_to_acl,
    append_acp, bind, gets, modify, ret, datetime_utcnow.
  destruct (acps_to_batch_insert (g st)) as [bucket |] eqn:Hb; cbn;
    destruct (get_acl_with_role_name (obj st) role_name) as [acl |] eqn:Ha;
    cbn; try rewrite Hb; cbn.
  - eexists _, [_]. split; [reflexivity |]. cbn.
    repeat split; try assumption.
    eexists. split; [reflexivity |]. repeat split; by simplify_map_eq.
  - exists st, []. rewrite Hb, app_nil_r. repeat split.
  - eexists _, [_]. split; [reflexivity |]. cbn.
    repeat split; try assumption.
    eexists. split; [reflexivity |]. repeat split; by simplify_map_eq.
  - eexists _, []. split; [reflexivity |]. cbn. repeat split; assumption.
Qed.

Lemma acps_extended_refl st : acps_extended st st [].
Proof. unfold acps_extended. rewrite app_nil_r. repeat split. Qed.

Lemma acps_extended_trans s1 s2 s3 n1 n2 :
  acps_extended s1 s2 n1 -> acps_extended s2 s3 n2 ->
  acps_extended s1 s3 (n1 ++ n2).
Proof.
  intros (Hb1 & Hc1 & Ho1 & Hs1 & Hk1 & Hl1)
         (Hb2 & Hc2 & Ho2 & Hs2 & Hk2 & Hl2).
  unfold acps_extended, same_but_bucket_and_clock.
  rewrite Hb2, Hb1, app_assoc. repeat split; congruence.
Qed.

(** [if test: _mark_acps_to_batch_insert(person, role_name, assessment)] *)
Lemma marked_if_ok (test : bool) person role_name st :
  exists st' new,
    (if test then _mark_acps_to_batch_insert person role_name else ret tt)
      st = (Ok tt, st') /\
    acps_extended st st' new /\
    (test = true ->
     forall acl,
       get_acl_with_role_name (obj st) role_name = Some acl ->
       exists stub, stub ∈ new /\
                    is_acp_stub_of (Person.id person) acl stub).
Proof.
  destruct test.
  - destruct (mark_acps_ok person role_name st)
      as (st' & new & Hrun & Hb & Hc & Hf & Hnew).
    exists st', new. split; [exact Hrun |]. split.
    + unfold acps_extended. rewrite Hb. cbn. auto.
    + intros _ acl Ha. rewrite Ha in Hnew.
      destruct Hnew as (stub & -> & Hstub).
      exists stub. split; [left | exact Hstub].
  - exists st, []. split; [reflexivity |].
    split; [apply acps_extended_refl | discriminate].
Qed.

Lemma person_dict_id (rows : list Person.t) :
  forall (d : gmap Z Person.t),
    (forall k p, d !! k = Some p -> Person.id p = k) ->
    forall k p,
      foldl (fun d i => <[Person.id i := i]> d) d rows !! k = Some p ->
      Person.id p = k.
Proof.
  induction rows as [| i rows IH]; intros d Hd k p; cbn; [apply Hd |].
  apply IH. intros k' p'. rewrite lookup_insert.
  destruct (decide (Person.id i = k')); [| apply Hd].
  intros [= <-]. assumption.
Qed.

Lemma person_dict_has (rows : list Person.t) :
  forall (d : gmap Z Person.t) k,
    is_Some (d !! k) \/ (exists p, p ∈ rows /\ Person.id p = k) ->
    is_Some (foldl (fun d i => <[Person.id i := i]> d) d rows !! k).
Proof.
  induction rows as [| i rows IH]; intros d k; cbn.
  - intros [H | (p & Hp & _)]; [exact H | inversion Hp].
  - intros H. apply IH.
    destruct (decide (Person.id i = k)) as [<- | Hne].
    + left. rewrite lookup_insert_eq. eauto.
    + rewrite lookup_insert_ne by assumption.
      destruct H as [H | (p & Hp & Hk)]; [now left |].
      apply elem_of_cons in Hp. destruct Hp as [-> | Hp];
        [contradiction | right; eauto].
Qed.

Lemma person_dict_elem (rows : list Person.t) :
  forall (d : gmap Z Person.t) k p,
    foldl (fun d i => <[Person.id i := i]> d) d rows !! k = Some p ->
    d !! k = Some p \/ p ∈ rows.
Proof.
  induction rows as [| i rows IH]; intros d k p; cbn; [auto |].
  intros H. apply IH in H. destruct H as [H | H]; [| right; now right].
  rewrite lookup_insert in H.
  destruct (decide (Person.id i = k)); [| now left].
  injection H as <-. right. left.
Qed.

Section AssigneeRelations.
Variables assignee_ids verifier_ids creator_ids : list Z.
Variable person_dict : gmap Z Person.t.
Hypothesis person_dict_ids :
  forall k p, person_dict !! k = Some p -> Person.id p = k.

(** The body of the loop over the people. *)
Local Abbreviation relate :=
  (fun person_id : Z =>
   match person_dict !! person_id with
   | None => ret tt
   | Some person =>
       bind (if bool_decide (Person.id person ∈ assignee_ids)
             then _mark_acps_to_batch_insert person "Assignees"
             else ret tt)
         (fun _ =>
            bind (if bool_decide (person_id ∈ verifier_ids)
                  then _mark_acps_to_batch_insert person "Verifiers"
                  else ret tt)
              (fun _ =>
                 if bool_decide (person_id ∈ creator_ids)
                 then _mark_acps_to_batch_insert person "Creators"
                 else ret tt))
   end).

(** What the stubs [new] hold for the person [person_id], given the
    assessment [a]. *)
Local Abbreviation marks :=
  (fun (a : Assessment.t) (person_id : Z) (new : list dict) =>
   forall role ids acl,
     (role, ids) ∈ assignee_roles assignee_ids verifier_ids creator_ids ->
     person_id ∈ ids ->
     get_acl_with_role_name a role = Some acl ->
     exists stub, stub ∈ new /\ is_acp_stub_of person_id acl stub).

Lemma relate_ok person_id st :
  exists st' new,
    relate person_id st = (Ok tt, st') /\
    acps_extended st st' new /\
    (is_Some (person_dict !! person_id) ->
     marks (obj st) person_id new).
Proof.
  cbn beta.
  destruct (person_dict !! person_id) as [person |] eqn:Hp.
  - pose proof (person_dict_ids _ _ Hp) as Hid.
    destruct (marked_if_ok (bool_decide (Person.id person ∈ assignee_ids))
                person "Assignees" st)
      as (s1 & n1 & R1 & E1 & M1).
    destruct (marked_if_ok (bool_decide (person_id ∈ verifier_ids))
                person "Verifiers" s1)
      as (s2 & n2 & R2 & E2 & M2).
    destruct (marked_if_ok (bool_decide (person_id ∈ creator_ids))
                person "Creators" s2)
      as (s3 & n3 & R3 & E3 & M3).
    assert (O1 : obj s1 = obj st) by apply E1.
    assert (O2 : obj s2 = obj st) by (rewrite <- O1; apply E2).
    exists s3, (n1 ++ n2 ++ n3). split; [| split].
    + rewrite (bind_ok _ _ _ _ _ R1), (bind_ok _ _ _ _ _ R2). exact R3.
    + eapply acps_extended_trans; [exact E1 |].
      eapply acps_extended_trans; eassumption.
    + intros _ role ids acl Hrole Hin Hacl.
      unfold assignee_roles in Hrole.
      rewrite !elem_of_cons in Hrole.
      destruct Hrole as [[= -> ->] | [[= -> ->] | [[= -> ->] | Hrole]]];
        [| | | inversion Hrole].
      * assert (Hin' : Person.id person ∈ assignee_ids)
          by (rewrite Hid; exact Hin).
        destruct (M1 (bool_decide_eq_true_2 _ Hin') acl Hacl)
          as (stub & Hs & Hstub).
        exists stub. rewrite Hid in Hstub.
        rewrite !elem_of_app. auto.
      * rewrite <- O1 in Hacl.
        destruct (M2 (bool_decide_eq_true_2 _ Hin) acl Hacl)
          as (stub & Hs & Hstub).
        exists stub. rewrite Hid in Hstub.
        rewrite !elem_of_app. auto.
      * rewrite <- O2 in Hacl.
        destruct (M3 (bool_decide_eq_true_2 _ Hin) acl Hacl)
          as (stub & Hs & Hstub).
        exists stub. rewrite Hid in Hstub.
        rewrite !elem_of_app. auto.
  - exists st, []. split; [reflexivity |].
    split; [apply acps_extended_refl |].
    intros [? [=]].
Qed.

Lemma relate_loop_ok (people_ids : list Z) :
  forall st,
    exists st' new,
      for_each people_ids (fun person_id => relate person_id) st
      = (Ok tt, st') /\
      acps_extended st st' new /\
      forall person_id,
        person_id ∈ people_ids ->
        is_Some (person_dict !! person_id) ->
        marks (obj st) person_id new.
Proof.
  induction people_ids as [| person_id rest IH]; intros st.
  - exists st, []. split; [reflexivity |].
    split; [apply acps_extended_refl |].
    intros ? H. inversion H.
  - destruct (relate_ok person_id st) as (s1 & n1 & R1 & E1 & M1).
    destruct (IH s1) as (s2 & n2 & R2 & E2 & M2).
    assert (O1 : obj s1 = obj st) by apply E1.
    exists s2, (n1 ++ n2). split; [| split].
    + cbn [for_each]. rewrite (bind_ok _ _ _ _ _ R1). exact R2.
    + eapply acps_extended_trans; eassumption.
    + intros pid Hin Hsome role ids acl Hrole Hids Hacl.
      apply elem_of_cons in Hin. destruct Hin as [-> | Hin].
      * destruct (M1 Hsome role ids acl Hrole Hids Hacl)
          as (stub & Hs & Hstub).
        exists stub. rewrite elem_of_app. auto.
      * rewrite <- O1 in Hacl.
        destruct (M2 pid Hin Hsome role ids acl Hrole Hids Hacl)
          as (stub & Hs & Hstub).
        exists stub. rewrite elem_of_app. auto.
Qed.
End AssigneeRelations.

Lemma generate_assignee_relations_ok assignee_ids verifier_ids
    creator_ids st :
  (forall ids : gset Z, iter_set ids ≡ₚ elements ids) ->
  exists st' new,
    _generate_assignee_relations assignee_ids verifier_ids creator_ids st
    = (Ok tt, st') /\
    acps_extended st st' new /\
    forall role ids,
      (role, ids) ∈ assignee_roles assignee_ids verifier_ids creator_ids ->
      forall person acl,
        person ∈ people (transaction (session st)) ->
        Person.id person ∈ ids ->
        get_acl_with_role_name (obj st) role = Some acl ->
        exists stub, stub ∈ new /\
                     is_acp_stub_of (Person.id person) acl stub.
Proof.
  intros Hiter.
  set (people_ids :=
         list_to_set (assignee_ids ++ verifier_ids ++ creator_ids)
         : gset Z).
  set (rows := filter (fun i => Person.id i ∈ people_ids)
                 (people (transaction (session st)))).
  set (person_dict :=
         foldl (fun d i => <[Person.id i := i]> d) (∅ : gmap Z Person.t)
           rows).
  assert (Hids : forall k p, person_dict !! k = Some p -> Person.id p = k).
  { apply person_dict_id. intros k p. rewrite lookup_empty. discriminate. }
  destruct (relate_loop_ok assignee_ids verifier_ids creator_ids
              person_dict Hids (iter_set people_ids) st)
    as (st' & new & R & E & M).
  exists st', new. split; [exact R |]. split; [exact E |].
  intros role ids Hrole person acl Hperson Hin Hacl.
  assert (Hall : Person.id person ∈ people_ids).
  { unfold people_ids. rewrite elem_of_list_to_set.
    unfold assignee_roles in Hrole. rewrite !elem_of_cons in Hrole.
    rewrite !elem_of_app.
    destruct Hrole as [[= -> ->] | [[= -> ->] | [[= -> ->] | Hrole]]];
      [auto | auto | auto | inversion Hrole]. }
  apply (M (Person.id person)) with (role := role) (ids := ids);
    try assumption.
  - rewrite Hiter. now apply elem_of_elements.
  - apply person_dict_has. right. exists person. split; [| reflexivity].
    unfold rows. rewrite list_elem_of_filter. auto.
Qed.

Lemma relate_assignees_ok audit snapshot content acls t
    auditor_role_id captain_role_id :
  (forall ids : gset Z, iter_set ids ≡ₚ elements ids) ->
  role_id_of (get_custom_roles_for "Audit") "Auditors"
  = Some auditor_role_id ->
  role_id_of (get_custom_roles_for "Audit") "Audit Captains"
  = Some captain_role_id ->
  RevisionContent.access_control_list content = Some acls ->
  exists role_people_map,
    (forall st,
       fst (_generate_role_people_map audit (Some snapshot) (Some content)
              st) = Ok role_people_map) /\
    forall st,
      exists st' new,
        _relate_assignees (Some snapshot) (Some content) (Some t) audit st
        = (Ok tt, st') /\
        obj st' = obj st /\ session st' = session st /\
        cache_new st' = cache_new st /\
        cads_to_batch_insert (g st') = cads_to_batch_insert (g st) /\
        default [] (acps_to_batch_insert (g st'))
        = default [] (acps_to_batch_insert (g st)) ++ new /\
        forall role ids,
          (role, ids)
          ∈ assignee_roles
              (_get_people_ids_by_role "assignees" "Audit Lead"
                 (AssessmentTemplate.default_people t) role_people_map)
              (_get_people_ids_by_role "verifiers" "Auditors"
                 (AssessmentTemplate.default_people t) role_people_map)
              [get_current_user_id] ->
          forall person acl,
            person ∈ people (transaction (session st)) ->
            Person.id person ∈ ids ->
            get_acl_with_role_name (obj st) role = Some acl ->
            exists stub, stub ∈ new /\
                         is_acp_stub_of (Person.id person) acl stub.
Proof.
  intros Hiter Haud Hcap Hacl.
  destruct (generate_role_people_map_ok get_custom_roles_for audit
              snapshot content acls auditor_role_id captain_role_id
              Haud Hcap Hacl)
    as (m & _ & _ & Hrun).
  exists m. split.
  - intros st. destruct (Hrun st) as (st' & R & _). now rewrite R.
  - intros st.
    destruct (Hrun st) as (s1 & R1 & Ho1 & Hg1 & Hs1 & Hc1 & _).
    destruct (generate_assignee_relations_ok
                (_get_people_ids_by_role "assignees" "Audit Lead"
                   (AssessmentTemplate.default_people t) m)
                (_get_people_ids_by_role "verifiers" "Auditors"
                   (AssessmentTemplate.default_people t) m)
                [get_current_user_id] s1 Hiter)
      as (s2 & new & R2 & (Hb & Hcads & Ho2 & Hs2 & Hc2 & _) & M).
    exists s2, new. split; [| repeat split].
    + unfold AssessmentHooks._relate_assignees.
      rewrite (bind_ok _ _ _ _ _ R1). exact R2.
    + congruence.
    + congruence.
    + congruence.
    + congruence.
    + rewrite Hb, Hg1. reflexivity.
    + intros role ids Hrole person acl Hp Hin Ha.
      apply (M role ids Hrole person acl); [congruence | assumption |].
      now rewrite Ho1.
Qed.

(** **** The stubs, one by one *)

Lemma marked_if_exact person role ids st :
  exists st' new,
    (if bool_decide (Person.id person ∈ ids)
     then _mark_acps_to_batch_insert person role else ret tt) st
    = (Ok tt, st') /\
    acps_extended st st' new /\
    Forall2 is_due_stub
      (due_of_role get_acl_with_role_name (obj st) (Person.id person)
         (role, ids))
      new.
Proof.
  unfold due_of_role. cbn [fst snd].
  destruct (bool_decide (Person.id person ∈ ids)).
  - destruct (mark_acps_ok person role st)
      as (st' & new & Hrun & Hb & Hc & Hf & Hnew).
    exists st', new. split; [exact Hrun |]. split.
    + unfold acps_extended. rewrite Hb. cbn. auto.
    + destruct (get_acl_with_role_name (obj st) role) as [acl |].
      * destruct Hnew as (stub & -> & Hstub).
        constructor; [exact Hstub | constructor].
      * subst new. constructor.
  - exists st, []. split; [reflexivity |].
    split; [apply acps_extended_refl | constructor].
Qed.

Section AssigneeRelationsExact.
Variables assignee_ids verifier_ids creator_ids : list Z.
Variable person_dict : gmap Z Person.t.
Hypothesis person_dict_ids :
  forall k p, person_dict !! k = Some p -> Person.id p = k.

Local Abbreviation relate :=
  (fun person_id : Z =>
   match person_dict !! person_id with
   | None => ret tt
   | Some person =>
       bind (if bool_decide (Person.id person ∈ assignee_ids)
             then _mark_acps_to_batch_insert person "Assignees"
             else ret tt)
         (fun _ =>
            bind (if bool_decide (person_id ∈ verifier_ids)
                  then _mark_acps_to_batch_insert person "Verifiers"
                  else ret tt)
              (fun _ =>
                 if bool_decide (person_id ∈ creator_ids)
                 then _mark_acps_to_batch_insert person "Creators"
                 else ret tt))
   end).

Local Abbreviation due_of_person :=
  (fun (a : Assessment.t) (person_id : Z) =>
   if bool_decide (is_Some (person_dict !! person_id))
   then flat_map (due_of_role get_acl_with_role_name a person_id)
          (assignee_roles assignee_ids verifier_ids creator_ids)
   else []).

Lemma relate_exact person_id st :
  exists st' new,
    relate person_id st = (Ok tt, st') /\
    acps_extended st st' new /\
    Forall2 is_due_stub (due_of_person (obj st) person_id) new.
Proof.
  cbn beta.
  destruct (person_dict !! person_id) as [person |] eqn:Hp.
  - pose proof (person_dict_ids _ _ Hp) as Hid.
    rewrite (bool_decide_eq_true_2 (is_Some (Some person))) by eauto.
    destruct (marked_if_exact person "Assignees" assignee_ids st)
      as (s1 & n1 & R1 & E1 & F1).
    destruct (marked_if_exact person "Verifiers" verifier_ids s1)
      as (s2 & n2 & R2 & E2 & F2).
    destruct (marked_if_exact person "Creators" creator_ids s2)
      as (s3 & n3 & R3 & E3 & F3).
    assert (O1 : obj s1 = obj st) by apply E1.
    assert (O2 : obj s2 = obj st) by (rewrite <- O1; apply E2).
    rewrite O1 in F2. rewrite O2 in F3. rewrite Hid in F1, F2, F3, R2, R3.
    exists s3, (n1 ++ n2 ++ n3). split; [| split].
    + rewrite (bind_ok _ _ _ _ _ R1), (bind_ok _ _ _ _ _ R2). exact R3.
    + eapply acps_extended_trans; [exact E1 |].
      eapply acps_extended_trans; eassumption.
    + unfold assignee_roles. cbn [flat_map]. rewrite app_nil_r.
      repeat apply Forall2_app; assumption.
  - rewrite (bool_decide_eq_false_2 (is_Some (@None Person.t)))
      by (intros [? [=]]).
    exists st, []. split; [reflexivity |].
    split; [apply acps_extended_refl | constructor].
Qed.

Lemma relate_loop_exact (people_ids : list Z) :
  forall st,
    exists st' new,
      for_each people_ids (fun person_id => relate person_id) st
      = (Ok tt, st') /\
      acps_extended st st' new /\
      Forall2 is_due_stub (flat_map (due_of_person (obj st)) people_ids) new.
Proof.
  induction people_ids as [| person_id rest IH]; intros st.
  - exists st, []. split; [reflexivity |].
    split; [apply acps_extended_refl | constructor].
  - destruct (relate_exact person_id st) as (s1 & n1 & R1 & E1 & F1).
    destruct (IH s1) as (s2 & n2 & R2 & E2 & F2).
    assert (O1 : obj s1 = obj st) by apply E1.
    rewrite O1 in F2.
    exists s2, (n1 ++ n2). split; [| split].
    + cbn [for_each]. rewrite (bind_ok _ _ _ _ _ R1). exact R2.
    + eapply acps_extended_trans; eassumption.
    + cbn [flat_map]. apply Forall2_app; assumption.
Qed.
End AssigneeRelationsExact.

Lemma flat_map_ext_elem {A B} (f g : A -> list B) (l : list A) :
  (forall x, x ∈ l -> f x = g x) -> flat_map f l = flat_map g l.
Proof.
  induction l as [| x l IH]; intros H; [reflexivity |].
  cbn. rewrite (H x) by left. rewrite IH; [reflexivity |].
  intros y Hy. apply H. now right.
Qed.

Lemma generate_assignee_relations_exact assignee_ids verifier_ids
    creator_ids st :
  (forall ids : gset Z, iter_set ids ≡ₚ elements ids) ->
  exists st' new,
    _generate_assignee_relations assignee_ids verifier_ids creator_ids st
    = (Ok tt, st') /\
    acps_extended st st' new /\
    Forall2 is_due_stub
      (due_acps get_acl_with_role_name (obj st)
         (people (transaction (session st)))
         (assignee_roles assignee_ids verifier_ids creator_ids)
         (iter_set
            (list_to_set (assignee_ids ++ verifier_ids ++ creator_ids))))
      new.
Proof.
  intros Hiter.
  set (people_ids :=
         list_to_set (assignee_ids ++ verifier_ids ++ creator_ids)
         : gset Z).
  set (rows := filter (fun i => Person.id i ∈ people_ids)
                 (people (transaction (session st)))).
  set (person_dict :=
         foldl (fun d i => <[Person.id i := i]> d) (∅ : gmap Z Person.t)
           rows).
  assert (Hids : forall k p, person_dict !! k = Some p -> Person.id p = k).
  { apply person_dict_id. intros k p. rewrite lookup_empty. discriminate. }
  destruct (relate_loop_exact assignee_ids verifier_ids creator_ids
              person_dict Hids (iter_set people_ids) st)
    as (st' & new & R & E & F).
  exists st', new. split; [exact R |]. split; [exact E |].
  unfold due_acps.
  erewrite flat_map_ext_elem; [exact F |].
  intros person_id Hin. cbn beta.
  rewrite Hiter, elem_of_elements in Hin.
  rewrite (bool_decide_ext
             (person_id ∈ Person.id <$> people (transaction (session st)))
             (is_Some (person_dict !! person_id))); [reflexivity |].
  rewrite list_elem_of_fmap. split.
  - intros (person & -> & Hperson). apply person_dict_has. right.
    exists person. split; [| reflexivity].
    unfold rows. rewrite list_elem_of_filter. auto.
  - intros [person Hp]. pose proof (Hids _ _ Hp) as Hid.
    apply person_dict_elem in Hp.
    destruct Hp as [Hp | Hp]; [rewrite lookup_empty in Hp; discriminate |].
    unfold rows in Hp. apply list_elem_of_filter in Hp.
    exists person. split; [now symmetry | tauto].
Qed.

(** The role map gives every role name the people it stands for. *)
Lemma role_people_map_lookup audit snapshot content acls
    auditor_role_id captain_role_id :
  role_id_of (get_custom_roles_for "Audit") "Auditors"
  = Some auditor_role_id ->
  role_id_of (get_custom_roles_for "Audit") "Audit Captains"
  = Some captain_role_id ->
  RevisionContent.access_control_list content = Some acls ->
  exists m,
    (forall st,
       fst (_generate_role_people_map audit (Some snapshot) (Some content)
              st) = Ok m) /\
    forall role,
      m !! role
      = people_of_role (get_custom_roles_for (Snapshot.child_type snapshot))
          acls audit auditor_role_id captain_role_id role.
Proof.
  intros Haud Hcap Hacl.
  destruct (generate_role_people_map_exact get_custom_roles_for audit
              snapshot content acls auditor_role_id captain_role_id
              Haud Hcap Hacl)
    as (m & Hl & Ha & Hother & Hempty & Hrun).
  exists m. split.
  - intros st. destruct (Hrun st) as (st' & R & _). now rewrite R.
  - intros role. unfold people_of_role.
    destruct (String.eqb_spec role "Audit Lead") as [-> | Hnl];
      [exact Hl |].
    destruct (String.eqb_spec role "Auditors") as [-> | Hna].
    + rewrite Ha.
      now destruct (snapshot_people _ acls "Auditors"
                    ++ audit_people audit auditor_role_id).
    + destruct (String.eqb_spec role "") as [-> | Hne]; [exact Hempty |].
      now apply Hother.
Qed.

Lemma get_people_ids_by_role_spec (people_of : string -> option (list Z))
    (m : gmap string (list Z)) (settings : gmap string people_setting)
    (role_name default_role : string) :
  (forall role, m !! role = people_of role) ->
  _get_people_ids_by_role role_name default_role settings m
  = people_of_setting people_of default_role (settings !! role_name).
Proof.
  intros Hm. unfold _get_people_ids_by_role, people_of_setting.
  destruct (settings !! role_name) as [[[| c r] | [| i ids]] |];
    try reflexivity.
  rewrite !Hm. now destruct (people_of (String c r)).
Qed.

(** [_relate_assignees] with a template, against the people the
    settings of the template name. *)
Lemma relate_assignees_spec audit snapshot content acls t
    auditor_role_id captain_role_id :
  (forall ids : gset Z, iter_set ids ≡ₚ elements ids) ->
  role_id_of (get_custom_roles_for "Audit") "Auditors"
  = Some auditor_role_id ->
  role_id_of (get_custom_roles_for "Audit") "Audit Captains"
  = Some captain_role_id ->
  RevisionContent.access_control_list content = Some acls ->
  let people_of :=
    people_of_role (get_custom_roles_for (Snapshot.child_type snapshot))
      acls audit auditor_role_id captain_role_id in
  let assignee_ids :=
    people_of_setting people_of "Audit Lead"
      (AssessmentTemplate.default_people t !! "assignees") in
  let verifier_ids :=
    people_of_setting people_of "Auditors"
      (AssessmentTemplate.default_people t !! "verifiers") in
  let roles :=
    assignee_roles assignee_ids verifier_ids [get_current_user_id] in
  forall st,
    exists st' new,
      _relate_assignees (Some snapshot) (Some content) (Some t) audit st
      = (Ok tt, st') /\
      obj st' = obj st /\ session st' = session st /\
      cache_new st' = cache_new st /\
      cads_to_batch_insert (g st') = cads_to_batch_insert (g st) /\
      default [] (acps_to_batch_insert (g st'))
      = default [] (acps_to_batch_insert (g st)) ++ new /\
      (forall role ids,
         (role, ids) ∈ roles ->
         forall person acl,
           person ∈ people (transaction (session st)) ->
           Person.id person ∈ ids ->
           get_acl_with_role_name (obj st) role = Some acl ->
           exists stub, stub ∈ new /\
                        is_acp_stub_of (Person.id person) acl stub) /\
      Forall2 is_due_stub
        (due_acps get_acl_with_role_name (obj st)
           (people (transaction (session st))) roles
           (iter_set
              (list_to_set
                 (assignee_ids ++ verifier_ids ++ [get_current_user_id]))))
        new.
Proof.
  intros Hiter Haud Hcap Hacl people_of assignee_ids verifier_ids roles st.
  destruct (relate_assignees_ok audit snapshot content acls t
              auditor_role_id captain_role_id Hiter Haud Hcap Hacl)
    as (m & Hm & Hrel).
  destruct (role_people_map_lookup audit snapshot content acls
              auditor_role_id captain_role_id Haud Hcap Hacl)
    as (m2 & Hm2 & Hlook).
  assert (m2 = m) as -> by (specialize (Hm st); specialize (Hm2 st);
                            congruence).
  fold people_of in Hlook.
  destruct (Hrel st) as (st' & new & R & Ho & Hs & Hc & Hcads & Hb & Hmarks).
  rewrite !(get_people_ids_by_role_spec people_of m) in Hmarks
    by exact Hlook.
  exists st', new. split; [exact R |].
  do 5 (split; [assumption |]). split; [exact Hmarks |].
  destruct (generate_role_people_map_ok get_custom_roles_for audit
              snapshot content acls auditor_role_id captain_role_id
              Haud Hcap Hacl)
    as (m0 & _ & _ & Hrun).
  destruct (Hrun st) as (s1 & R1 & Ho1 & Hg1 & Hs1 & _).
  assert (m0 = m) as ->
      by (specialize (Hm st); rewrite R1 in Hm; cbn in Hm; congruence).
  unfold AssessmentHooks._relate_assignees in R.
  rewrite (bind_ok _ _ _ _ _ R1) in R.
  rewrite !(get_people_ids_by_role_spec people_of m) in R by exact Hlook.
  destruct (generate_assignee_relations_exact assignee_ids verifier_ids
              [get_current_user_id] s1 Hiter)
    as (s2 & new' & R2 & (Hb' & _) & F).
  fold assignee_ids verifier_ids in R. rewrite R2 in R.
  injection R as <-.
  rewrite Hb', Hg1 in Hb. apply app_inv_head in Hb. subst new'.
  rewrite Ho1, Hs1 in F. exact F.
Qed.

(** Every stub that is due is for a person of the table, in a role
    that is given the person. *)
Lemma due_stubs_sound (a : Assessment.t) (persons : list Person.t)
    (roles : list (string * list Z)) (order : list Z) (new : list dict) :
  Forall2 is_due_stub
    (due_acps get_acl_with_role_name a persons roles order) new ->
  Forall (acp_stub_for get_acl_with_role_name a persons roles) new.
Proof.
  intros F. apply Forall_forall. intros stub Hin.
  apply list_elem_of_lookup in Hin. destruct Hin as [i Hi].
  destruct (Forall2_lookup_r _ _ _ _ _ F Hi) as ([pid acl] & Hdue & Hstub).
  apply list_elem_of_lookup_2, list_elem_of_In in Hdue.
  unfold due_acps in Hdue. apply in_flat_map in Hdue.
  destruct Hdue as (person_id & _ & Hdue).
  destruct (bool_decide (person_id ∈ Person.id <$> persons)) eqn:Hp;
    [| inversion Hdue].
  apply bool_decide_eq_true, list_elem_of_fmap in Hp.
  destruct Hp as (person & -> & Hperson).
  apply in_flat_map in Hdue. destruct Hdue as ([role ids] & Hrole & Hdue).
  unfold due_of_role in Hdue. cbn [fst snd] in Hdue.
  destruct (bool_decide (Person.id person ∈ ids)) eqn:Hids;
    [| inversion Hdue].
  destruct (get_acl_with_role_name a role) as [acl' |] eqn:Hacl;
    [| inversion Hdue].
  destruct Hdue as [[= <- <-] | []].
  exists person, role, ids, acl'. split; [exact Hperson |].
  split; [now apply list_elem_of_In |].
  split; [now apply bool_decide_eq_true in Hids |].
  split; [exact Hacl | exact Hstub].
Qed.

Lemma set_title_ok audit content rev_title st :
  RevisionContent.title content = Some rev_title ->
  set_title audit (Some content) st
  = (Ok tt,
     with_obj (Assessment.set_title
                 (rev_title +:+ " assessment for " +:+ Audit.title audit))
       st).
Proof. intros H. unfold set_title. now rewrite H. Qed.

Lemma set_test_plan_ok t content st :
  set_test_plan (Some t) (Some content) st
  = (Ok tt,
     with_obj (fun a =>
                 Assessment.set_test_plan (template_test_plan t content)
                   (Assessment.set_test_plan_procedure
                      (AssessmentTemplate.test_plan_procedure t) a))
       st).
Proof.
  unfold set_test_plan, template_test_plan, bind, modify, gets, ret.
  cbn.
  destruct (AssessmentTemplate.test_plan_procedure t); cbn;
    [| reflexivity].
  destruct (str_truthy (AssessmentTemplate.procedure_description t));
    destruct (str_truthy (default "" (RevisionContent.test_plan content)));
    reflexivity.
Qed.

Lemma set_assessment_type_ok t st :
  set_assessment_type (Some t) st
  = (Ok tt,
     if str_truthy (AssessmentTemplate.template_object_type t)
     then with_obj (Assessment.set_assessment_type
                      (AssessmentTemplate.template_object_type t)) st
     else st).
Proof.
  unfold set_assessment_type.
  now destruct (str_truthy (AssessmentTemplate.template_object_type t)).
Qed.


(** Without a snapshot, and when the assessment is not marked as
    generated, the hook stops after the template's flag and
    definitions: title and test plan are as they were. *)
Lemma template_alone_marks_definitions_only audit t st :
  exists st' cad_stubs,
    _handle_assessment audit (Some t) None None false st = (Ok tt, st') /\
    cads_to_batch_insert (g st')
    = Some (default [] (cads_to_batch_insert (g st)) ++ cad_stubs) /\
    Assessment.title (obj st') = Assessment.title (obj st) /\
    Assessment.test_plan (obj st') = Assessment.test_plan (obj st) /\
    acps_to_batch_insert (g st') = acps_to_batch_insert (g st).
Proof.
  set (s1 := with_obj (Assessment.set_sox_302_enabled
                         (Some (AssessmentTemplate.sox_302_enabled t)))
               (with_session (map_to (obj st) (RelatedAudit audit))
                  (with_session
                     (map_to (obj st) (RelatedSnapshot None)) st))).
  destruct (mark_cads_ok table_singular utcnow get_current_user_id
              (AssessmentTemplate.custom_attribute_definitions t) s1)
    as (s2 & cad_stubs & R2 & Hcads2 & Hacps2 & (Ho2 & _) & _).
  exists s2, cad_stubs. split; [| split; [| split; [| split]]].
  - assert (Htail :
             bind (_mark_cads_to_batch_insert
                     (AssessmentTemplate.custom_attribute_definitions t))
               (fun _ => ret tt) s1 = (Ok tt, s2))
      by (now rewrite (bind_ok _ _ _ _ _ R2)).
    exact Htail.
  - exact Hcads2.
  - now rewrite Ho2.
  - now rewrite Ho2.
  - exact Hacps2.
Qed.

(** C6. For an assessment created from a template and a snapshot, the
    creation hook returns, and: the title is
    "<snapshot revision title> assessment for <audit title>"; the test
    plan is the one of the template, followed by the snapshot's where
    the template asks for it; a stub of every custom attribute
    definition of the template, assigned to the assessment, is in the
    bucket for batch insert; and the bucket of access control people
    grows by the stubs that are due, no more and no less: with the
    assignees and the verifiers the settings of the template name (ids,
    or a role of the snapshot's revision and the audit) and the current
    user as creator, one stub for each person of the people table and
    each of the roles Assignees, Verifiers and Creators that is given the
    person and that the assessment has a list for. *)
Theorem assessment_from_template_and_snapshot_is_populated
    (audit : Audit.t) (t : AssessmentTemplate.t) (snapshot : Snapshot.t)
    (content : RevisionContent.t) (rev_title : string)
    (acls : list RevisionContent.acl_entry)
    (auditor_role_id captain_role_id : Z) (is_autogenerated : bool)
    (st : State) :
  (forall ids : gset Z, iter_set ids ≡ₚ elements ids) ->
  role_id_of (get_custom_roles_for "Audit") "Auditors"
  = Some auditor_role_id ->
  role_id_of (get_custom_roles_for "Audit") "Audit Captains"
  = Some captain_role_id ->
  RevisionContent.title content = Some rev_title ->
  RevisionContent.access_control_list content = Some acls ->
  let assessment :=
    Assessment.set_sox_302_enabled
      (Some (AssessmentTemplate.sox_302_enabled t)) (obj st) in
  let session1 :=
    map_to (obj st) (RelatedAudit audit)
      (map_to (obj st) (RelatedSnapshot (Some snapshot)) (session st)) in
  let people_of :=
    people_of_role (get_custom_roles_for (Snapshot.child_type snapshot))
      acls audit auditor_role_id captain_role_id in
  let assignee_ids :=
    people_of_setting people_of "Audit Lead"
      (AssessmentTemplate.default_people t !! "assignees") in
  let verifier_ids :=
    people_of_setting people_of "Auditors"
      (AssessmentTemplate.default_people t !! "verifiers") in
  let roles :=
    assignee_roles assignee_ids verifier_ids [get_current_user_id] in
  exists st' cad_stubs acp_stubs,
    _handle_assessment audit (Some t) (Some snapshot) (Some content)
      is_autogenerated st = (Ok tt, st') /\
    Assessment.title (obj st')
    = rev_title +:+ " assessment for " +:+ Audit.title audit /\
    Assessment.test_plan (obj st') = template_test_plan t content /\
    Assessment.test_plan_procedure (obj st')
    = AssessmentTemplate.test_plan_procedure t /\
    (cads_to_batch_insert (g st')
     = Some (default [] (cads_to_batch_insert (g st)) ++ cad_stubs) /\
     Forall2 (is_cad_stub_of table_singular assessment)
       (AssessmentTemplate.custom_attribute_definitions t) cad_stubs) /\
    default [] (acps_to_batch_insert (g st'))
    = default [] (acps_to_batch_insert (g st)) ++ acp_stubs /\
    Forall2 is_due_stub
      (due_acps get_acl_with_role_name assessment
         (people (transaction session1)) roles
         (iter_set
            (list_to_set
               (assignee_ids ++ verifier_ids ++ [get_current_user_id]))))
      acp_stubs /\
    (forall role ids,
       (role, ids) ∈ roles ->
       forall person acl,
         person ∈ people (transaction session1) ->
         Person.id person ∈ ids ->
         get_acl_with_role_name assessment role = Some acl ->
         exists stub, stub ∈ acp_stubs /\
                      is_acp_stub_of (Person.id person) acl stub) /\
    Forall (acp_stub_for get_acl_with_role_name assessment
              (people (transaction session1)) roles)
      acp_stubs.
Proof.
  intros Hiter Haud Hcap Htitle Hacl assessment session1 people_of
    assignee_ids verifier_ids roles.
  set (s1 := with_obj (fun _ => assessment)
               (with_session (fun _ => session1) st)).
  destruct (mark_cads_ok table_singular utcnow get_current_user_id
              (AssessmentTemplate.custom_attribute_definitions t) s1)
    as (s2 & cad_stubs & R2 & Hcads2 & Hacps2 & (Ho2 & Hs2 & Hc2 & _)
        & Hstubs).
  destruct (relate_assignees_spec audit snapshot content acls t
              auditor_role_id captain_role_id Hiter Haud Hcap Hacl s2)
    as (s3 & acp_stubs & R3 & Ho3 & Hs3 & Hc3 & Hcads3 & Hacps3 & Hmarks
        & Hdue).
  fold people_of assignee_ids verifier_ids roles in Hmarks, Hdue.
  rewrite Ho2, Hs2 in Hdue.
  set (s4 := with_obj (Assessment.set_title
                         (rev_title +:+ " assessment for "
                          +:+ Audit.title audit)) s3).
  set (s5 := with_obj (fun a =>
                         Assessment.set_test_plan
                           (template_test_plan t content)
                           (Assessment.set_test_plan_procedure
                              (AssessmentTemplate.test_plan_procedure t) a))
               s4).
  set (s6 := if str_truthy (AssessmentTemplate.template_object_type t)
             then with_obj (Assessment.set_assessment_type
                              (AssessmentTemplate.template_object_type t))
                    s5
             else s5).
  assert (Hrun : _handle_assessment audit (Some t) (Some snapshot)
                   (Some content) is_autogenerated st = (Ok tt, s6)).
  { assert (Htail :
             bind (_mark_cads_to_batch_insert
                     (AssessmentTemplate.custom_attribute_definitions t))
               (fun _ =>
                  if negb (is_autogenerated
                           || negb (is_None (Some snapshot)))
                  then ret tt
                  else
                    bind (_relate_assignees (Some snapshot) (Some content)
                            (Some t) audit)
                      (fun _ =>
                         bind (set_title audit (Some content))
                           (fun _ =>
                              bind (set_test_plan (Some t) (Some content))
                                (fun _ => set_assessment_type (Some t)))))
               s1 = (Ok tt, s6)).
    { rewrite (bind_ok _ _ _ _ _ R2). cbn [is_None negb].
      rewrite orb_true_r. cbn [negb].
      rewrite (bind_ok _ _ _ _ _ R3).
      rewrite (bind_ok _ _ _ _ _ (set_title_ok audit content rev_title s3
                                    Htitle)).
      rewrite (bind_ok _ _ _ _ _ (set_test_plan_ok t content s4)).
      apply set_assessment_type_ok. }
    exact Htail. }
  assert (Hobj6 : obj s6
                  = (if str_truthy (AssessmentTemplate.template_object_type t)
                     then Assessment.set_assessment_type
                            (AssessmentTemplate.template_object_type t)
                     else fun a => a) (obj s5))
    by (unfold s6; now destruct (str_truthy _)).
  assert (Hg6 : g s6 = g s3)
    by (unfold s6; now destruct (str_truthy _)).
  exists s6, cad_stubs, acp_stubs.
  split; [exact Hrun |].
  split; [rewrite Hobj6; now destruct (str_truthy _) |].
  split; [rewrite Hobj6; now destruct (str_truthy _) |].
  split; [rewrite Hobj6; now destruct (str_truthy _) |].
  split; [split; [rewrite Hg6, Hcads3; exact Hcads2 | exact Hstubs] |].
  split; [rewrite Hg6, Hacps3, Hacps2; reflexivity |].
  split; [exact Hdue |]. split; [| exact (due_stubs_sound _ _ _ _ _ Hdue)].
  intros role ids Hrole person acl Hperson Hin Hget.
  apply (Hmarks role ids Hrole person acl).
  - rewrite Hs2. exact Hperson.
  - exact Hin.
  - rewrite Ho2. exact Hget.
Qed.

End Creation.

Lemma auditors_default_to_audit_captains_witness :
  exists m st',
    _generate_role_people_map sample_roles sample_audit
      (Some sample_snapshot) (Some sample_content)
      (sample_state new_assessment) = (Ok m, st') /\
    m !! "Audit Lead" = Some [8] /\
    m !! "Auditors" = Some [8].
Proof.
  destruct (auditors_default_to_audit_captains sample_roles sample_audit
              sample_snapshot sample_content
              [RevisionContent.mk_acl 11 7; RevisionContent.mk_acl 99 3]
              2 1 (sample_state new_assessment))
    as (m & st' & Hrun & Hlead & Hnone & _).
  - reflexivity.
  - reflexivity.
  - reflexivity.
  - exists m, st'. split; [exact Hrun |]. split; [exact Hlead |].
    apply Hnone. reflexivity.
Defined.


Lemma assessment_from_template_and_snapshot_is_populated_witness :
  exists st',
    sample_handle_assessment (sample_state new_assessment) = (Ok tt, st') /\
    Assessment.title (obj st') = "Access control assessment for 2019 Audit" /\
    Assessment.test_plan (obj st') = "Follow the procedure<br>Check the logs"
    /\
    Forall2 is_due_stub
      [(7, AccessControlList.mk 101 21); (9, AccessControlList.mk 103 23);
       (8, AccessControlList.mk 102 22)]
      (default [] (acps_to_batch_insert (g st'))).
Proof.
  destruct (assessment_from_template_and_snapshot_is_populated sample_roles
              sample_get_acl "assessment" sample_utcnow 9 sample_iter_set
              sample_map_to sample_audit sample_template sample_snapshot
              sample_content "Access control"
              [RevisionContent.mk_acl 11 7; RevisionContent.mk_acl 99 3]
              2 1 false (sample_state new_assessment))
    as (st' & cad_stubs & acp_stubs & Hrun & Htitle & Hplan & _ & _
        & Hacps & Hdue & _).
  - intros ids. reflexivity.
  - reflexivity.
  - reflexivity.
  - reflexivity.
  - reflexivity.
  - exists st'. split; [exact Hrun |]. split; [exact Htitle |].
    split; [exact Hplan |].
    rewrite Hacps. cbn [sample_state g acps_to_batch_insert default app].
    match type of Hdue with
    | Forall2 _ ?due _ =>
        assert (Hd : due
                     = [(7, AccessControlList.mk 101 21);
                        (9, AccessControlList.mk 103 23);
                        (8, AccessControlList.mk 102 22)])
          by (vm_compute; reflexivity);
        rewrite Hd in Hdue
    end.
    exact Hdue.
Defined.

(** The sample creation, run: the assignee of the snapshot, the audit
    captain as verifier (the audit has no auditor) and the current user as
    creator are marked, and the deleted role is logged. *)
Example sample_creation_runs :
  let st' := snd (sample_handle_assessment (sample_state new_assessment)) in
  fst (sample_handle_assessment (sample_state new_assessment)) = Ok tt /\
  obj st'
  = Assessment.mk 1 "Not Started" false (Some true) None None
      "Access control assessment for 2019 Audit"
      "Follow the procedure<br>Check the logs" true "Control" /\
  (fun stub => (stub !! "person_id", stub !! "ac_list_id"))
    <$> default [] (acps_to_batch_insert (g st'))
  = [(Some (PyInt 7), Some (PyInt 101));
     (Some (PyInt 9), Some (PyInt 103));
     (Some (PyInt 8), Some (PyInt 102))] /\
  (fun stub => (stub !! "title", stub !! "definition_id", stub !! "id"))
    <$> default [] (cads_to_batch_insert (g st'))
  = [(Some (PyStr "Evidence"), Some (PyInt 1), Some PyNone)] /\
  log st' = [(5, 99)].
Proof. vm_compute. repeat split. Qed.

(** After the sample creation, the batch insert moves the stub of the
    bucket to the table, and a second call finds nothing to insert. *)
Example sample_batch_insert :
  let st1 := snd (sample_handle_assessment (sample_state new_assessment)) in
  let st2 :=
    snd (_batch_insert_cads sample_get_cache sample_cache_truthy
           [new_assessment] st1) in
  length (custom_attribute_definitions (transaction (session st1))) = 0%nat /\
  custom_attribute_definitions (transaction (session st2))
  = default [] (cads_to_batch_insert (g st1)) /\
  length (custom_attribute_definitions (transaction (session st2))) = 1%nat /\
  cads_to_batch_insert (g st2) = Some [] /\
  _batch_insert_cads sample_get_cache sample_cache_truthy [new_assessment]
    st2 = (Ok tt, st2).
Proof. vm_compute. repeat split. Qed.

(** *** More on the batch inserts *)

Section MoreBatchInsert.
Variable get_cache : option (gset row_ref) -> option (gset row_ref).
Variable cache_truthy : gset row_ref -> bool.

Local Abbreviation _add_objects_to_cache :=
  (_add_objects_to_cache get_cache cache_truthy).
Local Abbreviation _batch_insert_cads :=
  (_batch_insert_cads get_cache cache_truthy).
Local Abbreviation _batch_insert_acps :=
  (_batch_insert_acps get_cache cache_truthy).

Lemma batch_insert_acps_empty assessments st :
  default [] (acps_to_batch_insert (g st)) = [] ->
  _batch_insert_acps assessments st = (Ok tt, st).
Proof.
  intros H. unfold AssessmentHooks._batch_insert_acps.
  unfold bind at 1. unfold gets at 1. now rewrite H.
Qed.

Lemma batch_insert_acps_run assessments st :
  default [] (acps_to_batch_insert (g st)) <> [] ->
  exists objs_q,
    _batch_insert_acps assessments st
    = _add_objects_to_cache objs_q
        (with_session
           (with_transaction
              (insert_access_control_people
                 (default [] (acps_to_batch_insert (g st)))))
           (with_g (set_acps_to_batch_insert (Some [])) st)).
Proof.
  intros H. unfold AssessmentHooks._batch_insert_acps.
  unfold bind at 1. unfold gets at 1.
  destruct (default [] (acps_to_batch_insert (g st))) as [| stub bucket]
    eqn:Hb; [congruence |].
  eexists. reflexivity.
Qed.

(** X18. [_batch_insert_acps] appends the stubs of its bucket, each once and
    in their order, to the table of access control people and leaves the
    bucket empty; a second call at once changes nothing.  The bucket and
    the table of custom attribute definitions are not touched. *)
Theorem acp_bucket_flushed (assessments : list Assessment.t) (st : State) :
  exists st',
    _batch_insert_acps assessments st = (Ok tt, st') /\
    access_control_people (transaction (session st'))
    = access_control_people (transaction (session st))
      ++ default [] (acps_to_batch_insert (g st)) /\
    default [] (acps_to_batch_insert (g st')) = [] /\
    _batch_insert_acps assessments st' = (Ok tt, st') /\
    cads_to_batch_insert (g st') = cads_to_batch_insert (g st) /\
    custom_attribute_definitions (transaction (session st'))
    = custom_attribute_definitions (transaction (session st)) /\
    committed (session st') = committed (session st).
Proof.
  destruct (decide (default [] (acps_to_batch_insert (g st)) = []))
    as [Hb | Hb].
  - exists st. rewrite Hb, app_nil_r.
    rewrite batch_insert_acps_empty by exact Hb. repeat split.
  - destruct (batch_insert_acps_run assessments st Hb) as (objs_q & ->).
    match goal with
    | |- context [_add_objects_to_cache ?q ?s] =>
        destruct (add_objects_to_cache_ok get_cache cache_truthy q s)
          as (st' & R & Ho & Hg & Hs & _)
    end.
    exists st'. rewrite R, Hs, Hg. split; [reflexivity |].
    split; [reflexivity |]. split; [reflexivity |].
    split; [| repeat split].
    apply batch_insert_acps_empty. now rewrite Hg.
Qed.

(** The places a query gives are those of the rows that pass. *)
Lemma elem_of_query t passes rows i :
  (t, i) ∈ query t passes rows
  <-> exists row, rows !! i = Some row /\ passes row = true.
Proof.
  unfold query. rewrite list_elem_of_fmap. split.
  - intros ([j row] & Heq & Hin). injection Heq as ->.
    apply list_elem_of_In, filter_In in Hin. destruct Hin as [Hin Hp].
    apply list_elem_of_In, elem_of_lookup_imap in Hin.
    destruct Hin as (k & y & [= -> ->] & Hk). eauto.
  - intros (row & Hrow & Hp). exists (i, row). split; [reflexivity |].
    apply list_elem_of_In, filter_In. split; [| exact Hp].
    apply list_elem_of_In.
    apply (elem_of_lookup_imap_2 (fun i row => (i, row)) rows row i Hrow).
Qed.

(** X19. When the request gets a cache and the cache is true, the rows
    that [_batch_insert_cads] inserts for the stubs of the bucket that are
    definitions of one of the [attributables], with the definition type
    "assessment", are keys of the cache's collection of new objects, so
    that they are logged with the request: the stub at place [k] of the
    bucket is the row at place [k] after the rows the table had.  The
    keys the cache had are kept. *)
Theorem inserted_cads_are_cached (attributables : list Assessment.t)
    (st : State) (new : gset row_ref) (k : nat) (stub : dict)
    (definition_id : Z) :
  get_cache (cache_new st) = Some new ->
  cache_truthy new = true ->
  default [] (cads_to_batch_insert (g st)) !! k = Some stub ->
  stub !! "definition_type" = Some (PyStr "assessment") ->
  stub !! "definition_id" = Some (PyInt definition_id) ->
  definition_id ∈ Assessment.id <$> attributables ->
  let st' := snd (_batch_insert_cads attributables st) in
  let place :=
    (length (custom_attribute_definitions (transaction (session st)))
     + k)%nat in
  custom_attribute_definitions (transaction (session st')) !! place
  = Some stub /\
  exists new',
    cache_new st' = Some new' /\
    (CustomAttributeDefinitionTable, place) ∈ new' /\
    new ⊆ new'.
Proof.
  intros Hcache Htrue Hk Htype Hid Hattr st' place.
  assert (Hb : default [] (cads_to_batch_insert (g st)) <> []).
  { intros E. rewrite E in Hk. discriminate. }
  unfold st'.
  rewrite (batch_insert_cads_run get_cache cache_truthy attributables st Hb).
  cbn zeta.
  match goal with
  | |- context [_add_objects_to_cache ?q ?s] =>
      destruct (add_objects_to_cache_ok get_cache cache_truthy q s)
        as (st1 & R & Ho & Hg & Hs & _ & _ & Hc)
  end.
  rewrite R. cbn [snd]. rewrite Hs. cbn in Hc. rewrite Hcache, Htrue in Hc.
  assert (Hrow : (custom_attribute_definitions (transaction (session st))
                  ++ default [] (cads_to_batch_insert (g st))) !! place
                 = Some stub).
  { unfold place. rewrite lookup_app_r by lia.
    now replace (_ + k - _)%nat with k by lia. }
  split; [exact Hrow |].
  eexists. split; [exact Hc |]. split.
  - apply elem_of_union_r, elem_of_list_to_set, elem_of_query.
    exists stub. split; [exact Hrow |].
    unfold is_new_cad_of. rewrite Htype, Hid.
    rewrite !bool_decide_eq_true_2 by (reflexivity || assumption).
    reflexivity.
  - apply union_subseteq_l.
Qed.

End MoreBatchInsert.

Lemma inserted_cads_are_cached_witness :
  let st1 := snd (sample_handle_assessment (sample_state new_assessment)) in
  let st2 :=
    snd (_batch_insert_cads sample_get_cache sample_cache_truthy
           [new_assessment] st1) in
  cache_new st1 = None /\
  exists stub new',
    default [] (cads_to_batch_insert (g st1)) = [stub] /\
    custom_attribute_definitions (transaction (session st2)) !! 0%nat
    = Some stub /\
    cache_new st2 = Some new' /\
    (CustomAttributeDefinitionTable, 0%nat) ∈ new'.
Proof.
  intros st1 st2. split; [reflexivity |].
  assert (Hb : exists stub,
             default [] (cads_to_batch_insert (g st1)) = [stub] /\
             stub !! "definition_type" = Some (PyStr "assessment") /\
             stub !! "definition_id" = Some (PyInt 1)).
  { vm_compute. eexists. split; [reflexivity |]. split; reflexivity. }
  destruct Hb as (stub & Hb & Htype & Hid).
  destruct (inserted_cads_are_cached sample_get_cache sample_cache_truthy
              [new_assessment] st1 ∅ 0 stub 1)
    as (Hrow & new' & Hc & Hin & _).
  - reflexivity.
  - reflexivity.
  - now rewrite Hb.
  - exact Htype.
  - exact Hid.
  - vm_compute. left.
  - exists stub, new'. split; [exact Hb |]. split; [exact Hrow |].
    split; [exact Hc | exact Hin].
Defined.

(** *** More on the done state *)

Section MoreDoneState.
Variables NOT_DONE_STATES DONE_STATES : gset string.
Variables FINAL_STATE DONE_STATE : string.

(** X20. When the validation does not raise, the handler returns, makes no
    rollback and touches neither the session nor [flask.g]; the status it
    leaves is the one it found or [DONE_STATE]. *)
Theorem handler_passes_without_rollback (old_value : string) (st : State) :
  ~ preconditions_block NOT_DONE_STATES DONE_STATES old_value st ->
  exists st',
    handle_assessment_done_state NOT_DONE_STATES DONE_STATES FINAL_STATE
      DONE_STATE old_value st = (Ok tt, st') /\
    session st' = session st /\ g st' = g st /\
    (Assessment.status (obj st') = Assessment.status (obj st) \/
     Assessment.status (obj st') = DONE_STATE).
Proof.
  intros Hnb. unfold handle_assessment_done_state, try_except.
  rewrite (validate_not_blocked _ _ _ _ _ _ Hnb).
  destruct (_ && _ && _ && _).
  - eexists. split; [reflexivity |]. cbn. auto.
  - exists st. auto.
Qed.

End MoreDoneState.

Lemma handler_passes_without_rollback_witness :
  exists st',
    handle_assessment_done_state sample_NOT_DONE_STATES sample_DONE_STATES
      sample_FINAL_STATE sample_DONE_STATE "In Review"
      (sample_state completed_assessment) = (Ok tt, st') /\
    session st' = session (sample_state completed_assessment) /\
    g st' = g (sample_state completed_assessment) /\
    (Assessment.status (obj st')
     = Assessment.status (obj (sample_state completed_assessment)) \/
     Assessment.status (obj st') = sample_DONE_STATE).
Proof.
  apply (handler_passes_without_rollback sample_NOT_DONE_STATES
           sample_DONE_STATES sample_FINAL_STATE sample_DONE_STATE
           "In Review" (sample_state completed_assessment)).
  intros (Hold & _). apply (bool_decide_pack _) in Hold.
  vm_compute in Hold. exact Hold.
Defined.

(** *** More on the creation hook *)

Lemma untouched_by_hook_refl s : untouched_by_hook s s.
Proof. repeat split. Qed.

Lemma untouched_by_hook_trans s1 s2 s3 :
  untouched_by_hook s1 s2 -> untouched_by_hook s2 s3 ->
  untouched_by_hook s1 s3.
Proof.
  unfold untouched_by_hook.
  intros (? & ? & ? & ? & ? & ? & ?) (? & ? & ? & ? & ? & ? & ?).
  repeat split; congruence.
Qed.

Ltac untouching :=
  keeping untouched_by_hook_refl untouched_by_hook_trans
    ltac:(repeat split).

Section MoreCreation.
Variable get_custom_roles_for : string -> list (Z * string).
Variable get_acl_with_role_name :
  Assessment.t -> string -> option AccessControlList.t.
Variable table_singular : string.
Variable utcnow : nat -> Z.
Variable get_current_user_id : Z.
Variable iter_set : gset Z -> list Z.
Variable map_to : Assessment.t -> related -> Session -> Session.

Local Abbreviation _mark_cads_to_batch_insert :=
  (_mark_cads_to_batch_insert table_singular utcnow get_current_user_id).
Local Abbreviation _mark_acps_to_batch_insert :=
  (_mark_acps_to_batch_insert get_acl_with_role_name utcnow
     get_current_user_id).
Local Abbreviation _generate_assignee_relations :=
  (_generate_assignee_relations get_acl_with_role_name utcnow
     get_current_user_id iter_set).
Local Abbreviation _generate_role_people_map :=
  (_generate_role_people_map get_custom_roles_for).
Local Abbreviation _relate_assignees :=
  (_relate_assignees get_custom_roles_for get_acl_with_role_name utcnow
     get_current_user_id iter_set).
Local Abbreviation _handle_assessment :=
  (_handle_assessment get_custom_roles_for get_acl_with_role_name
     table_singular utcnow get_current_user_id iter_set map_to).

Lemma datetime_utcnow_untouched :
  keeps untouched_by_hook (datetime_utcnow utcnow).
Proof. intros s. repeat split. Qed.

Lemma mark_cads_untouched ca_definitions :
  keeps untouched_by_hook (_mark_cads_to_batch_insert ca_definitions).
Proof.
  unfold AssessmentHooks._mark_cads_to_batch_insert, clone_cad_stub,
    append_cad.
  untouching; apply datetime_utcnow_untouched.
Qed.

Lemma mark_acps_untouched person role_name :
  keeps untouched_by_hook (_mark_acps_to_batch_insert person role_name).
Proof.
  unfold AssessmentHooks._mark_acps_to_batch_insert, add_person_to_acl,
    append_acp.
  untouching; apply datetime_utcnow_untouched.
Qed.

Lemma next_role_id_untouched roles name :
  keeps untouched_by_hook (next_role_id roles name).
Proof.
  induction roles as [| [id_ role_name] roles IH]; cbn; [untouching |].
  destruct (String.eqb role_name name); [untouching | exact IH].
Qed.

Lemma snapshot_role_people_untouched acr_dict snapshot acls :
  forall m,
    keeps untouched_by_hook (snapshot_role_people acr_dict snapshot acls m).
Proof.
  induction acls as [| acl acls IH]; intros m; cbn; [untouching |].
  destruct (items_get acr_dict (RevisionContent.ac_role_id acl))
    as [[| c r] |]; untouching; apply IH.
Qed.

Lemma relate_assignees_untouched snapshot content template audit :
  keeps untouched_by_hook
    (_relate_assignees snapshot content template audit).
Proof.
  unfold AssessmentHooks._relate_assignees,
    AssessmentHooks._generate_role_people_map,
    AssessmentHooks._generate_assignee_relations.
  untouching;
    first [ apply next_role_id_untouched
          | apply snapshot_role_people_untouched
          | apply mark_acps_untouched ].
Qed.

(** X21. Whatever it is given, and whether it returns or raises, the
    creation hook touches the session through [assessment.map_to] only: it
    inserts no row and logs nothing in the cache, the stubs it makes wait
    in [flask.g].  It leaves the id, the status, the verified flag, the
    verifiers and the failed preconditions of the assessment as they
    were. *)
Theorem handle_assessment_defers_inserts (audit : Audit.t)
    (tmpl : option AssessmentTemplate.t) (snapshot : option Snapshot.t)
    (snapshot_rev_content : option RevisionContent.t)
    (is_autogenerated : bool) (st : State) :
  let st' :=
    snd (_handle_assessment audit tmpl snapshot snapshot_rev_content
           is_autogenerated st) in
  session st'
  = map_to (obj st) (RelatedAudit audit)
      (map_to (obj st) (RelatedSnapshot snapshot) (session st)) /\
  cache_new st' = cache_new st /\
  Assessment.id (obj st') = Assessment.id (obj st) /\
  Assessment.status (obj st') = Assessment.status (obj st) /\
  Assessment.verified (obj st') = Assessment.verified (obj st) /\
  Assessment.verifiers (obj st') = Assessment.verifiers (obj st) /\
  Assessment.preconditions_failed (obj st')
  = Assessment.preconditions_failed (obj st).
Proof.
  set (s1 := with_session (map_to (obj st) (RelatedAudit audit))
               (with_session
                  (map_to (obj st) (RelatedSnapshot snapshot)) st)).
  assert (Hkeep : keeps untouched_by_hook
            (bind (match tmpl with
                   | Some t =>
                       bind (set_sox_302_enabled tmpl)
                         (fun _ =>
                            _mark_cads_to_batch_insert
                              (AssessmentTemplate.custom_attribute_definitions
                                 t))
                   | None => ret tt
                   end)
               (fun _ =>
                  if negb (is_autogenerated || negb (is_None snapshot))
                  then ret tt
                  else
                    bind (_relate_assignees snapshot snapshot_rev_content
                            tmpl audit)
                      (fun _ =>
                         bind (set_title audit snapshot_rev_content)
                           (fun _ =>
                              bind (set_test_plan tmpl snapshot_rev_content)
                                (fun _ => set_assessment_type tmpl)))))).
  { unfold set_sox_302_enabled, set_title, set_test_plan,
      set_assessment_type.
    untouching;
      first [ apply next_role_id_untouched
            | apply snapshot_role_people_untouched ]. }
  exact (Hkeep s1).
Qed.

(** X22. For an assessment marked as generated but given no snapshot, the
    hook raises [AttributeError] when it comes to the assignees, after it
    has copied the flag and marked the definitions of the template: the
    title and the test plan are as they were. *)
Theorem generated_without_snapshot_raises (audit : Audit.t)
    (tmpl : option AssessmentTemplate.t)
    (snapshot_rev_content : option RevisionContent.t) (st : State) :
  exists st',
    _handle_assessment audit tmpl None snapshot_rev_content true st
    = (Raise (AttributeError
                "'NoneType' object has no attribute 'child_type'"), st') /\
    Assessment.title (obj st') = Assessment.title (obj st) /\
    Assessment.test_plan (obj st') = Assessment.test_plan (obj st) /\
    acps_to_batch_insert (g st') = acps_to_batch_insert (g st).
Proof.
  set (s0 := with_session (map_to (obj st) (RelatedAudit audit))
               (with_session (map_to (obj st) (RelatedSnapshot None)) st)).
  destruct tmpl as [t |].
  - set (s1 := with_obj (Assessment.set_sox_302_enabled
                           (Some (AssessmentTemplate.sox_302_enabled t))) s0).
    destruct (mark_cads_ok table_singular utcnow get_current_user_id
                (AssessmentTemplate.custom_attribute_definitions t) s1)
      as (s2 & cad_stubs & R2 & _ & Hacps2 & (Ho2 & _) & _).
    exists s2. split; [| rewrite Ho2, Hacps2; repeat split].
    assert (Htail :
             bind (_mark_cads_to_batch_insert
                     (AssessmentTemplate.custom_attribute_definitions t))
               (fun _ =>
                  bind (_relate_assignees None snapshot_rev_content (Some t)
                          audit)
                    (fun _ =>
                       bind (set_title audit snapshot_rev_content)
                         (fun _ =>
                            bind (set_test_plan (Some t) snapshot_rev_content)
                              (fun _ => set_assessment_type (Some t)))))
               s1
             = (Raise (AttributeError
                         "'NoneType' object has no attribute 'child_type'"),
                s2))
      by (now rewrite (bind_ok _ _ _ _ _ R2)).
    exact Htail.
  - exists s0. split; [reflexivity | repeat split].
Qed.

End MoreCreation.

(** *** More on the people of the roles *)

Section MoreRolePeople.
Variable get_custom_roles_for : string -> list (Z * string).

Local Abbreviation _generate_role_people_map :=
  (_generate_role_people_map get_custom_roles_for).

(** X23. When the roles of audits have no role called "Auditors", or none
    called "Audit Captains", [_generate_role_people_map] raises
    [StopIteration] and leaves the state as it was. *)
Theorem missing_audit_role_stops_iteration (audit : Audit.t)
    (snapshot : Snapshot.t) (content : option RevisionContent.t)
    (st : State) :
  role_id_of (get_custom_roles_for "Audit") "Auditors" = None \/
  role_id_of (get_custom_roles_for "Audit") "Audit Captains" = None ->
  _generate_role_people_map audit (Some snapshot) content st
  = (Raise StopIteration, st).
Proof.
  intros H. unfold AssessmentHooks._generate_role_people_map.
  unfold bind at 1. unfold ret at 1.
  unfold bind at 1. rewrite next_role_id_eq.
  destruct (role_id_of (get_custom_roles_for "Audit") "Auditors")
    as [auditor_role_id |]; [| reflexivity].
  destruct H as [[=] | H].
  unfold bind at 1. rewrite next_role_id_eq, H. reflexivity.
Qed.

(** X24. The entries of the revision's list whose role is not among the
    roles of the snapshot's type, or has no name, give nobody to any
    role; each is logged, with the id of the snapshot and the id of the
    role, in the order of the list. *)
Theorem unknown_roles_are_logged (audit : Audit.t) (snapshot : Snapshot.t)
    (content : RevisionContent.t) (acls : list RevisionContent.acl_entry)
    (auditor_role_id captain_role_id : Z) (st : State) :
  role_id_of (get_custom_roles_for "Audit") "Auditors"
  = Some auditor_role_id ->
  role_id_of (get_custom_roles_for "Audit") "Audit Captains"
  = Some captain_role_id ->
  RevisionContent.access_control_list content = Some acls ->
  let acr_dict := get_custom_roles_for (Snapshot.child_type snapshot) in
  exists m st',
    _generate_role_people_map audit (Some snapshot) (Some content) st
    = (Ok m, st') /\
    log st'
    = log st
      ++ ((fun acl => (Snapshot.id snapshot, RevisionContent.ac_role_id acl))
            <$> unknown_role_entries acr_dict acls) /\
    (forall role people,
       role <> "Audit Lead" -> role <> "Auditors" ->
       m !! role = Some people ->
       forall person_id,
         person_id ∈ people ->
         exists acl,
           acl ∈ acls /\ RevisionContent.person_id acl = person_id /\
           items_get acr_dict (RevisionContent.ac_role_id acl) = Some role).
Proof.
  intros Haud Hcap Hacl acr_dict.
  destruct (generate_role_people_map_exact get_custom_roles_for audit
              snapshot content acls
              auditor_role_id captain_role_id Haud Hcap Hacl)
    as (m & _ & _ & Hother & Hempty & Hrun).
  destruct (Hrun st) as (st' & R & Hlog & _).
  exists m, st'. split; [exact R |]. split; [exact Hlog |].
  intros role people Hl Ha Hlookup person_id Hin.
  destruct (decide (role = "")) as [-> | Hr]; [congruence |].
  rewrite (Hother role Hr Hl Ha) in Hlookup.
  assert (Hp : person_id ∈ snapshot_people acr_dict acls role).
  { fold acr_dict in Hlookup.
    destruct (snapshot_people acr_dict acls role); [discriminate |].
    now injection Hlookup as ->. }
  unfold snapshot_people in Hp. apply list_elem_of_fmap in Hp.
  destruct Hp as (acl & -> & Hacl'). apply list_elem_of_filter in Hacl'.
  exists acl. tauto.
Qed.

(** X25. Without a template, the assignees of a generated assessment are
    the people the snapshot's list gives the role "Principal Assignees",
    and the people of "Audit Lead" when it gives none; the verifiers are
    the auditors, and the people of "Audit Lead" when there is none. *)
Theorem default_people_fall_back_to_audit_lead (audit : Audit.t)
    (snapshot : Snapshot.t) (content : RevisionContent.t)
    (acls : list RevisionContent.acl_entry)
    (auditor_role_id captain_role_id : Z) (st : State) :
  role_id_of (get_custom_roles_for "Audit") "Auditors"
  = Some auditor_role_id ->
  role_id_of (get_custom_roles_for "Audit") "Audit Captains"
  = Some captain_role_id ->
  RevisionContent.access_control_list content = Some acls ->
  let acr_dict := get_custom_roles_for (Snapshot.child_type snapshot) in
  let leads :=
    snapshot_people acr_dict acls "Audit Lead"
    ++ audit_people audit captain_role_id in
  let auditors :=
    snapshot_people acr_dict acls "Auditors"
    ++ audit_people audit auditor_role_id in
  let principal := snapshot_people acr_dict acls "Principal Assignees" in
  let template_settings : gmap string people_setting :=
    <["assignees" := RoleName "Principal Assignees"]>
      (<["verifiers" := RoleName "Auditors"]> ∅) in
  exists m st',
    _generate_role_people_map audit (Some snapshot) (Some content) st
    = (Ok m, st') /\
    _get_people_ids_by_role "assignees" "Audit Lead" template_settings m
    = match principal with [] => leads | _ => principal end /\
    _get_people_ids_by_role "verifiers" "Auditors" template_settings m
    = match auditors with [] => leads | _ => auditors end.
Proof.
  intros Haud Hcap Hacl acr_dict leads auditors principal template_settings.
  destruct (generate_role_people_map_exact get_custom_roles_for audit
              snapshot content acls
              auditor_role_id captain_role_id Haud Hcap Hacl)
    as (m & Hl & Ha & Hother & _ & Hrun).
  destruct (Hrun st) as (st' & R & _).
  exists m, st'. split; [exact R |].
  fold acr_dict in Hl, Ha, Hother. fold leads in Hl, Ha.
  fold auditors in Ha.
  unfold _get_people_ids_by_role, template_settings. split.
  - rewrite lookup_insert_eq. cbn iota.
    rewrite (Hother "Principal Assignees") by discriminate.
    fold principal. rewrite Hl. now destruct principal.
  - rewrite lookup_insert_ne by discriminate. rewrite lookup_insert_eq.
    cbn iota. rewrite Ha. now destruct auditors.
Qed.

End MoreRolePeople.

Lemma missing_audit_role_stops_iteration_witness :
  _generate_role_people_map sample_roles_without_auditors sample_audit
    (Some sample_snapshot) (Some sample_content) (sample_state new_assessment)
  = (Raise StopIteration, sample_state new_assessment).
Proof.
  apply (missing_audit_role_stops_iteration sample_roles_without_auditors
           sample_audit sample_snapshot (Some sample_content)
           (sample_state new_assessment)).
  left. reflexivity.
Defined.

Lemma unknown_roles_are_logged_witness :
  exists m st',
    _generate_role_people_map sample_roles sample_audit
      (Some sample_snapshot) (Some sample_content)
      (sample_state new_assessment)
    = (Ok m, st') /\
    log st' = [(5, 99)] /\
    (forall role people,
       role <> "Audit Lead" -> role <> "Auditors" ->
       m !! role = Some people ->
       forall person_id,
         person_id ∈ people ->
         exists acl,
           acl ∈ [RevisionContent.mk_acl 11 7; RevisionContent.mk_acl 99 3] /\
           RevisionContent.person_id acl = person_id /\
           items_get (sample_roles "Control") (RevisionContent.ac_role_id acl)
           = Some role).
Proof.
  apply (unknown_roles_are_logged sample_roles sample_audit sample_snapshot
           sample_content
           [RevisionContent.mk_acl 11 7; RevisionContent.mk_acl 99 3]
           2 1 (sample_state new_assessment));
    reflexivity.
Defined.

Lemma default_people_fall_back_to_audit_lead_witness :
  exists m st',
    _generate_role_people_map sample_roles sample_audit
      (Some sample_snapshot) (Some sample_content)
      (sample_state new_assessment)
    = (Ok m, st') /\
    _get_people_ids_by_role "assignees" "Audit Lead"
      (<["assignees" := RoleName "Principal Assignees"]>
         (<["verifiers" := RoleName "Auditors"]> ∅)) m
    = [7] /\
    _get_people_ids_by_role "verifiers" "Auditors"
      (<["assignees" := RoleName "Principal Assignees"]>
         (<["verifiers" := RoleName "Auditors"]> ∅)) m
    = [8].
Proof.
  apply (default_people_fall_back_to_audit_lead sample_roles sample_audit
           sample_snapshot sample_content
           [RevisionContent.mk_acl 11 7; RevisionContent.mk_acl 99 3]
           2 1 (sample_state new_assessment));
    reflexivity.
Defined.

(** *** The stubs of access control people *)

Section MoreAssignees.
Variable get_acl_with_role_name :
  Assessment.t -> string -> option AccessControlList.t.
Variable utcnow : nat -> Z.
Variable get_current_user_id : Z.
Variable iter_set : gset Z -> list Z.

Local Abbreviation _mark_acps_to_batch_insert :=
  (_mark_acps_to_batch_insert get_acl_with_role_name utcnow
     get_current_user_id).
Local Abbreviation _generate_assignee_relations :=
  (_generate_assignee_relations get_acl_with_role_name utcnow
     get_current_user_id iter_set).

Section Sound.
Variables assignee_ids verifier_ids creator_ids : list Z.
Variable people_rows : list Person.t.
Variable person_dict : gmap Z Person.t.
Hypothesis person_dict_ids :
  forall k p, person_dict !! k = Some p -> Person.id p = k.
Hypothesis person_dict_rows :
  forall k p, person_dict !! k = Some p -> p ∈ people_rows.

Local Abbreviation stub_for :=
  (fun a : Assessment.t =>
     acp_stub_for get_acl_with_role_name a people_rows
       (assignee_roles assignee_ids verifier_ids creator_ids)).

Lemma marked_if_sound (test : bool) person role_name ids st :
  person ∈ people_rows ->
  (role_name, ids) ∈ assignee_roles assignee_ids verifier_ids creator_ids ->
  (test = true -> Person.id person ∈ ids) ->
  exists st' new,
    (if test then _mark_acps_to_batch_insert person role_name else ret tt) st
    = (Ok tt, st') /\
    acps_extended st st' new /\
    Forall (stub_for (obj st)) new.
Proof.
  intros Hperson Hrole Hids. destruct test.
  - destruct (mark_acps_ok get_acl_with_role_name utcnow get_current_user_id
                person role_name st)
      as (st' & new & Hrun & Hb & Hc & Hf & Hnew).
    exists st', new. split; [exact Hrun |]. split.
    + unfold acps_extended. rewrite Hb. cbn. auto.
    + destruct (get_acl_with_role_name (obj st) role_name) as [acl |] eqn:Ha.
      * destruct Hnew as (stub & -> & Hstub). constructor; [| constructor].
        exists person, role_name, ids, acl. auto.
      * subst new. constructor.
  - exists st, []. split; [reflexivity |].
    split; [apply acps_extended_refl | constructor].
Qed.

Lemma relate_sound person_id st :
  exists st' new,
    match person_dict !! person_id with
    | None => ret tt
    | Some person =>
        bind (if bool_decide (Person.id person ∈ assignee_ids)
              then _mark_acps_to_batch_insert person "Assignees"
              else ret tt)
          (fun _ =>
             bind (if bool_decide (person_id ∈ verifier_ids)
                   then _mark_acps_to_batch_insert person "Verifiers"
                   else ret tt)
               (fun _ =>
                  if bool_decide (person_id ∈ creator_ids)
                  then _mark_acps_to_batch_insert person "Creators"
                  else ret tt))
    end st = (Ok tt, st') /\
    acps_extended st st' new /\
    Forall (stub_for (obj st)) new.
Proof.
  destruct (person_dict !! person_id) as [person |] eqn:Hp.
  - pose proof (person_dict_ids _ _ Hp) as Hid.
    pose proof (person_dict_rows _ _ Hp) as Hrow.
    destruct (marked_if_sound (bool_decide (Person.id person ∈ assignee_ids))
                person "Assignees" assignee_ids st Hrow)
      as (s1 & n1 & R1 & E1 & F1);
      [left | apply bool_decide_eq_true |].
    destruct (marked_if_sound (bool_decide (person_id ∈ verifier_ids))
                person "Verifiers" verifier_ids s1 Hrow)
      as (s2 & n2 & R2 & E2 & F2);
      [right; left | rewrite Hid; apply bool_decide_eq_true |].
    destruct (marked_if_sound (bool_decide (person_id ∈ creator_ids))
                person "Creators" creator_ids s2 Hrow)
      as (s3 & n3 & R3 & E3 & F3);
      [right; right; left | rewrite Hid; apply bool_decide_eq_true |].
    assert (O1 : obj s1 = obj st) by apply E1.
    assert (O2 : obj s2 = obj st) by (rewrite <- O1; apply E2).
    rewrite O1 in F2. rewrite O2 in F3.
    exists s3, (n1 ++ n2 ++ n3). split; [| split].
    + rewrite (bind_ok _ _ _ _ _ R1), (bind_ok _ _ _ _ _ R2). exact R3.
    + eapply acps_extended_trans; [exact E1 |].
      eapply acps_extended_trans; eassumption.
    + rewrite !Forall_app. auto.
  - exists st, []. split; [reflexivity |].
    split; [apply acps_extended_refl | constructor].
Qed.

Lemma relate_loop_sound (people_ids : list Z) :
  forall st,
    exists st' new,
      for_each people_ids
        (fun person_id =>
           match person_dict !! person_id with
           | None => ret tt
           | Some person =>
               bind (if bool_decide (Person.id person ∈ assignee_ids)
                     then _mark_acps_to_batch_insert person "Assignees"
                     else ret tt)
                 (fun _ =>
                    bind (if bool_decide (person_id ∈ verifier_ids)
                          then _mark_acps_to_batch_insert person "Verifiers"
                          else ret tt)
                      (fun _ =>
                         if bool_decide (person_id ∈ creator_ids)
                         then _mark_acps_to_batch_insert person "Creators"
                         else ret tt))
           end) st
      = (Ok tt, st') /\
      acps_extended st st' new /\
      Forall (stub_for (obj st)) new.
Proof.
  induction people_ids as [| person_id rest IH]; intros st.
  - exists st, []. split; [reflexivity |].
    split; [apply acps_extended_refl | constructor].
  - destruct (relate_sound person_id st) as (s1 & n1 & R1 & E1 & F1).
    destruct (IH s1) as (s2 & n2 & R2 & E2 & F2).
    assert (O1 : obj s1 = obj st) by apply E1.
    rewrite O1 in F2.
    exists s2, (n1 ++ n2). split; [| split].
    + cbn [for_each]. rewrite (bind_ok _ _ _ _ _ R1). exact R2.
    + eapply acps_extended_trans; eassumption.
    + rewrite Forall_app. auto.
Qed.
End Sound.

(** X26. [_generate_assignee_relations] returns, whatever the order in
    which the set of ids is visited, and every stub it adds to the bucket
    is for a person of the people table whose id is among the ids given
    for one of the roles Assignees, Verifiers and Creators, in the list
    the assessment has for that role: an id of no person, or a role the
    assessment has no list for, gives no stub.  Nothing but the bucket and
    the clock changes. *)
Theorem assignee_stubs_are_for_known_people
    (assignee_ids verifier_ids creator_ids : list Z) (st : State) :
  exists st' new,
    _generate_assignee_relations assignee_ids verifier_ids creator_ids st
    = (Ok tt, st') /\
    default [] (acps_to_batch_insert (g st'))
    = default [] (acps_to_batch_insert (g st)) ++ new /\
    Forall (acp_stub_for get_acl_with_role_name (obj st)
              (people (transaction (session st)))
              (assignee_roles assignee_ids verifier_ids creator_ids))
      new /\
    cads_to_batch_insert (g st') = cads_to_batch_insert (g st) /\
    obj st' = obj st /\ session st' = session st /\
    cache_new st' = cache_new st /\ log st' = log st.
Proof.
  set (people_ids :=
         list_to_set (assignee_ids ++ verifier_ids ++ creator_ids) : gset Z).
  set (rows := filter (fun i => Person.id i ∈ people_ids)
                 (people (transaction (session st)))).
  set (person_dict :=
         foldl (fun d i => <[Person.id i := i]> d) (∅ : gmap Z Person.t)
           rows).
  assert (Hids : forall k p, person_dict !! k = Some p -> Person.id p = k).
  { apply person_dict_id. intros k p. rewrite lookup_empty. discriminate. }
  assert (Hrows : forall k p,
             person_dict !! k = Some p ->
             p ∈ people (transaction (session st))).
  { intros k p Hp. apply person_dict_elem in Hp.
    destruct Hp as [Hp | Hp]; [rewrite lookup_empty in Hp; discriminate |].
    unfold rows in Hp. apply list_elem_of_filter in Hp. tauto. }
  destruct (relate_loop_sound assignee_ids verifier_ids creator_ids
              (people (transaction (session st))) person_dict Hids Hrows
              (iter_set people_ids) st)
    as (st' & new & R & (Hb & Hc & Ho & Hs & Hk & Hl) & F).
  exists st', new. split; [exact R |]. repeat split; assumption.
Qed.

End MoreAssignees.

(** *** The objects a source names *)

Lemma size_of_lookup {A} (d : gmap string A) k v :
  d !! k = Some v -> Nat.eqb (size d) 0 = false.
Proof.
  intros H. apply Nat.eqb_neq. intros Hs. apply map_size_empty_iff in Hs.
  subst d. rewrite lookup_empty in H. discriminate.
Qed.

Section MoreSource.
Variable Model : Type.
Variable model_id : Model -> Z.
Variable referenced_objects_get : json -> result Model.

Local Abbreviation _get_object_from_src :=
  (_get_object_from_src Model model_id referenced_objects_get).

(** X27. [_get_object_from_src], with the getter of the id under [key],
    returns [None] exactly when the source names no object under [key]:
    no entry, an entry that is false (null, an empty dict, ...), or a dict
    whose "id" is missing or null.  This does not depend on the current
    object or on the lookup: the current object is dropped then, and a
    lookup never gives [None]. *)
Theorem object_from_src_is_None_iff (key : string) (src : gmap string json)
    (current : option Model) :
  _get_object_from_src src (get_id_of key) current = Ok None <->
  names_no_id key src.
Proof.
  unfold AssessmentHooks._get_object_from_src, get_id_of, names_no_id.
  destruct (src !! key) as [v |]; [| tauto].
  assert (Hlook : forall id_,
             id_ <> JNull ->
             (if match current with
                 | None => true
                 | Some c => id_differs (model_id c) id_
                 end
              then match referenced_objects_get id_ with
                   | Ok o => Ok (Some o)
                   | Raise e => Raise e
                   end
              else Ok current) <> Ok None).
  { intros id_ _. destruct current as [c |].
    - destruct (id_differs (model_id c) id_); [| discriminate].
      destruct (referenced_objects_get id_); discriminate.
    - destruct (referenced_objects_get id_); discriminate. }
  destruct (json_truthy v) eqn:Ht; [| tauto].
  destruct v as [| b | z | s | l | d]; cbn in Ht; try discriminate;
    try (split; [discriminate | intros [[=] | (d' & [=] & _)]]).
  split.
  - intros H. right. exists d. split; [reflexivity |].
    destruct (d !! "id") as [i |]; [| now left]. right. cbn in H.
    destruct i; try reflexivity; exfalso; revert H; now apply Hlook.
  - intros [[=] | (d' & [= <-] & [-> | ->])]; reflexivity.
Qed.

(** X28. When the source names, under [key], the id the current object
    has, [_get_object_from_src] returns the current object and looks
    nothing up: the result is the same whatever the lookup would give or
    raise. *)
Theorem object_from_src_keeps_current (key : string)
    (src d : gmap string json) (c : Model) :
  src !! key = Some (JObject d) ->
  d !! "id" = Some (JInt (model_id c)) ->
  _get_object_from_src src (get_id_of key) (Some c) = Ok (Some c).
Proof.
  intros Hsrc Hid.
  unfold AssessmentHooks._get_object_from_src, get_id_of.
  rewrite Hsrc. cbn [json_truthy]. rewrite (size_of_lookup _ _ _ Hid).
  cbn [negb]. rewrite Hid. cbn. now rewrite Z.eqb_refl.
Qed.

(** X29. When the source names an id under [key] and there is no current
    object, or the current object has another id, the result of
    [_get_object_from_src] is that of the lookup of this id: the object
    found, or the exception the lookup raises. *)
Theorem object_from_src_looks_up (key : string) (src d : gmap string json)
    (z : Z) (current : option Model) :
  src !! key = Some (JObject d) ->
  d !! "id" = Some (JInt z) ->
  (forall c, current = Some c -> model_id c <> z) ->
  _get_object_from_src src (get_id_of key) current
  = match referenced_objects_get (JInt z) with
    | Ok o => Ok (Some o)
    | Raise e => Raise e
    end.
Proof.
  intros Hsrc Hid Hcur.
  unfold AssessmentHooks._get_object_from_src, get_id_of.
  rewrite Hsrc. cbn [json_truthy]. rewrite (size_of_lookup _ _ _ Hid).
  cbn [negb]. rewrite Hid. cbn.
  destruct current as [c |]; [| reflexivity].
  specialize (Hcur c eq_refl).
  apply Z.eqb_neq in Hcur. now rewrite Hcur.
Qed.

(** X30. When the entry of the source under [key] is true and is not a
    dict (a number, a string, a list), [_get_object_from_src] raises
    [AttributeError], whatever the current object is. *)
Theorem object_from_src_rejects_bare_values (key : string)
    (src : gmap string json) (v : json) (current : option Model) :
  src !! key = Some v ->
  json_truthy v = true ->
  (forall d, v <> JObject d) ->
  exists msg,
    _get_object_from_src src (get_id_of key) current
    = Raise (AttributeError msg).
Proof.
  intros Hsrc Ht Hv.
  unfold AssessmentHooks._get_object_from_src, get_id_of.
  rewrite Hsrc, Ht.
  destruct v; try (eexists; reflexivity).
  now destruct (Hv d).
Qed.

End MoreSource.

Lemma object_from_src_keeps_current_witness :
  _get_object_from_src Audit.t Audit.id (fun _ => Raise (KeyError "gone"))
    sample_src _get_audit_id (Some sample_audit)
  = Ok (Some sample_audit).
Proof.
  apply (object_from_src_keeps_current Audit.t Audit.id
           (fun _ => Raise (KeyError "gone")) "audit" sample_src
           (<["id" := JInt 3]> (<["type" := JStr "Audit"]> ∅)) sample_audit);
    reflexivity.
Defined.

Lemma object_from_src_looks_up_witness :
  _get_object_from_src Audit.t Audit.id sample_audits
    sample_src _get_audit_id None
  = Ok (Some sample_audit).
Proof.
  apply (object_from_src_looks_up Audit.t Audit.id sample_audits "audit"
           sample_src (<["id" := JInt 3]> (<["type" := JStr "Audit"]> ∅))
           3 None).
  - reflexivity.
  - reflexivity.
  - discriminate.
Defined.

Lemma object_from_src_rejects_bare_values_witness :
  exists msg,
    _get_object_from_src Audit.t Audit.id sample_audits
      sample_src_with_bare_id _get_audit_id (Some sample_audit)
    = Raise (AttributeError msg).
Proof.
  apply (object_from_src_rejects_bare_values Audit.t Audit.id sample_audits
           "audit" sample_src_with_bare_id (JInt 3) (Some sample_audit)).
  - reflexivity.
  - reflexivity.
  - discriminate.
Defined.

(** A source whose audit is null names no audit, and the current audit
    is dropped. *)
Example sample_src_without_audit_gives_None :
  _get_object_from_src Audit.t Audit.id sample_audits
    sample_src_without_audit _get_audit_id (Some sample_audit)
  = Ok None.
Proof. reflexivity. Qed.

(** The sample creation marks three stubs, and each is for a person of
    the people table. *)
Example sample_assignee_stubs :
  let st := sample_state new_assessment in
  let st' :=
    snd (_generate_assignee_relations sample_get_acl sample_utcnow 9
           sample_iter_set [7; 404] [8] [9] st) in
  (fun stub => (stub !! "person_id", stub !! "ac_list_id"))
    <$> default [] (acps_to_batch_insert (g st'))
  = [(Some (PyInt 7), Some (PyInt 101));
     (Some (PyInt 9), Some (PyInt 103));
     (Some (PyInt 8), Some (PyInt 102))].
Proof. vm_compute. reflexivity. Qed.

End AssessmentHooksProofs.

